(** * Auction settlement engine of the EtherMon marketplace

    A shallow embedding of the auction, bid and balance logic found in
    [backend/app.py], [backend/services/auction_service.py],
    [backend/services/bid_service.py], [backend/jobs/auction_processor.py],
    [backend/utils/validators.py] and the repositories they call, followed
    by the properties of the settlement engine that the specification
    states and by further properties read off the code.

    Modelling conventions

    - A SQLite table is the list of its rows in rowid order.  [UPDATE ... WHERE]
      is a [map] that rewrites the rows matching the predicate, [INSERT] appends
      a row, [SELECT ... LIMIT 1] / [fetchone()] takes the first matching row.
    - The REAL columns (prices, bid amounts, balances) are exact rationals
      ([Q]); equalities between amounts are stated with [==].  Rounding of
      IEEE doubles is outside the model.
    - SQL NULL and Python [None] are [None]; Python truthiness ([if x], [x or y],
      [not x]) is written out: [None], [0] and [0.0] are false.
    - A [sqlite3] connection is a pair of database states: the last committed
      one and the working one that [execute] changes; [commit] copies the
      working state to the committed one and [rollback] does the reverse.
    - The [notifications], [price_history], [activity], [watchlist] and [users]
      tables and e-mail delivery are write-only sinks for the functions
      embedded here (nothing they store is read back by bidding, cancellation
      or settlement), so they are left out, together with the [expires_at],
      [title], [price] and timestamp columns. *)

From Stdlib Require Import List Bool Arith ZArith QArith Qminmax Qabs String Lia Lqa.
From Stdlib Require Import DecimalString.
Import ListNotations.

(* ================================================================== *)
(** ** Data model *)
(* ================================================================== *)

Inductive AuctionStatus := StOpen | StClosed | StCancelled.

Inductive TxType :=
  TDeposit | TWithdrawal | TBid | TBidIncrease | TBidDecrease | TBidRefund
| TPurchase | TSale.

Inductive TxStatus := TxPending | TxCompleted | TxCancelled.

Inductive ListingType := LFixed | LAuction.

Record Auction := mkAuction {
  au_id : nat;
  au_artwork_id : nat;
  au_seller_id : option nat;
  au_start_price : Q;
  au_reserve_price : option Q;
  au_end_time : Z;
  au_status : AuctionStatus;
  au_winner_id : option nat
}.

Record Bid := mkBid {
  bid_id : nat;
  bid_auction_id : nat;
  bid_bidder_id : nat;
  bid_amount : Q;
  bid_is_active : bool
}.

Record Balance := mkBalance {
  bal_user_id : nat;
  available_balance : Q;
  pending_balance : Q
}.

Record Transaction := mkTransaction {
  tx_user_id : nat;
  tx_type : TxType;
  tx_amount : Q;
  tx_status : TxStatus;
  tx_description : string;
  tx_artwork_id : option nat
}.

Record Artwork := mkArtwork {
  ar_id : nat;
  ar_owner_id : nat;
  ar_is_listed : bool;
  ar_listing_type : option ListingType
}.

Record DB := mkDB {
  auctions : list Auction;
  bids : list Bid;
  balances : list Balance;
  transactions : list Transaction;
  artworks : list Artwork
}.

Definition with_auctions (db : DB) (l : list Auction) : DB :=
  mkDB l (bids db) (balances db) (transactions db) (artworks db).
Definition with_bids (db : DB) (l : list Bid) : DB :=
  mkDB (auctions db) l (balances db) (transactions db) (artworks db).
Definition with_balances (db : DB) (l : list Balance) : DB :=
  mkDB (auctions db) (bids db) l (transactions db) (artworks db).
Definition with_transactions (db : DB) (l : list Transaction) : DB :=
  mkDB (auctions db) (bids db) (balances db) l (artworks db).
Definition with_artworks (db : DB) (l : list Artwork) : DB :=
  mkDB (auctions db) (bids db) (balances db) (transactions db) l.

(** Exceptions of [utils/exceptions.py], plus Python's [ValueError]. *)
Inductive Error :=
| NotFoundError (message : string)
| PermissionError (message : string)
| ValidationError (message : string)
| ValueError (message : string).

(** [str(exc)] *)
Definition error_message (e : Error) : string :=
  match e with
  | NotFoundError m | PermissionError m | ValidationError m | ValueError m => m
  end.

Inductive result (A : Type) :=
| Ok (a : A)
| Raise (e : Error).
Arguments Ok {A} a.
Arguments Raise {A} e.

Definition bind {A B} (r : result A) (k : A -> result B) : result B :=
  match r with Ok a => k a | Raise e => Raise e end.

Notation "x <- r ;; k" := (bind r (fun x => k))
  (at level 61, r at next level, right associativity).

(** A [sqlite3] connection with Python's default (deferred) transaction
    handling. *)
Record Connection := mkConn { committed : DB; working : DB }.

Definition commit (c : Connection) : Connection := mkConn (working c) (working c).
Definition rollback (c : Connection) : Connection := mkConn (committed c) (committed c).
Definition execute (f : DB -> DB) (c : Connection) : Connection :=
  mkConn (committed c) (f (working c)).

(* ================================================================== *)
(** ** Python and SQL primitives *)
(* ================================================================== *)

Definition status_eqb (a b : AuctionStatus) : bool :=
  match a, b with
  | StOpen, StOpen | StClosed, StClosed | StCancelled, StCancelled => true
  | _, _ => false
  end.

Definition txstatus_eqb (a b : TxStatus) : bool :=
  match a, b with
  | TxPending, TxPending | TxCompleted, TxCompleted | TxCancelled, TxCancelled => true
  | _, _ => false
  end.

(** [type IN ('bid', 'bid_increase')] *)
Definition is_bid_tx (t : TxType) : bool :=
  match t with TBid | TBidIncrease => true | _ => false end.

(** [artwork_id = ?]: a NULL on either side never matches. *)
Definition sql_eq_id (column parameter : option nat) : bool :=
  match column, parameter with
  | Some a, Some b => Nat.eqb a b
  | _, _ => false
  end.

(** Truth value of an integer id that may be [None]. *)
Definition truthy_id (x : option nat) : bool :=
  match x with Some (S _) => true | _ => false end.

(** Truth value of a float that may be [None]. *)
Definition truthy_amount (x : option Q) : bool :=
  match x with Some q => negb (Qeq_bool q 0) | None => false end.

Definition Qlt_bool (a b : Q) : bool := negb (Qle_bool b a).

(** [max(0, x)] *)
Definition max0 (x : Q) : Q := if Qlt_bool 0 x then x else 0.

(** [Config.PLATFORM_FEE_RATE], default ["0.025"]. *)
Definition PLATFORM_FEE_RATE : Q := 25 # 1000.

(** Modelled from the spec: [schema.sql], which declares the column defaults
    of the [balances] table, is not among the sources.  Section 4.1 gives a
    freshly created ledger row a zero balance, so a column left out of an
    [INSERT INTO balances] is 0. *)
Definition balances_column_default : Q := 0.

(** *** balances *)

Definition find_balance (user_id : nat) (db : DB) : option Balance :=
  find (fun r => Nat.eqb (bal_user_id r) user_id) (balances db).

(** [UPDATE balances SET ... WHERE user_id = ?], the new row computed from
    the old one by [f]. *)
Definition update_balance (user_id : nat) (f : Balance -> Balance) (db : DB) : DB :=
  with_balances db
    (map (fun r => if Nat.eqb (bal_user_id r) user_id then f r else r) (balances db)).

Definition insert_balance (user_id : nat) (available pending : Q) (db : DB) : DB :=
  with_balances db (balances db ++ [mkBalance user_id available pending]).

(** [INSERT OR IGNORE INTO balances (user_id) VALUES (?)] *)
Definition ensure_balance (user_id : nat) (db : DB) : DB :=
  match find_balance user_id db with
  | Some _ => db
  | None => insert_balance user_id balances_column_default balances_column_default db
  end.

(** The balance a reader sees, an absent row read as zero
    ([balance["available_balance"] if balance else 0]). *)
Definition available_of (user_id : nat) (db : DB) : Q :=
  match find_balance user_id db with Some r => available_balance r | None => 0 end.
Definition pending_of (user_id : nat) (db : DB) : Q :=
  match find_balance user_id db with Some r => pending_balance r | None => 0 end.

(** *** bids *)

Definition active_in (auction_id : nat) (b : Bid) : bool :=
  Nat.eqb (bid_auction_id b) auction_id && bid_is_active b.

Definition active_bids (auction_id : nat) (db : DB) : list Bid :=
  filter (active_in auction_id) (bids db).

(** [ORDER BY amount DESC LIMIT 1]: the largest amount; among equal amounts
    the row met first. *)
Fixpoint top_bid (l : list Bid) : option Bid :=
  match l with
  | [] => None
  | b :: rest =>
      match top_bid rest with
      | None => Some b
      | Some m => if Qle_bool (bid_amount m) (bid_amount b) then Some b else Some m
      end
  end.

(** [BidRepository.find_winning_bid] and the identical query of
    [_process_ended_auction]. *)
Definition find_winning_bid (auction_id : nat) (db : DB) : option Bid :=
  top_bid (active_bids auction_id db).

(** The computed columns [current_bid] ([MAX(b.amount)]) and
    [highest_bidder_id] that the auction queries add to each row. *)
Definition current_bid (auction_id : nat) (db : DB) : option Q :=
  option_map bid_amount (top_bid (active_bids auction_id db)).
Definition highest_bidder_id (auction_id : nat) (db : DB) : option nat :=
  option_map bid_bidder_id (top_bid (active_bids auction_id db)).

Record BidderGroup := mkGroup {
  g_bidder_id : nat;
  total_amount : Q;
  bid_count : nat
}.

Definition sum_amounts (l : list Bid) : Q :=
  fold_right (fun b acc => bid_amount b + acc) 0 l.

Definition bids_of_bidder (bidder_id : nat) (l : list Bid) : list Bid :=
  filter (fun b => Nat.eqb (bid_bidder_id b) bidder_id) l.

(** [SELECT bidder_id, SUM(amount), COUNT( * ) ... GROUP BY bidder_id] over the
    rows [l].  SQL leaves the order of the groups open; one group per
    bidder is what the callers rely on. *)
Definition group_by_bidder (l : list Bid) : list BidderGroup :=
  map (fun u => mkGroup u (sum_amounts (bids_of_bidder u l))
                          (List.length (bids_of_bidder u l)))
      (nodup Nat.eq_dec (map bid_bidder_id l)).

(** The row after [SET is_active = 0]. *)
Definition inactive (b : Bid) : Bid :=
  mkBid (bid_id b) (bid_auction_id b) (bid_bidder_id b) (bid_amount b) false.

(** [UPDATE bids SET is_active = 0 WHERE auction_id = ? AND bidder_id = ? AND is_active = 1] *)
Definition deactivate_bids_of (auction_id bidder_id : nat) (db : DB) : DB :=
  with_bids db
    (map (fun b => if active_in auction_id b && Nat.eqb (bid_bidder_id b) bidder_id
                   then inactive b else b) (bids db)).

(** [UPDATE bids SET is_active = 0 WHERE auction_id = ? AND is_active = 1] *)
Definition deactivate_bids (auction_id : nat) (db : DB) : DB :=
  with_bids db
    (map (fun b => if active_in auction_id b
                   then inactive b else b) (bids db)).

(** *** transactions *)

Definition insert_transaction (t : Transaction) (db : DB) : DB :=
  with_transactions db (transactions db ++ [t]).

(** [UPDATE transactions SET status = ? WHERE user_id = ? AND artwork_id = ?
     AND type IN ('bid', 'bid_increase') AND status = 'pending'] *)
Definition set_pending_bid_transactions
    (new_status : TxStatus) (user_id : nat) (artwork_id : option nat) (db : DB) : DB :=
  with_transactions db
    (map (fun t => if Nat.eqb (tx_user_id t) user_id
                      && sql_eq_id (tx_artwork_id t) artwork_id
                      && is_bid_tx (tx_type t)
                      && txstatus_eqb (tx_status t) TxPending
                   then mkTransaction (tx_user_id t) (tx_type t) (tx_amount t)
                                      new_status (tx_description t) (tx_artwork_id t)
                   else t) (transactions db)).

(** *** auctions and artworks *)

Definition find_auction (auction_id : nat) (db : DB) : option Auction :=
  find (fun a => Nat.eqb (au_id a) auction_id) (auctions db).

(** [UPDATE auctions SET status = 'closed', winner_id = ? WHERE id = ?] *)
Definition close_auction_row (auction_id : nat) (winner : option nat) (db : DB) : DB :=
  with_auctions db
    (map (fun a => if Nat.eqb (au_id a) auction_id
                   then mkAuction (au_id a) (au_artwork_id a) (au_seller_id a)
                                  (au_start_price a) (au_reserve_price a) (au_end_time a)
                                  StClosed winner
                   else a) (auctions db)).

(** [UPDATE auctions SET status = ? WHERE id = ?] *)
Definition set_auction_status (auction_id : nat) (s : AuctionStatus) (db : DB) : DB :=
  with_auctions db
    (map (fun a => if Nat.eqb (au_id a) auction_id
                   then mkAuction (au_id a) (au_artwork_id a) (au_seller_id a)
                                  (au_start_price a) (au_reserve_price a) (au_end_time a)
                                  s (au_winner_id a)
                   else a) (auctions db)).

(** [ArtworkRepository.find_by_id]; the inner joins with [users] keep the row
    because foreign keys are enforced. *)
Definition find_artwork (artwork_id : nat) (db : DB) : option Artwork :=
  find (fun a => Nat.eqb (ar_id a) artwork_id) (artworks db).

Definition update_artwork (artwork_id : nat) (f : Artwork -> Artwork) (db : DB) : DB :=
  with_artworks db
    (map (fun a => if Nat.eqb (ar_id a) artwork_id then f a else a) (artworks db)).

(** [{"owner_id": winner_id, "is_listed": 0}] *)
Definition transfer_to (winner_id : nat) (a : Artwork) : Artwork :=
  mkArtwork (ar_id a) winner_id false (ar_listing_type a).
(** [{"is_listed": 0}] *)
Definition unlist (a : Artwork) : Artwork :=
  mkArtwork (ar_id a) (ar_owner_id a) false (ar_listing_type a).
(** [SET is_listed = 0, listing_type = NULL] *)
Definition unlist_clear (a : Artwork) : Artwork :=
  mkArtwork (ar_id a) (ar_owner_id a) false None.

(** [INSERT INTO bids (auction_id, bidder_id, amount, expires_at, is_active)
     VALUES (?, ?, ?, ?, 1)]; the new row takes the next id. *)
Definition insert_bid (auction_id bidder_id : nat) (amount : Q) (db : DB) : DB :=
  with_bids db
    (bids db ++ [mkBid (S (list_max (map bid_id (bids db)))) auction_id bidder_id amount true]).

(** [UPDATE bids SET is_active = 0 WHERE id = ?] *)
Definition deactivate_bid (id : nat) (db : DB) : DB :=
  with_bids db (map (fun b => if Nat.eqb (bid_id b) id then inactive b else b) (bids db)).

(** [UPDATE bids SET amount = ? WHERE id = ?] *)
Definition set_bid_amount (id : nat) (amount : Q) (db : DB) : DB :=
  with_bids db
    (map (fun b => if Nat.eqb (bid_id b) id
                   then mkBid (bid_id b) (bid_auction_id b) (bid_bidder_id b) amount
                              (bid_is_active b)
                   else b) (bids db)).

(** [SELECT ... FROM bids WHERE auction_id = ? AND bidder_id = ? AND is_active = 1],
    first row. *)
Definition find_active_by_bidder (auction_id bidder_id : nat) (db : DB) : option Bid :=
  find (fun b => active_in auction_id b && Nat.eqb (bid_bidder_id b) bidder_id) (bids db).

(** [auction["current_bid"] or auction["start_price"]] *)
Definition min_bid_of (auction : Auction) (db : DB) : Q :=
  match current_bid (au_id auction) db with
  | Some c => if truthy_amount (Some c) then c else au_start_price auction
  | None => au_start_price auction
  end.

(* ================================================================== *)
(** ** backend/repositories/bid_repository.py *)
(* ================================================================== *)

Module BidRepository.

(** [BidRepository.deactivate_by_auction]:
    [UPDATE bids SET is_active = 0 WHERE auction_id = ?] *)
Definition deactivate_by_auction (auction_id : nat) (db : DB) : DB :=
  with_bids db
    (map (fun b => if Nat.eqb (bid_auction_id b) auction_id then inactive b else b)
         (bids db)).

End BidRepository.

(* ================================================================== *)
(** ** backend/utils/validators.py *)
(* ================================================================== *)

Module Validators.

(** The request body of an auction creation: the keys that
    [validate_auction_create] reads, [None] for a key that is absent or
    null.  Texts are strings and prices are numbers. *)
Record AuctionData := mkAuctionData {
  title : option string;
  description : option string;
  category : option string;
  start_price : option Q;
  reserve_price : option Q;
  end_time : option string;
  image_url : option string
}.

(** [bool(data.get(field))]: an absent key, [None], [""] and [0] are false. *)
Definition truthy_text (x : option string) : bool :=
  match x with Some s => negb (String.eqb s "") | None => false end.

Definition field_truthy (data : AuctionData) (field : string) : bool :=
  if String.eqb field "title" then truthy_text (title data)
  else if String.eqb field "description" then truthy_text (description data)
  else if String.eqb field "category" then truthy_text (category data)
  else if String.eqb field "start_price" then truthy_amount (start_price data)
  else if String.eqb field "reserve_price" then truthy_amount (reserve_price data)
  else if String.eqb field "end_time" then truthy_text (end_time data)
  else if String.eqb field "image_url" then truthy_text (image_url data)
  else false.

(** [validate_required_fields(data, required)] *)
Definition validate_required_fields (data : AuctionData) (required : list string)
  : result unit :=
  let missing := filter (fun field => negb (field_truthy data field)) required in
  match missing with
  | [] => Ok tt
  | _ => Raise (ValidationError
                  (String.append "Missing required fields: " (String.concat ", " missing)))
  end.

(** [validate_price(price)] *)
Definition validate_price (price : option Q) : result unit :=
  match price with
  | Some p => if Qlt_bool p 0 then Raise (ValidationError "Price must be non-negative")
              else Ok tt
  | None => Ok tt
  end.

(** [data.get("start_price", 0)] where a comparison follows; the key is
    present with a number once the required fields are checked. *)
Definition start_price_or_0 (data : AuctionData) : Q :=
  match start_price data with Some p => p | None => 0 end.

(** [validate_auction_create(data)] *)
Definition validate_auction_create (data : AuctionData) : result unit :=
  _ <- validate_required_fields data
         ["title"; "description"; "category"; "start_price"; "end_time"; "image_url"]%string ;;
  _ <- validate_price (start_price data) ;;
  _ <- validate_price (reserve_price data) ;;
  if Qlt_bool (start_price_or_0 data) 0 then
    Raise (ValidationError "Start price must be non-negative")
  else
    match reserve_price data with
    | Some r =>
        if Qlt_bool r (start_price_or_0 data) then
          Raise (ValidationError
                   "Reserve price must be greater than or equal to start price")
        else Ok tt
    | None => Ok tt
    end.

End Validators.

(* ================================================================== *)
(** ** backend/repositories/balance_repository.py *)
(* ================================================================== *)

Module BalanceRepository.

Inductive Column := available_balance_col | pending_balance_col.

(** One [key = key + ?] clause: [update] emits this form for every value
    that is an [int] or a [float]. *)
Definition add_to (r : Balance) (kv : Column * Q) : Balance :=
  match fst kv with
  | available_balance_col =>
      mkBalance (bal_user_id r) (available_balance r + snd kv) (pending_balance r)
  | pending_balance_col =>
      mkBalance (bal_user_id r) (available_balance r) (pending_balance r + snd kv)
  end.

(** [BalanceRepository.update(user_id, updates, connection)] for numeric
    values: [UPDATE balances SET k1 = k1 + ?, ... WHERE user_id = ?]. *)
Definition update (user_id : nat) (updates : list (Column * Q)) (db : DB) : DB :=
  match updates with
  | [] => db
  | _ => update_balance user_id (fun r => fold_left add_to updates r) db
  end.

(** [BalanceRepository.get_available_balance] *)
Definition get_available_balance (user_id : nat) (db : DB) : Q :=
  match find_balance user_id db with
  | Some balance => available_balance balance
  | None => 0
  end.

End BalanceRepository.

(* ================================================================== *)
(** ** backend/services/auction_service.py *)
(* ================================================================== *)

Module AuctionService.

(** [_refund_bidder]; the notification it ends with is not modelled. *)
Definition _refund_bidder
    (auction_id artwork_id bidder_id : nat) (total_refund_amount : Q)
    (description : string) (db : DB) : DB :=
  let db :=
    match find_balance bidder_id db with
    | Some bidder_balance =>
        let new_available := available_balance bidder_balance + total_refund_amount in
        let new_pending := max0 (pending_balance bidder_balance - total_refund_amount) in
        update_balance bidder_id
          (fun r => mkBalance (bal_user_id r) new_available new_pending) db
    | None =>
        insert_balance bidder_id total_refund_amount balances_column_default db
    end in
  let db := set_pending_bid_transactions TxCancelled bidder_id (Some artwork_id) db in
  let db := insert_transaction
              (mkTransaction bidder_id TBidRefund total_refund_amount TxCompleted
                             description (Some artwork_id)) db in
  deactivate_bids_of auction_id bidder_id db.

(** The loops [for bidder in ...: self._refund_bidder(...)] over the rows of
    a grouping query. *)
Definition refund_all
    (auction_id artwork_id : nat) (description : string)
    (groups : list BidderGroup) (db : DB) : DB :=
  fold_left
    (fun db bidder =>
       _refund_bidder auction_id artwork_id (g_bidder_id bidder)
                      (total_amount bidder) description db)
    groups db.

(** [_process_successful_sale] *)
Definition _process_successful_sale
    (auction_id artwork_id winner_id : nat) (winning_amount : Q)
    (seller_id : nat) (db : DB) : DB :=
  let platform_fee := winning_amount * PLATFORM_FEE_RATE in
  let seller_receives := winning_amount - platform_fee in
  let db := update_artwork artwork_id (transfer_to winner_id) db in
  let db :=
    match find_balance winner_id db with
    | Some buyer_balance =>
        let new_pending := max0 (pending_balance buyer_balance - winning_amount) in
        BalanceRepository.update winner_id
          [(BalanceRepository.pending_balance_col, new_pending)] db
    | None => insert_balance winner_id 0 0 db
    end in
  let db :=
    match find_balance seller_id db with
    | Some seller_balance =>
        BalanceRepository.update seller_id
          [(BalanceRepository.available_balance_col,
            available_balance seller_balance + seller_receives)] db
    | None => insert_balance seller_id seller_receives balances_column_default db
    end in
  let db := insert_transaction
              (mkTransaction winner_id TPurchase winning_amount TxCompleted
                             "Auction won" (Some artwork_id)) db in
  let db := insert_transaction
              (mkTransaction seller_id TSale seller_receives TxCompleted
                             "Auction sold" (Some artwork_id)) db in
  let losing_bidders :=
    group_by_bidder
      (filter (fun b => negb (Nat.eqb (bid_bidder_id b) winner_id))
              (active_bids auction_id db)) in
  refund_all auction_id artwork_id "Auction ended - bid refunded" losing_bidders db.

(** [_process_reserve_not_met] *)
Definition _process_reserve_not_met (auction_id artwork_id : nat) (db : DB) : DB :=
  let db := update_artwork artwork_id unlist db in
  let all_bidders := group_by_bidder (active_bids auction_id db) in
  refund_all auction_id artwork_id "Reserve price not met - bid refunded" all_bidders db.

(** [seller_id = auction.get("seller_id")], and when that is [None] or 0
    the artwork's owner; a missing artwork raises. *)
Definition seller_of (auction : Auction) (db : DB) : result nat :=
  match au_seller_id auction with
  | Some (S n) => Ok (S n)
  | _ =>
      match find_artwork (au_artwork_id auction) db with
      | None => Raise (NotFoundError "Artwork not found")
      | Some artwork => Ok (ar_owner_id artwork)
      end
  end.

(** [if winner_id and winning_amount and reserve_price:
       if winning_amount < reserve_price: reserve_not_met = True] *)
Definition reserve_not_met_of (winning_bid : option Bid) (reserve_price : option Q) : bool :=
  match winning_bid, reserve_price with
  | Some w, Some r =>
      truthy_id (Some (bid_bidder_id w)) && truthy_amount (Some (bid_amount w))
      && truthy_amount (Some r) && Qlt_bool (bid_amount w) r
  | _, _ => false
  end.

(** [process_ended_auction(connection, auction)] *)
Definition process_ended_auction (auction : Auction) (db : DB) : result DB :=
  let auction_id := au_id auction in
  let artwork_id := au_artwork_id auction in
  seller_id <- seller_of auction db ;;
  let winning_bid := find_winning_bid auction_id db in
  let winner_id := option_map bid_bidder_id winning_bid in
  let winning_amount := option_map bid_amount winning_bid in
  let reserve_not_met := reserve_not_met_of winning_bid (au_reserve_price auction) in
  let final_winner_id := if reserve_not_met then None else winner_id in
  let db := close_auction_row auction_id final_winner_id db in
  if truthy_id final_winner_id && truthy_amount winning_amount then
    match winning_bid with
    | Some w =>
        Ok (_process_successful_sale auction_id artwork_id (bid_bidder_id w)
                                     (bid_amount w) seller_id db)
    | None => Ok db
    end
  else if reserve_not_met then
    Ok (_process_reserve_not_met auction_id artwork_id db)
  else
    Ok (update_artwork artwork_id unlist db).

End AuctionService.

(* ================================================================== *)
(** ** backend/jobs/auction_processor.py *)
(* ================================================================== *)

(** [WHERE au.status = 'open' AND au.end_time <= ?] *)
Definition ended_auctions (now : Z) (db : DB) : list Auction :=
  filter (fun au => status_eqb (au_status au) StOpen && (au_end_time au <=? now)%Z)
         (auctions db).

Module Jobs.

(** One turn of the [for auction in ended_auctions] loop. *)
Definition job_step (db : Connection) (auction : Auction) : Connection :=
  match AuctionService.process_ended_auction auction (working db) with
  | Ok d => mkConn (committed db) d
  | Raise _ => rollback db
  end.

(** [process_ended_auctions_job()], from the database it finds to the
    database it leaves. *)
Definition process_ended_auctions_job (now : Z) (database : DB) : DB :=
  let db := mkConn database database in
  let ended := ended_auctions now (working db) in
  let db := fold_left job_step ended db in
  committed (commit db).

End Jobs.

(* ================================================================== *)
(** ** backend/app.py *)
(* ================================================================== *)

(** A JSON response: the [status] field of a 200 answer, or the status code
    and [error] field of a failure. *)
Inductive Response :=
| Success (status : string)
| Failure (code : nat) (error : string).

Module App.

(** The refund block that [_process_ended_auction] repeats for each bidder
    of the reserve-not-met loop and of the losing-bidders loop; the two
    copies differ in the description of the [bid_refund] transaction. *)
Definition refund_bidder_block
    (auction_id artwork_id : nat) (description : string)
    (db : DB) (bidder : BidderGroup) : DB :=
  let bidder_id := g_bidder_id bidder in
  let total_refund_amount := total_amount bidder in
  let db :=
    match find_balance bidder_id db with
    | Some bidder_balance =>
        let new_available := available_balance bidder_balance + total_refund_amount in
        let new_pending := max0 (pending_balance bidder_balance - total_refund_amount) in
        update_balance bidder_id
          (fun r => mkBalance (bal_user_id r) new_available new_pending) db
    | None =>
        insert_balance bidder_id total_refund_amount balances_column_default db
    end in
  let db := set_pending_bid_transactions TxCancelled bidder_id (Some artwork_id) db in
  let db := insert_transaction
              (mkTransaction bidder_id TBidRefund total_refund_amount TxCompleted
                             description (Some artwork_id)) db in
  deactivate_bids_of auction_id bidder_id db.

(** [str(artwork_id)] *)
Definition str_of_id (n : nat) : string := NilZero.string_of_uint (Nat.to_uint n).

(** [seller_id] of [_process_ended_auction], with its
    [ValueError(f"Artwork {artwork_id} not found")]. *)
Definition seller_of (auction : Auction) (db : DB) : result nat :=
  match au_seller_id auction with
  | Some (S n) => Ok (S n)
  | _ =>
      match find_artwork (au_artwork_id auction) db with
      | None => Raise (ValueError (String.append "Artwork "
                                     (String.append (str_of_id (au_artwork_id auction))
                                                    " not found")))
      | Some artwork => Ok (ar_owner_id artwork)
      end
  end.

(** The successful-sale branch, lines 223-355. *)
Definition sale_block
    (artwork_id winner_id : nat) (winning_amount : Q) (seller_id : nat) (db : DB) : DB :=
  let platform_fee := winning_amount * PLATFORM_FEE_RATE in
  let seller_receives := winning_amount - platform_fee in
  let db := update_artwork artwork_id (transfer_to winner_id) db in
  let db :=
    match find_balance winner_id db with
    | Some buyer_balance =>
        let new_pending := max0 (pending_balance buyer_balance - winning_amount) in
        update_balance winner_id
          (fun r => mkBalance (bal_user_id r) (available_balance r) new_pending) db
    | None => insert_balance winner_id 0 0 db
    end in
  let db :=
    match find_balance seller_id db with
    | Some _ =>
        update_balance seller_id
          (fun r => mkBalance (bal_user_id r) (available_balance r + seller_receives)
                              (pending_balance r)) db
    | None => insert_balance seller_id seller_receives balances_column_default db
    end in
  let db := set_pending_bid_transactions TxCompleted winner_id (Some artwork_id) db in
  let db := insert_transaction
              (mkTransaction winner_id TPurchase winning_amount TxCompleted
                             "Auction won" (Some artwork_id)) db in
  insert_transaction
    (mkTransaction seller_id TSale seller_receives TxCompleted
                   "Auction sold" (Some artwork_id)) db.

(** [_process_ended_auction(connection, auction)] *)
Definition _process_ended_auction (auction : Auction) (db : DB) : result DB :=
  let auction_id := au_id auction in
  let artwork_id := au_artwork_id auction in
  seller_id <- seller_of auction db ;;
  let winning_bid := find_winning_bid auction_id db in
  let winner_id := option_map bid_bidder_id winning_bid in
  let winning_amount := option_map bid_amount winning_bid in
  let reserve_not_met :=
    AuctionService.reserve_not_met_of winning_bid (au_reserve_price auction) in
  let final_winner_id := if reserve_not_met then None else winner_id in
  let db := close_auction_row auction_id final_winner_id db in
  let refund_losers (db : DB) : DB :=
    match final_winner_id with
    | Some (S n) =>
        let losing_bidders :=
          group_by_bidder
            (filter (fun b => negb (Nat.eqb (bid_bidder_id b) (S n)))
                    (active_bids auction_id db)) in
        fold_left (refund_bidder_block auction_id artwork_id
                                       "Auction ended - bid refunded")
                  losing_bidders db
    | _ => db
    end in
  if truthy_id winner_id && truthy_amount winning_amount && negb reserve_not_met then
    match winning_bid with
    | Some w =>
        Ok (refund_losers
              (sale_block artwork_id (bid_bidder_id w) (bid_amount w) seller_id db))
    | None => Ok db
    end
  else
    let db := update_artwork artwork_id unlist_clear db in
    if reserve_not_met then
      let all_bidders := group_by_bidder (active_bids auction_id db) in
      Ok (fold_left (refund_bidder_block auction_id artwork_id
                                         "Reserve price not met - bid refunded")
                    all_bidders db)
    else
      Ok (refund_losers db).

(** The artwork id that [refund_active_bids] reads through
    [artworks ar JOIN auctions au ON ar.id = au.artwork_id WHERE au.id = ?]. *)
Definition artwork_id_of_auction (auction_id : nat) (db : DB) : option nat :=
  match find_auction auction_id db with
  | Some au => option_map ar_id (find_artwork (au_artwork_id au) db)
  | None => None
  end.

(** [refund_active_bids(connection, auction_id)] *)
Definition refund_active_bids (auction_id : nat) (db : DB) : DB :=
  let artwork_id := artwork_id_of_auction auction_id db in
  let bidders := group_by_bidder (active_bids auction_id db) in
  let db :=
    fold_left
      (fun db bidder =>
         let bidder_id := g_bidder_id bidder in
         let total_refund_amount := total_amount bidder in
         let db := ensure_balance bidder_id db in
         let db :=
           update_balance bidder_id
             (fun r => mkBalance (bal_user_id r)
                         (available_balance r + total_refund_amount)
                         (if Qlt_bool total_refund_amount (pending_balance r)
                          then pending_balance r - total_refund_amount else 0)) db in
         let db := set_pending_bid_transactions TxCancelled bidder_id artwork_id db in
         insert_transaction
           (mkTransaction bidder_id TBidRefund total_refund_amount TxCompleted
                          "Auction cancelled - bid refunded" artwork_id) db)
      bidders db in
  deactivate_bids auction_id db.

(** [cancel_auction(connection, auction_id, status="cancelled")] *)
Definition cancel_auction (auction_id : nat) (status : AuctionStatus) (db : DB) : DB :=
  match find_auction auction_id db with
  | None => db
  | Some _ =>
      let db := refund_active_bids auction_id db in
      set_auction_status auction_id status db
  end.

(** [POST /api/auctions/<auction_id>/close], from the database the request
    finds to the response and the database it leaves. *)
Definition close_auction (session_user_id auction_id : nat) (database : DB)
  : Response * DB :=
  let g_db := mkConn database database in
  match find (fun au => Nat.eqb (au_id au) auction_id
                        && sql_eq_id (au_seller_id au) (Some session_user_id))
             (auctions (working g_db)) with
  | None => (Failure 404 "Auction not found", committed g_db)
  | Some auction =>
      match _process_ended_auction auction (working g_db) with
      | Ok d => (Success "closed", committed (commit (mkConn (committed g_db) d)))
      | Raise exc => (Failure 400 (error_message exc), committed (rollback g_db))
      end
  end.

(** One turn of the loop of [process_ended_auctions]. *)
Definition process_step (st : Connection * list nat) (auction : Auction)
  : Connection * list nat :=
  match _process_ended_auction auction (working (fst st)) with
  | Ok d => (mkConn (committed (fst st)) d, snd st ++ [au_id auction])
  | Raise _ => (rollback (fst st), snd st)
  end.

(** [POST /api/auctions/process-ended]: the ids it reports and the
    database it leaves. *)
Definition process_ended_auctions (now : Z) (database : DB) : list nat * DB :=
  let g_db := mkConn database database in
  let ended := ended_auctions now (working g_db) in
  let st := fold_left process_step ended (g_db, []) in
  (snd st, committed (commit (fst st))).


(** [POST /api/artworks/<artwork_id>/bids].  [now] is [datetime.utcnow()];
    [au_end_time] is the instant that [datetime.fromisoformat] reads from the
    [end_time] column, which the application writes with [isoformat()].  A
    response other than 200 leaves without [commit], so the database file
    keeps its state. *)
Definition place_bid_on_artwork
    (session_user_id artwork_id : nat) (amount : option Q) (now : Z) (database : DB)
  : Response * DB :=
  let g_db := database in
  match amount with
  | None => (Failure 400 "Bid amount required", database)
  | Some bid_value =>
  match find (fun au => Nat.eqb (au_artwork_id au) artwork_id
                        && status_eqb (au_status au) StOpen) (auctions g_db) with
  | None => (Failure 400 "No active auction for this artwork", database)
  | Some auction =>
  if (au_end_time auction <=? now)%Z then
    (Failure 400 "Auction has already ended", database)
  else if sql_eq_id (au_seller_id auction) (Some session_user_id) then
    (Failure 400 "Cannot bid on your own artwork", database)
  else
    let min_bid := min_bid_of auction g_db in
    let existing_bid := find_active_by_bidder (au_id auction) session_user_id g_db in
    match existing_bid with
    | Some existing =>
        (* safety check: other active bids of this user on this auction *)
        let g_db :=
          with_bids g_db
            (map (fun b => if active_in (au_id auction) b
                              && Nat.eqb (bid_bidder_id b) session_user_id
                              && negb (Nat.eqb (bid_id b) (bid_id existing))
                           then inactive b else b) (bids g_db)) in
        let additional := bid_value - bid_amount existing in
        if Qle_bool additional 0 then
          (Failure 400 "New bid must be higher than current bid", database)
        else if Qlt_bool (available_of session_user_id g_db) additional then
          (Failure 400 "Insufficient balance", database)
        else
          let g_db := ensure_balance session_user_id g_db in
          let g_db :=
            update_balance session_user_id
              (fun r => mkBalance (bal_user_id r) (available_balance r - additional)
                                  (pending_balance r + additional)) g_db in
          let g_db := set_bid_amount (bid_id existing) bid_value g_db in
          let g_db := insert_transaction
                        (mkTransaction session_user_id TBidIncrease additional TxPending
                                       "Bid increased" (Some artwork_id)) g_db in
          (Success "bid_placed", g_db)
    | None =>
        if Qlt_bool (available_of session_user_id g_db) bid_value then
          (Failure 400 "Insufficient balance", database)
        else if Qle_bool bid_value min_bid then
          (* f"Bid must exceed ${min_bid}" *)
          (Failure 400 "Bid must exceed min_bid", database)
        else
          let g_db := deactivate_bids_of (au_id auction) session_user_id g_db in
          let g_db := ensure_balance session_user_id g_db in
          let g_db :=
            update_balance session_user_id
              (fun r => mkBalance (bal_user_id r) (available_balance r - bid_value)
                                  (pending_balance r + bid_value)) g_db in
          let g_db := insert_bid (au_id auction) session_user_id bid_value g_db in
          let g_db := insert_transaction
                        (mkTransaction session_user_id TBid bid_value TxPending
                                       "Bid placed" (Some artwork_id)) g_db in
          (Success "bid_placed", g_db)
    end
  end
  end.

(** The bid row of
    [bids b JOIN auctions au ON b.auction_id = au.id
     WHERE b.id = ? AND b.bidder_id = ? AND b.is_active = 1 AND au.status = 'open'],
    the query of [cancel_bid]. *)
Definition own_active_bid_on_open_auction (id user_id : nat) (db : DB) : option Bid :=
  find (fun b => Nat.eqb (bid_id b) id && Nat.eqb (bid_bidder_id b) user_id
                 && bid_is_active b
                 && existsb (fun au => Nat.eqb (au_id au) (bid_auction_id b)
                                       && status_eqb (au_status au) StOpen)
                            (auctions db))
       (bids db).

(** [POST /api/bids/<bid_id>/cancel] *)
Definition cancel_bid (session_user_id id : nat) (database : DB) : Response * DB :=
  let g_db := database in
  match own_active_bid_on_open_auction id session_user_id g_db with
  | None => (Failure 404 "Bid not found", database)
  | Some bid =>
      let g_db := deactivate_bid id g_db in
      let g_db := ensure_balance session_user_id g_db in
      let g_db :=
        update_balance session_user_id
          (fun r => mkBalance (bal_user_id r) (available_balance r + bid_amount bid)
                              (pending_balance r - bid_amount bid)) g_db in
      let artwork_id := option_map au_artwork_id (find_auction (bid_auction_id bid) g_db) in
      let g_db := set_pending_bid_transactions TxCancelled session_user_id artwork_id g_db in
      let g_db := insert_transaction
                    (mkTransaction session_user_id TBidRefund (bid_amount bid) TxCompleted
                                   "Bid cancelled" artwork_id) g_db in
      (Success "bid_cancelled", g_db)
  end.

(** The first row of
    [bids b JOIN auctions au ON b.auction_id = au.id
     WHERE b.id = ? AND b.bidder_id = ? AND b.is_active = 1], the query of
    [update_bid]: the bid and the status of its auction. *)
Definition own_active_bid_with_status (id user_id : nat) (db : DB)
  : option (Bid * AuctionStatus) :=
  match find (fun b => Nat.eqb (bid_id b) id && Nat.eqb (bid_bidder_id b) user_id
                       && bid_is_active b
                       && existsb (fun au => Nat.eqb (au_id au) (bid_auction_id b))
                                  (auctions db))
             (bids db) with
  | Some b =>
      match find_auction (bid_auction_id b) db with
      | Some au => Some (b, au_status au)
      | None => None
      end
  | None => None
  end.

(** [PUT /api/bids/<bid_id>] *)
Definition update_bid (session_user_id id : nat) (new_amount : option Q) (database : DB)
  : Response * DB :=
  let g_db := database in
  match new_amount with
  | None => (Failure 400 "Amount required", database)
  | Some new_amount =>
  match own_active_bid_with_status id session_user_id g_db with
  | None => (Failure 404 "Bid not found", database)
  | Some (bid, status) =>
  if negb (status_eqb status StOpen) then
    (Failure 400 "Auction is not open", database)
  else if Qle_bool new_amount 0 then
    (Failure 400 "Invalid amount", database)
  else
    let difference := new_amount - bid_amount bid in
    let available := available_of session_user_id g_db in
    let pending := pending_of session_user_id g_db in
    if Qlt_bool 0 difference && Qlt_bool available difference then
      (Failure 400 "Insufficient balance", database)
    else
      let g_db := ensure_balance session_user_id g_db in
      let new_available := available - difference in
      let new_pending := pending + difference in
      let g_db :=
        update_balance session_user_id
          (fun r => mkBalance (bal_user_id r) new_available new_pending) g_db in
      let g_db := set_bid_amount id new_amount g_db in
      let g_db :=
        insert_transaction
          (mkTransaction session_user_id
             (if Qlt_bool 0 difference then TBidIncrease else TBidDecrease)
             (Qabs difference)
             (if Qlt_bool 0 difference then TxPending else TxCompleted)
             "Bid amount adjusted"
             (option_map au_artwork_id (find_auction (bid_auction_id bid) g_db))) g_db in
      (Success "bid_updated", g_db)
  end
  end.

(** [POST /api/deposits]; [amount] is the number that [float(...)] returns. *)
Definition deposit (session_user_id : nat) (amount : Q) (database : DB) : Response * DB :=
  if Qle_bool amount 0 then
    (Failure 400 "Invalid amount", database)
  else
    let g_db :=
      update_balance session_user_id
        (fun r => mkBalance (bal_user_id r) (available_balance r + amount)
                            (pending_balance r)) database in
    let g_db := insert_transaction
                  (mkTransaction session_user_id TDeposit amount TxCompleted
                                 "Manual deposit" None) g_db in
    (Success "deposited", g_db).

(** [POST /api/withdrawals] *)
Definition withdraw (session_user_id : nat) (amount : Q) (database : DB) : Response * DB :=
  if Qle_bool amount 0 then
    (Failure 400 "Invalid amount", database)
  else
    match find_balance session_user_id database with
    | None => (Failure 400 "Insufficient funds", database)
    | Some balance =>
        if Qlt_bool (available_balance balance) amount then
          (Failure 400 "Insufficient funds", database)
        else
          let g_db :=
            update_balance session_user_id
              (fun r => mkBalance (bal_user_id r) (available_balance r - amount)
                                  (pending_balance r)) database in
          let g_db := insert_transaction
                        (mkTransaction session_user_id TWithdrawal amount TxCompleted
                                       "Manual withdrawal" None) g_db in
          (Success "withdrawal_completed", g_db)
    end.

(** [POST /api/artworks/<artwork_id>/delist] *)
Definition delist_artwork (session_user_id artwork_id : nat) (database : DB)
  : Response * DB :=
  let g_db := database in
  match find_artwork artwork_id g_db with
  | None => (Failure 404 "Artwork not found", database)
  | Some artwork =>
      if negb (Nat.eqb (ar_owner_id artwork) session_user_id) then
        (Failure 403 "Forbidden", database)
      else
        let open_auction :=
          find (fun au => Nat.eqb (au_artwork_id au) artwork_id
                          && status_eqb (au_status au) StOpen) (auctions g_db) in
        let g_db :=
          match open_auction with
          | Some au => cancel_auction (au_id au) StCancelled g_db
          | None => g_db
          end in
        let g_db := update_artwork artwork_id unlist_clear g_db in
        (Success "delisted", g_db)
  end.

(** [POST /api/auctions/<auction_id>/bids], the legacy endpoint: it looks up
    the artwork of the open auction and hands over to
    [place_bid_on_artwork]. *)
Definition place_bid (session_user_id auction_id : nat) (amount : option Q) (now : Z)
    (database : DB) : Response * DB :=
  match amount with
  | None => (Failure 400 "Bid amount required", database)
  | Some _ =>
      match find (fun au => Nat.eqb (au_id au) auction_id
                            && status_eqb (au_status au) StOpen) (auctions database) with
      | None => (Failure 400 "Auction not open", database)
      | Some auction =>
          place_bid_on_artwork session_user_id (au_artwork_id auction) amount now database
      end
  end.

(** A JSON number as Python reads it: an [int] of any size or a [float]. *)
Inductive JsonNumber := JInt (z : Z) | JFloat (q : Q).

(** The value of the number, which is also what [float(n)] returns when it
    returns. *)
Definition number_value (n : JsonNumber) : Q :=
  match n with JInt z => inject_Z z | JFloat q => q end.

(** [float(n)] raises [OverflowError] on an [int] too large for a double:
    one whose magnitude rounds to [2^1024]. *)
Definition float_overflows (n : JsonNumber) : bool :=
  match n with
  | JInt z => (2 ^ 1024 - 2 ^ 970 <=? Z.abs z)%Z
  | JFloat _ => false
  end.

(** Passing [n] as a SQL parameter raises [OverflowError] on an [int]
    outside 64 bits. *)
Definition bind_overflows (n : JsonNumber) : bool :=
  match n with
  | JInt z => (z <? - 2 ^ 63)%Z || (2 ^ 63 <=? z)%Z
  | JFloat _ => false
  end.

(** The body of a listing request.  [None] is an absent key.  The prices
    are JSON numbers; [l_duration_hours] is the integer that [int] reads.
    A value that is no number is outside the model. *)
Record ListingData := mkListingData {
  l_type : option string;
  l_price : option JsonNumber;
  l_duration_hours : option Z;
  l_start_price : option JsonNumber;
  l_reserve_price : option JsonNumber
}.

(** Instants are counted in microseconds, the resolution of [datetime],
    from 0001-01-01T00:00:00; [datetime.max] is the last microsecond of the
    year 9999, that of day 3652059: [3652059 * 86400000000 - 1]. *)
Definition datetime_max : Z := 315537897599999999%Z.

(** [now + timedelta(hours=h)] *)
Definition hours_after (now h : Z) : Z := (now + h * 3600000000)%Z.

(** [datetime.utcnow() + timedelta(hours=h)] raises [OverflowError] when
    the sum lies beyond [datetime.max]; a [timedelta] too large to build
    lies beyond it as well. *)
Definition date_overflows (now h : Z) : bool := (datetime_max <? hours_after now h)%Z.

(** The answer of [handle_generic_exception] to an exception that no route
    catches, outside debug mode; nothing has been committed. *)
Definition unexpected_error (database : DB) : Response * DB :=
  (Failure 500 "An unexpected error occurred", database).

(** [SET is_listed = 1, listing_type = ?] *)
Definition list_as (t : ListingType) (a : Artwork) : Artwork :=
  mkArtwork (ar_id a) (ar_owner_id a) true (Some t).

(** [UPDATE auctions SET seller_id = ?, start_price = ?, reserve_price = ?,
     end_time = ?, status = 'open', winner_id = NULL WHERE artwork_id = ?] *)
Definition reopen_auctions
    (artwork_id seller_id : nat) (start_price : Q) (reserve_price : option Q)
    (end_time : Z) (db : DB) : DB :=
  with_auctions db
    (map (fun a => if Nat.eqb (au_artwork_id a) artwork_id
                   then mkAuction (au_id a) (au_artwork_id a) (Some seller_id)
                                  start_price reserve_price end_time StOpen None
                   else a) (auctions db)).

(** Modelled from the spec: [schema.sql], which declares the defaults of
    the [auctions] table, is not among the sources.  Section 4.3 has open
    as the state an auction starts in and section 3 sets the winner only on
    settlement; so the columns [status] and [winner_id] that
    [INSERT INTO auctions (artwork_id, seller_id, start_price, reserve_price,
    end_time)] leaves out are ['open'] and NULL.  The new row takes the next
    id. *)
Definition insert_auction
    (artwork_id seller_id : nat) (start_price : Q) (reserve_price : option Q)
    (end_time : Z) (db : DB) : DB :=
  with_auctions db
    (auctions db ++
     [mkAuction (S (list_max (map au_id (auctions db)))) artwork_id (Some seller_id)
                start_price reserve_price end_time StOpen None]).

(** [POST /api/artworks/<artwork_id>/list]; [now] is [datetime.utcnow()].  A
    response other than 200 leaves without [commit].  [price] and
    [start_price] reach the SQL statements as they came, [reserve_price]
    as the result of [float]. *)
Definition list_artwork
    (session_user_id artwork_id : nat) (data : ListingData) (now : Z) (database : DB)
  : Response * DB :=
  let g_db := database in
  let listing_type := match l_type data with Some t => t | None => "fixed"%string end in
  match find_artwork artwork_id g_db with
  | None => (Failure 404 "Artwork not found", database)
  | Some artwork =>
  if negb (Nat.eqb (ar_owner_id artwork) session_user_id) then
    (Failure 403 "Forbidden", database)
  else
    let open_auction :=
      find (fun au => Nat.eqb (au_artwork_id au) artwork_id
                      && status_eqb (au_status au) StOpen) (auctions g_db) in
    let existing_auction :=
      find (fun au => Nat.eqb (au_artwork_id au) artwork_id) (auctions g_db) in
    if String.eqb listing_type "fixed" then
      match l_price data with
      | None => (Failure 400 "Price required for fixed listing", database)
      | Some price =>
          if float_overflows price then unexpected_error database
          else if Qle_bool (number_value price) 0 then
            (Failure 400 "Price required for fixed listing", database)
          else
            let g_db :=
              match existing_auction with
              | Some au => cancel_auction (au_id au) StCancelled g_db
              | None => g_db
              end in
            if match l_duration_hours data with
               | Some duration_hours => (duration_hours <=? 0)%Z
               | None => false
               end then
              (Failure 400 "Duration must be positive", database)
            else if match l_duration_hours data with
                    | Some duration_hours => date_overflows now duration_hours
                    | None => false
                    end then
              unexpected_error database
            else if bind_overflows price then unexpected_error database
            else
              (Success "listed", update_artwork artwork_id (list_as LFixed) g_db)
      end
    else if negb (String.eqb listing_type "auction") then
      (Failure 400 "Unsupported listing type", database)
    else
      match l_start_price data with
      | None => (Failure 400 "Starting price required for auctions", database)
      | Some start_price =>
          if float_overflows start_price then unexpected_error database
          else if Qle_bool (number_value start_price) 0 then
            (Failure 400 "Starting price required for auctions", database)
          else
            let duration_hours :=
              match l_duration_hours data with Some h => h | None => 24%Z end in
            if (duration_hours <=? 0)%Z then
              (Failure 400 "Duration must be positive", database)
            else if match l_reserve_price data with
                    | Some reserve_price => float_overflows reserve_price
                    | None => false
                    end then
              unexpected_error database
            else if match l_reserve_price data with
                    | Some reserve_price =>
                        Qlt_bool (number_value reserve_price) (number_value start_price)
                    | None => false
                    end then
              (Failure 400 "Reserve price must be greater than or equal to starting price",
               database)
            else
              let reserve_price := option_map number_value (l_reserve_price data) in
              let g_db :=
                match open_auction with
                | Some au => cancel_auction (au_id au) StCancelled g_db
                | None => g_db
                end in
              if date_overflows now duration_hours then unexpected_error database
              else
              let end_time := hours_after now duration_hours in
              if bind_overflows start_price then unexpected_error database
              else
              let g_db :=
                match existing_auction with
                | Some _ =>
                    reopen_auctions artwork_id session_user_id (number_value start_price)
                                    reserve_price end_time g_db
                | None =>
                    insert_auction artwork_id session_user_id (number_value start_price)
                                   reserve_price end_time g_db
                end in
              (Success "listed", update_artwork artwork_id (list_as LAuction) g_db)
      end
  end.

End App.


(* ================================================================== *)
(** ** backend/services/bid_service.py *)
(* ================================================================== *)

Module BidService.

(** [BidService.place_bid(auction_id, bidder_id, amount, connection)] *)
Definition place_bid (auction_id bidder_id : nat) (amount : Q) (db : DB) : result DB :=
  match find_auction auction_id db with
  | None => Raise (NotFoundError "Auction not open")
  | Some auction =>
  if negb (status_eqb (au_status auction) StOpen) then
    Raise (NotFoundError "Auction not open")
  else
  match find_artwork (au_artwork_id auction) db with
  | None => Raise (NotFoundError "Artwork not found")
  | Some artwork =>
  if Nat.eqb (ar_owner_id artwork) bidder_id then
    Raise (PermissionError "Cannot bid on your own auction")
  else
    let min_bid := min_bid_of auction db in
    if Qle_bool amount min_bid then
      Raise (ValidationError "Bid must exceed current price")
    else
      let available := BalanceRepository.get_available_balance bidder_id db in
      if Qlt_bool available amount then
        Raise (ValidationError "Insufficient balance")
      else
        match find_active_by_bidder auction_id bidder_id db with
        | Some existing_bid =>
            let additional := amount - bid_amount existing_bid in
            if Qle_bool additional 0 then
              Raise (ValidationError "New bid must be higher than current bid")
            else
              let db := BalanceRepository.update bidder_id
                          [(BalanceRepository.available_balance_col, - additional);
                           (BalanceRepository.pending_balance_col, additional)] db in
              Ok (set_bid_amount (bid_id existing_bid) amount db)
        | None =>
            let db := BalanceRepository.update bidder_id
                        [(BalanceRepository.available_balance_col, - amount);
                         (BalanceRepository.pending_balance_col, amount)] db in
            Ok (insert_bid auction_id bidder_id amount db)
        end
  end
  end.

(** [BidService.update_bid(bid_id, user_id, new_amount, connection)] *)
Definition update_bid (id user_id : nat) (new_amount : Q) (db : DB) : result DB :=
  match find (fun b => Nat.eqb (bid_id b) id) (bids db) with
  | None => Raise (NotFoundError "Bid not found")
  | Some bid =>
  if negb (Nat.eqb (bid_bidder_id bid) user_id) then
    Raise (PermissionError "You can only update your own bids")
  else
  match find_auction (bid_auction_id bid) db with
  | None => Raise (NotFoundError "Auction not open")
  | Some auction =>
  if negb (status_eqb (au_status auction) StOpen) then
    Raise (NotFoundError "Auction not open")
  else if Qle_bool new_amount (bid_amount bid) then
    Raise (ValidationError "New bid must be higher than current bid")
  else
    let additional := new_amount - bid_amount bid in
    let available := BalanceRepository.get_available_balance user_id db in
    if Qlt_bool available additional then
      Raise (ValidationError "Insufficient balance")
    else
      let db := BalanceRepository.update user_id
                  [(BalanceRepository.available_balance_col, - additional);
                   (BalanceRepository.pending_balance_col, additional)] db in
      Ok (set_bid_amount id new_amount db)
  end
  end.

(** [BidService.cancel_bid(bid_id, user_id, connection)] *)
Definition cancel_bid (id user_id : nat) (db : DB) : result DB :=
  match find (fun b => Nat.eqb (bid_id b) id) (bids db) with
  | None => Raise (NotFoundError "Bid not found")
  | Some bid =>
  if negb (Nat.eqb (bid_bidder_id bid) user_id) then
    Raise (PermissionError "You can only cancel your own bids")
  else
  match find_auction (bid_auction_id bid) db with
  | None => Raise (NotFoundError "Auction not open")
  | Some auction =>
  if negb (status_eqb (au_status auction) StOpen) then
    Raise (NotFoundError "Auction not open")
  else
    let db := BalanceRepository.update user_id
                [(BalanceRepository.available_balance_col, bid_amount bid);
                 (BalanceRepository.pending_balance_col, - bid_amount bid)] db in
    let db := deactivate_bid id db in
    let artwork_id := au_artwork_id auction in
    let db := set_pending_bid_transactions TxCancelled user_id (Some artwork_id) db in
    Ok (insert_transaction
          (mkTransaction user_id TBidRefund (bid_amount bid) TxCompleted
                         "Bid cancelled" (Some artwork_id)) db)
  end
  end.

End BidService.

(* ================================================================== *)
(** ** Observations and sample databases *)
(* ================================================================== *)

(** [sum(available + pending)] over the ledger. *)
Definition total_money (db : DB) : Q :=
  fold_right (fun r acc => available_balance r + pending_balance r + acc) 0 (balances db).

(** The [bid] / [bid_increase] transactions of a user on an artwork that are
    still [pending]. *)
Definition pending_bid_transactions (user_id artwork_id : nat) (db : DB) : list Transaction :=
  filter (fun t => Nat.eqb (tx_user_id t) user_id
                   && sql_eq_id (tx_artwork_id t) (Some artwork_id)
                   && is_bid_tx (tx_type t)
                   && txstatus_eqb (tx_status t) TxPending)
         (transactions db).

Definition status_of (auction_id : nat) (db : DB) : option AuctionStatus :=
  option_map au_status (find_auction auction_id db).

Definition winner_of (auction_id : nat) (db : DB) : option nat :=
  match find_auction auction_id db with
  | Some a => au_winner_id a
  | None => None
  end.

(** The [bids] table once the active bids on the auction of every bidder
    but [winner] are deactivated. *)
Definition losers_deactivated (auction_id winner : nat) (l : list Bid) : list Bid :=
  map (fun b => if active_in auction_id b && negb (Nat.eqb (bid_bidder_id b) winner)
                then inactive b else b) l.

(** What a sale leaves in the [auctions] and [bids] tables: the auction is
    closed with the highest bidder as winner, the other bidders' active bids
    on it are deactivated, every bid row of the winner is as it was, and the
    highest bid is still the active top bid of the auction. *)
Definition sale_keeps_winner_bid (auction : Auction) (highest : Bid) (db db' : DB) : Prop :=
  status_of (au_id auction) db' = Some StClosed /\
  winner_of (au_id auction) db' = Some (bid_bidder_id highest) /\
  bids db' = losers_deactivated (au_id auction) (bid_bidder_id highest) (bids db) /\
  (forall b, In b (bids db) -> bid_bidder_id b = bid_bidder_id highest -> In b (bids db')) /\
  In highest (bids db') /\
  bid_is_active highest = true /\
  find_winning_bid (au_id auction) db' = Some highest /\
  current_bid (au_id auction) db' = Some (bid_amount highest).

(** What a settlement below the reserve leaves behind: the auction closed
    without a winner, the artwork delisted with its owner unchanged, no bid
    active on the auction, and every bidder given back the sum of their
    active bids on it: that much more available and that much less pending,
    never below zero; nobody else's balance changes. *)
Definition everyone_refunded (auction : Auction) (db db' : DB) : Prop :=
  status_of (au_id auction) db' = Some StClosed /\
  winner_of (au_id auction) db' = None /\
  (forall a, find_artwork (au_artwork_id auction) db = Some a ->
     exists a', find_artwork (au_artwork_id auction) db' = Some a'
                /\ ar_is_listed a' = false /\ ar_owner_id a' = ar_owner_id a) /\
  bids db' = bids (deactivate_bids (au_id auction) db) /\
  active_bids (au_id auction) db' = [] /\
  (forall u, In u (map bid_bidder_id (active_bids (au_id auction) db)) ->
     let total := sum_amounts (bids_of_bidder u (active_bids (au_id auction) db)) in
     available_of u db' == available_of u db + total /\
     pending_of u db' == max0 (pending_of u db - total) /\
     (total <= pending_of u db -> pending_of u db' == pending_of u db - total)) /\
  (forall u, ~ In u (map bid_bidder_id (active_bids (au_id auction) db)) ->
     find_balance u db' = find_balance u db).

(** The body of the loop of [refund_active_bids], named so that lemmas can
    speak about one turn of it. *)
Definition cancel_refund_step (artwork_id : option nat) (db : DB) (bidder : BidderGroup)
  : DB :=
  let bidder_id := g_bidder_id bidder in
  let total_refund_amount := total_amount bidder in
  let db := ensure_balance bidder_id db in
  let db :=
    update_balance bidder_id
      (fun r => mkBalance (bal_user_id r)
                  (available_balance r + total_refund_amount)
                  (if Qlt_bool total_refund_amount (pending_balance r)
                   then pending_balance r - total_refund_amount else 0)) db in
  let db := set_pending_bid_transactions TxCancelled bidder_id artwork_id db in
  insert_transaction
    (mkTransaction bidder_id TBidRefund total_refund_amount TxCompleted
                   "Auction cancelled - bid refunded" artwork_id) db.

(** What cancelling an auction leaves behind: the auction cancelled, no bid
    active on it, no artwork changed, and every bidder given back the sum of
    their active bids on it: that much more available and that much less
    pending, never below zero; nobody else's balance changes. *)
Definition auction_cancelled_with_refunds (auction_id : nat) (db db' : DB) : Prop :=
  status_of auction_id db' = Some StCancelled /\
  bids db' = bids (deactivate_bids auction_id db) /\
  active_bids auction_id db' = [] /\
  artworks db' = artworks db /\
  (forall u, In u (map bid_bidder_id (active_bids auction_id db)) ->
     let total := sum_amounts (bids_of_bidder u (active_bids auction_id db)) in
     available_of u db' == available_of u db + total /\
     pending_of u db' == max0 (pending_of u db - total)) /\
  (forall u, ~ In u (map bid_bidder_id (active_bids auction_id db)) ->
     find_balance u db' = find_balance u db).

(** What the settlement of one auction leaves alone: no auction row is added
    or removed and every other auction's row is as it was, while each row of
    this auction is closed; the bids on other auctions are as they were;
    every artwork but the auctioned one is as it was; and the balance row of
    a user who is neither the seller nor a bidder with an active bid on this
    auction is as it was. *)
Definition settles_only_its_auction (auction : Auction) (db db' : DB) : Prop :=
  map au_id (auctions db') = map au_id (auctions db) /\
  (forall other, other <> au_id auction ->
     find_auction other db' = find_auction other db) /\
  (forall a, In a (auctions db') -> au_id a = au_id auction -> au_status a = StClosed) /\
  filter (fun b => negb (Nat.eqb (bid_auction_id b) (au_id auction))) (bids db')
  = filter (fun b => negb (Nat.eqb (bid_auction_id b) (au_id auction))) (bids db) /\
  (forall x, x <> au_artwork_id auction -> find_artwork x db' = find_artwork x db) /\
  (forall seller u,
     AuctionService.seller_of auction db = Ok seller ->
     u <> seller ->
     ~ In u (map bid_bidder_id (active_bids (au_id auction) db)) ->
     find_balance u db' = find_balance u db).

(** The [auctions] table [t] against an earlier one [t0], row by row: the
    rows whose id is in [processed] are closed, the others are as they were. *)
Definition closed_since (processed : list nat) (t0 t : list Auction) : Prop :=
  exists g : Auction -> Auction,
    t = map g t0 /\
    forall a0, au_id (g a0) = au_id a0 /\
               (In (au_id a0) processed -> au_status (g a0) = StClosed) /\
               (~ In (au_id a0) processed -> g a0 = a0).

(** "Their total active-bid amount for this auction": the sum of the
    amounts of the rows of [l] that are active bids of [u] on the auction,
    read off the rows one by one, without the grouping query. *)
Fixpoint active_bid_total (auction_id u : nat) (l : list Bid) : Q :=
  match l with
  | [] => 0
  | b :: rest =>
      if Nat.eqb (bid_auction_id b) auction_id && bid_is_active b
         && Nat.eqb (bid_bidder_id b) u
      then bid_amount b + active_bid_total auction_id u rest
      else active_bid_total auction_id u rest
  end.

(** [u] has an active bid on the auction. *)
Definition has_active_bid (auction_id u : nat) (db : DB) : Prop :=
  exists b, In b (bids db) /\ bid_auction_id b = auction_id /\
            bid_is_active b = true /\ bid_bidder_id b = u.

(** The [bids] table [after] is [before] with every active bid on the
    auction switched off and every other row, and every other column, as it
    was. *)
Definition active_bids_switched_off (auction_id : nat) (before after : list Bid) : Prop :=
  after = map (fun b => if Nat.eqb (bid_auction_id b) auction_id && bid_is_active b
                        then mkBid (bid_id b) (bid_auction_id b) (bid_bidder_id b)
                                   (bid_amount b) false
                        else b) before.

(** Every bidder with an active bid on the auction has the total of those
    bids back: that much more available, and that much less pending, or
    zero pending when less than that was held.  Nobody else's balance row
    changes. *)
Definition bidders_refunded (auction_id : nat) (db db' : DB) : Prop :=
  (forall u, has_active_bid auction_id u db ->
     available_of u db' == available_of u db + active_bid_total auction_id u (bids db) /\
     (active_bid_total auction_id u (bids db) <= pending_of u db ->
      pending_of u db' == pending_of u db - active_bid_total auction_id u (bids db)) /\
     (pending_of u db < active_bid_total auction_id u (bids db) ->
      pending_of u db' == 0)) /\
  (forall u, ~ has_active_bid auction_id u db -> find_balance u db' = find_balance u db).

(** What a settlement below the reserve leaves behind, read off the rows:
    the auction closed without a winner, the artwork delisted with its
    owner unchanged, the active bids on the auction switched off and their
    bidders refunded. *)
Definition unsold_and_refunded (auction : Auction) (db db' : DB) : Prop :=
  status_of (au_id auction) db' = Some StClosed /\
  winner_of (au_id auction) db' = None /\
  (forall a, find_artwork (au_artwork_id auction) db = Some a ->
     exists a', find_artwork (au_artwork_id auction) db' = Some a'
                /\ ar_is_listed a' = false /\ ar_owner_id a' = ar_owner_id a) /\
  active_bids_switched_off (au_id auction) (bids db) (bids db') /\
  bidders_refunded (au_id auction) db db'.

(** What cancelling an auction leaves behind, read off the rows: the
    auction cancelled, the active bids on it switched off and their bidders
    refunded. *)
Definition cancelled_and_refunded (auction_id : nat) (db db' : DB) : Prop :=
  status_of auction_id db' = Some StCancelled /\
  active_bids_switched_off auction_id (bids db) (bids db') /\
  bidders_refunded auction_id db db'.

Module Samples.

(** Seller 1 auctions artwork 10 (auction 100, start price 100, no reserve,
    end time 50).  User 3 holds the only bid, 200, and the ledger holds it
    in pending. *)
Definition one_bid : DB :=
  mkDB [mkAuction 100 10 (Some 1%nat) 100 None 50 StOpen None]
       [mkBid 1 100 3 200 true]
       [mkBalance 1 40 0; mkBalance 3 800 200]
       [mkTransaction 3 TBid 200 TxPending "Bid placed" (Some 10%nat)]
       [mkArtwork 10 1 true (Some LAuction)].

(** [one_bid] with a second ended auction, 101, whose row has no seller
    and whose artwork 11 is gone. *)
Definition two_ended : DB :=
  mkDB [mkAuction 100 10 (Some 1%nat) 100 None 50 StOpen None;
        mkAuction 101 11 None 100 None 50 StOpen None]
       [mkBid 1 100 3 200 true]
       [mkBalance 1 40 0; mkBalance 3 800 200]
       [mkTransaction 3 TBid 200 TxPending "Bid placed" (Some 10%nat)]
       [mkArtwork 10 1 true (Some LAuction)].

(** Auction 100 without bids; user 4 has 1000 available. *)
Definition no_bids : DB :=
  mkDB [mkAuction 100 10 (Some 1%nat) 100 None 50 StOpen None]
       []
       [mkBalance 4 1000 0]
       []
       [mkArtwork 10 1 true (Some LAuction)].

(** Auction 100 closed without a winner, no bid left active. *)
Definition closed_unsold : DB :=
  mkDB [mkAuction 100 10 (Some 1%nat) 100 (Some 300) 50 StClosed None]
       [mkBid 1 100 3 200 false]
       [mkBalance 1 40 0; mkBalance 3 1000 0]
       [mkTransaction 3 TBid 200 TxCancelled "Bid placed" (Some 10%nat);
        mkTransaction 3 TBidRefund 200 TxCompleted
                      "Reserve price not met - bid refunded" (Some 10%nat)]
       [mkArtwork 10 1 false None].

(** Users 2 and 3 bid 150 and 200 on auction 100, which has the reserve
    price [reserve]; user 2 has 500 left, user 3 800. *)
Definition two_bidders (reserve : option Q) : DB :=
  mkDB [mkAuction 100 10 (Some 1%nat) 100 reserve 50 StOpen None]
       [mkBid 1 100 2 150 true; mkBid 2 100 3 200 true]
       [mkBalance 1 40 0; mkBalance 2 500 150; mkBalance 3 800 200]
       [mkTransaction 2 TBid 150 TxPending "Bid placed" (Some 10%nat);
        mkTransaction 3 TBid 200 TxPending "Bid placed" (Some 10%nat)]
       [mkArtwork 10 1 true (Some LAuction)].

(** [closed_unsold] with the auction listed again: auction 100 is open and
    the refunded bid of user 3 is inactive. *)
Definition closed_unsold_reopened : DB :=
  mkDB [mkAuction 100 10 (Some 1%nat) 100 (Some 300) 50 StOpen None]
       [mkBid 1 100 3 200 false]
       [mkBalance 1 40 0; mkBalance 3 1000 0]
       [mkTransaction 3 TBid 200 TxCancelled "Bid placed" (Some 10%nat);
        mkTransaction 3 TBidRefund 200 TxCompleted
                      "Reserve price not met - bid refunded" (Some 10%nat)]
       [mkArtwork 10 1 true (Some LAuction)].

(** [two_bidders] without a reserve, beside a second auction, 101, of
    seller 5 on artwork 11 that ends later (at 90) and carries a bid of
    user 2. *)
Definition two_auctions : DB :=
  mkDB [mkAuction 100 10 (Some 1%nat) 100 None 50 StOpen None;
        mkAuction 101 11 (Some 5%nat) 100 None 90 StOpen None]
       [mkBid 1 100 2 150 true; mkBid 2 100 3 200 true; mkBid 3 101 2 120 true]
       [mkBalance 1 40 0; mkBalance 2 500 270; mkBalance 3 800 200; mkBalance 5 0 0]
       [mkTransaction 2 TBid 150 TxPending "Bid placed" (Some 10%nat);
        mkTransaction 3 TBid 200 TxPending "Bid placed" (Some 10%nat);
        mkTransaction 2 TBid 120 TxPending "Bid placed" (Some 11%nat)]
       [mkArtwork 10 1 true (Some LAuction); mkArtwork 11 5 true (Some LAuction)].

(** Auction 100 of seller 1 on artwork 10 as [POST /api/auctions] stores
    it for a start price of -5 and a reserve price of 50; no bid yet.  User
    3 has 800 available. *)
Definition negative_start : DB :=
  mkDB [mkAuction 100 10 (Some 1%nat) (-5) (Some 50) 50 StOpen None]
       []
       [mkBalance 1 40 0; mkBalance 3 800 0]
       []
       [mkArtwork 10 1 true (Some LAuction)].

End Samples.

(* ================================================================== *)
(** ** Properties *)
(* ================================================================== *)

Local Open Scope Q_scope.

(** *** Settlement through the close endpoint is not guarded by the status *)

(** C1 (the code departs from it).  Settlement should be idempotent.  The
    close endpoint selects the auction by id and seller only, so a second
    call on the auction it has just closed settles it again: on
    [Samples.one_bid] both calls answer "closed", the seller holds 235 after
    the first and 430 after the second, and the purchase and sale
    transactions are recorded twice. *)
Theorem close_auction_twice_pays_seller_twice :
  let once := App.close_auction 1 100 Samples.one_bid in
  let twice := App.close_auction 1 100 (snd once) in
  fst once = Success "closed" /\
  fst twice = Success "closed" /\
  status_of 100 (snd once) = Some StClosed /\
  available_of 1 (snd once) == 235 /\
  available_of 1 (snd twice) == 430 /\
  List.length (transactions (snd once)) = 3%nat /\
  List.length (transactions (snd twice)) = 5%nat.
Proof.
  vm_compute. repeat split; reflexivity.
Qed.

(** C2 (the code departs from it).  Money should be conserved up to the fee.
    The scheduler's sale passes absolute balances to
    [BalanceRepository.update], which adds them: on [Samples.one_bid] the
    ledger total goes from 1040 to 1275 although the fee is 5, the winner's
    200 stay pending and the seller's 40 become 275. *)
Theorem scheduler_sale_creates_money :
  let before := Samples.one_bid in
  let after := Jobs.process_ended_auctions_job 60 before in
  let fee := 200 * PLATFORM_FEE_RATE in
  total_money before == 1040 /\
  total_money after == 1275 /\
  ~ (total_money after + fee == total_money before) /\
  pending_of 3 after == 200 /\
  available_of 1 after == 275.
Proof.
  vm_compute. repeat split; try reflexivity. discriminate.
Qed.

(** The close endpoint, which writes the balances itself, conserves money
    on the same database. *)
Lemma close_auction_sale_conserves_money :
  let before := Samples.one_bid in
  let after := snd (App.close_auction 1 100 before) in
  total_money after + 200 * PLATFORM_FEE_RATE == total_money before.
Proof.
  vm_compute. reflexivity.
Qed.

(** C4 (the code departs from it).  A failing auction should cost only its
    own writes.  The job commits once, after the loop, and [rollback] in the
    handler discards everything since the last commit: on
    [Samples.two_ended] auction 100 settles on its own, auction 101 raises,
    and the job leaves the database as it found it, auction 100 still open. *)
Theorem job_failure_undoes_earlier_settlements :
  ended_auctions 60 Samples.two_ended = auctions Samples.two_ended /\
  (exists db', AuctionService.process_ended_auction
                 (mkAuction 100 10 (Some 1%nat) 100 None 50 StOpen None)
                 Samples.two_ended = Ok db'
               /\ status_of 100 db' = Some StClosed) /\
  AuctionService.process_ended_auction
    (mkAuction 101 11 None 100 None 50 StOpen None) Samples.two_ended
    = Raise (NotFoundError "Artwork not found") /\
  Jobs.process_ended_auctions_job 60 Samples.two_ended = Samples.two_ended /\
  status_of 100 (Jobs.process_ended_auctions_job 60 Samples.two_ended) = Some StOpen.
Proof.
  split; [reflexivity|].
  split; [eexists; split; [reflexivity | reflexivity]|].
  repeat split; reflexivity.
Qed.

(** C5 (the code departs from it).  A bid at or after the end time should
    be refused.  [BidService.place_bid] looks at the status only: at time 60
    auction 100 of [Samples.no_bids] ended at 50 is still open, the endpoint
    refuses the bid of 101 and the service takes it, creating the bid and
    holding the funds. *)
Theorem service_place_bid_ignores_end_time :
  let db := Samples.no_bids in
  option_map au_end_time (find_auction 100 db) = Some 50%Z /\
  App.place_bid_on_artwork 4 10 (Some 101) 60 db
  = (Failure 400 "Auction has already ended", db) /\
  exists db',
    BidService.place_bid 100 4 101 db = Ok db' /\
    bids db' = [mkBid 1 100 4 101 true] /\
    available_of 4 db' == 899 /\
    pending_of 4 db' == 101.
Proof.
  split; [reflexivity|]. split; [reflexivity|].
  eexists. split; [vm_compute; reflexivity|].
  vm_compute. repeat split; reflexivity.
Qed.

(** C8 (the code departs from it).  The winner's pending bid transactions
    should become completed on every path.  The scheduler's
    [_process_successful_sale] has no such update: on [Samples.one_bid] the
    winner's bid transaction is still pending after the job, and completed
    after the close endpoint. *)
Theorem scheduler_sale_leaves_bid_transaction_pending :
  let db := Samples.one_bid in
  winner_of 100 (Jobs.process_ended_auctions_job 60 db) = Some 3%nat /\
  pending_bid_transactions 3 10 (Jobs.process_ended_auctions_job 60 db)
  = [mkTransaction 3 TBid 200 TxPending "Bid placed" (Some 10%nat)] /\
  winner_of 100 (snd (App.close_auction 1 100 db)) = Some 3%nat /\
  pending_bid_transactions 3 10 (snd (App.close_auction 1 100 db)) = [].
Proof.
  vm_compute. repeat split; reflexivity.
Qed.

(* ------------------------------------------------------------------ *)
(** *** Comparisons on amounts *)

Lemma Qlt_bool_iff (a b : Q) : Qlt_bool a b = true <-> a < b.
Proof.
  unfold Qlt_bool. rewrite negb_true_iff. split.
  - intros H. apply Qnot_le_lt. intros Hle.
    apply Qle_bool_iff in Hle. congruence.
  - intros H. destruct (Qle_bool b a) eqn:E; [|reflexivity].
    apply Qle_bool_iff in E. exfalso. exact (Qlt_not_le _ _ H E).
Qed.

Lemma Qlt_bool_false_iff (a b : Q) : Qlt_bool a b = false <-> b <= a.
Proof.
  unfold Qlt_bool. rewrite negb_false_iff. apply Qle_bool_iff.
Qed.

Lemma Qle_bool_false_iff (a b : Q) : Qle_bool a b = false <-> b < a.
Proof.
  rewrite <- Qlt_bool_iff. unfold Qlt_bool.
  destruct (Qle_bool a b); simpl; intuition congruence.
Qed.

Lemma max0_of_nonneg (x : Q) : 0 <= x -> max0 x == x.
Proof.
  intros H. unfold max0. destruct (Qlt_bool 0 x) eqn:E; [reflexivity|].
  apply Qlt_bool_false_iff in E. apply Qle_antisym; assumption.
Qed.

Lemma max0_of_nonpos (x : Q) : x <= 0 -> max0 x = 0.
Proof.
  intros H. unfold max0. destruct (Qlt_bool 0 x) eqn:E; [|reflexivity].
  apply Qlt_bool_iff in E. exfalso. exact (Qlt_not_le _ _ E H).
Qed.

Lemma truthy_amount_pos (q : Q) : 0 < q -> truthy_amount (Some q) = true.
Proof.
  intros H. simpl. destruct (Qeq_bool q 0) eqn:E; [|reflexivity].
  apply Qeq_bool_iff in E. rewrite E in H. exfalso. exact (Qlt_irrefl _ H).
Qed.

Lemma truthy_id_pos (n : nat) : n <> 0%nat -> truthy_id (Some n) = true.
Proof. destruct n; [congruence | reflexivity]. Qed.

(* ------------------------------------------------------------------ *)
(** *** Rows found after an update *)

Lemma find_map_stable {A} (p : A -> bool) (f : A -> A) (l : list A) :
  (forall x, p (f x) = p x) ->
  find p (map f l) = option_map f (find p l).
Proof.
  intros Hp. induction l as [|x l IH]; simpl; [reflexivity|].
  rewrite Hp. destruct (p x); [reflexivity | exact IH].
Qed.

Lemma find_snoc {A} (p : A -> bool) (l : list A) (x : A) :
  find p (l ++ [x]) =
  match find p l with Some y => Some y | None => if p x then Some x else None end.
Proof.
  induction l as [|y l IH]; simpl; [reflexivity|].
  destruct (p y); [reflexivity | exact IH].
Qed.

Lemma find_balance_ext (u : nat) (a b : DB) :
  balances a = balances b -> find_balance u a = find_balance u b.
Proof. unfold find_balance. intros H. rewrite H. reflexivity. Qed.

Lemma find_balance_id (u : nat) (db : DB) (r : Balance) :
  find_balance u db = Some r -> bal_user_id r = u.
Proof.
  unfold find_balance. intros H. apply find_some in H.
  destruct H as [_ H]. apply Nat.eqb_eq in H. exact H.
Qed.

Lemma find_balance_update_same (u : nat) (f : Balance -> Balance) (db : DB) :
  (forall r, bal_user_id (f r) = bal_user_id r) ->
  find_balance u (update_balance u f db) = option_map f (find_balance u db).
Proof.
  intros Hf. unfold find_balance, update_balance. simpl.
  rewrite find_map_stable.
  - destruct (find _ (balances db)) as [r|] eqn:E; simpl; [|reflexivity].
    apply find_some in E. destruct E as [_ E]. rewrite E. reflexivity.
  - intros r. destruct (Nat.eqb (bal_user_id r) u) eqn:E; [rewrite Hf|]; exact E.
Qed.

Lemma find_balance_update_other (u v : nat) (f : Balance -> Balance) (db : DB) :
  (forall r, bal_user_id (f r) = bal_user_id r) ->
  u <> v ->
  find_balance u (update_balance v f db) = find_balance u db.
Proof.
  intros Hf Hne. unfold find_balance, update_balance. simpl.
  rewrite find_map_stable.
  - destruct (find _ (balances db)) as [r|] eqn:E; simpl; [|reflexivity].
    apply find_some in E. destruct E as [_ E]. apply Nat.eqb_eq in E.
    destruct (Nat.eqb (bal_user_id r) v) eqn:E'; [|reflexivity].
    apply Nat.eqb_eq in E'. congruence.
  - intros r. destruct (Nat.eqb (bal_user_id r) v); [rewrite Hf|]; reflexivity.
Qed.

Lemma find_balance_insert (u v : nat) (a p : Q) (db : DB) :
  find_balance u (insert_balance v a p db) =
  match find_balance u db with
  | Some r => Some r
  | None => if Nat.eqb v u then Some (mkBalance v a p) else None
  end.
Proof.
  unfold find_balance, insert_balance. simpl. rewrite find_snoc. reflexivity.
Qed.

(* ------------------------------------------------------------------ *)
(** *** One refund *)

Section Refund.

Variables (auction_id artwork_id : nat) (description : string).

Lemma refund_auctions u t db :
  auctions (AuctionService._refund_bidder auction_id artwork_id u t description db)
  = auctions db.
Proof.
  unfold AuctionService._refund_bidder.
  destruct (find_balance u db); reflexivity.
Qed.

Lemma refund_artworks u t db :
  artworks (AuctionService._refund_bidder auction_id artwork_id u t description db)
  = artworks db.
Proof.
  unfold AuctionService._refund_bidder.
  destruct (find_balance u db); reflexivity.
Qed.

Lemma refund_bids u t db :
  bids (AuctionService._refund_bidder auction_id artwork_id u t description db)
  = bids (deactivate_bids_of auction_id u db).
Proof.
  unfold AuctionService._refund_bidder.
  destruct (find_balance u db); reflexivity.
Qed.

Lemma refund_balances u t db :
  balances (AuctionService._refund_bidder auction_id artwork_id u t description db) =
  balances (match find_balance u db with
            | Some r =>
                update_balance u
                  (fun r0 => mkBalance (bal_user_id r0) (available_balance r + t)
                                       (max0 (pending_balance r - t))) db
            | None => insert_balance u t balances_column_default db
            end).
Proof.
  unfold AuctionService._refund_bidder.
  destruct (find_balance u db); reflexivity.
Qed.

Lemma refund_balance_other u t db v :
  v <> u ->
  find_balance v (AuctionService._refund_bidder auction_id artwork_id u t description db)
  = find_balance v db.
Proof.
  intros Hne.
  rewrite (find_balance_ext v _ _ (refund_balances u t db)).
  destruct (find_balance u db) as [r|] eqn:E.
  - apply find_balance_update_other; [reflexivity | exact Hne].
  - rewrite find_balance_insert.
    destruct (find_balance v db); [reflexivity|].
    destruct (Nat.eqb u v) eqn:E'; [|reflexivity].
    apply Nat.eqb_eq in E'. congruence.
Qed.

(** The refunded bidder: [t] more available, and [t] less pending, not
    below zero. *)
Lemma refund_balance_same u t db :
  0 <= t ->
  available_of u (AuctionService._refund_bidder auction_id artwork_id u t description db)
    == available_of u db + t /\
  pending_of u (AuctionService._refund_bidder auction_id artwork_id u t description db)
    == max0 (pending_of u db - t).
Proof.
  intros Ht. unfold available_of, pending_of.
  rewrite (find_balance_ext u _ _ (refund_balances u t db)).
  destruct (find_balance u db) as [r|] eqn:E.
  - rewrite find_balance_update_same by reflexivity.
    rewrite E. simpl. split; reflexivity.
  - rewrite find_balance_insert, E, Nat.eqb_refl. simpl.
    split; [ring|].
    rewrite max0_of_nonpos; [reflexivity|].
    unfold balances_column_default. lra.
Qed.

End Refund.

(* ------------------------------------------------------------------ *)
(** *** The refund loop *)

Section RefundLoop.

Variables (auction_id artwork_id : nat) (description : string).

Lemma refund_all_cons g gs db :
  AuctionService.refund_all auction_id artwork_id description (g :: gs) db =
  AuctionService.refund_all auction_id artwork_id description gs
    (AuctionService._refund_bidder auction_id artwork_id (g_bidder_id g)
                                               (total_amount g) description db).
Proof. reflexivity. Qed.

Lemma refund_all_auctions gs db :
  auctions (AuctionService.refund_all auction_id artwork_id description gs db) = auctions db.
Proof.
  revert db. induction gs as [|g gs IH]; intros db; [reflexivity|].
  rewrite refund_all_cons, IH. apply refund_auctions.
Qed.

Lemma refund_all_artworks gs db :
  artworks (AuctionService.refund_all auction_id artwork_id description gs db) = artworks db.
Proof.
  revert db. induction gs as [|g gs IH]; intros db; [reflexivity|].
  rewrite refund_all_cons, IH. apply refund_artworks.
Qed.

(** The loop deactivates the active bids on the auction of the bidders it
    visits, and no other row. *)
Lemma refund_all_bids gs db :
  bids (AuctionService.refund_all auction_id artwork_id description gs db) =
  map (fun b => if active_in auction_id b
                   && existsb (Nat.eqb (bid_bidder_id b)) (map g_bidder_id gs)
                then inactive b else b) (bids db).
Proof.
  revert db. induction gs as [|g gs IH]; intros db.
  - simpl. symmetry. erewrite map_ext; [apply map_id|].
    intros b. rewrite andb_false_r. reflexivity.
  - rewrite refund_all_cons, IH, refund_bids. simpl bids. rewrite map_map.
    apply map_ext. intros b. simpl existsb.
    destruct (active_in auction_id b) eqn:Ea; simpl.
    + destruct (Nat.eqb (bid_bidder_id b) (g_bidder_id g)) eqn:Eg; simpl.
      * unfold active_in. simpl. rewrite andb_false_r. reflexivity.
      * rewrite Ea. reflexivity.
    + rewrite Ea. reflexivity.
Qed.

Lemma refund_all_balance_other gs db u :
  ~ In u (map g_bidder_id gs) ->
  find_balance u (AuctionService.refund_all auction_id artwork_id description gs db)
  = find_balance u db.
Proof.
  revert db. induction gs as [|g gs IH]; intros db Hnot; [reflexivity|].
  rewrite refund_all_cons, IH.
  - apply refund_balance_other. intros ->. apply Hnot. left. reflexivity.
  - intros Hin. apply Hnot. right. exact Hin.
Qed.

Lemma refund_all_balance_in gs db g :
  NoDup (map g_bidder_id gs) ->
  (forall g', In g' gs -> 0 <= total_amount g') ->
  In g gs ->
  available_of (g_bidder_id g) (AuctionService.refund_all auction_id artwork_id description gs db)
    == available_of (g_bidder_id g) db + total_amount g /\
  pending_of (g_bidder_id g) (AuctionService.refund_all auction_id artwork_id description gs db)
    == max0 (pending_of (g_bidder_id g) db - total_amount g).
Proof.
  revert db. induction gs as [|g0 gs IH]; intros db Hnd Hpos Hin; [contradiction|].
  simpl in Hnd. inversion Hnd as [|? ? Hnotin Hnd']; subst.
  rewrite refund_all_cons.
  destruct Hin as [-> | Hin].
  - unfold available_of, pending_of.
    rewrite refund_all_balance_other by exact Hnotin.
    apply refund_balance_same. apply Hpos. left. reflexivity.
  - assert (Hne : g_bidder_id g <> g_bidder_id g0).
    { intros Heq. apply Hnotin. rewrite <- Heq. apply in_map. exact Hin. }
    destruct (IH (AuctionService._refund_bidder auction_id artwork_id (g_bidder_id g0)
                    (total_amount g0) description db) Hnd'
                 (fun g' H => Hpos g' (or_intror H)) Hin) as [Ha Hp].
    unfold available_of, pending_of in *.
    rewrite refund_balance_other in Ha, Hp by exact Hne.
    split; assumption.
Qed.

End RefundLoop.

(* ------------------------------------------------------------------ *)
(** *** Groups of bidders *)

Lemma group_by_bidder_ids (l : list Bid) :
  map g_bidder_id (group_by_bidder l) = nodup Nat.eq_dec (map bid_bidder_id l).
Proof.
  unfold group_by_bidder. rewrite map_map. simpl. apply map_id.
Qed.

Lemma group_by_bidder_total (l : list Bid) (g : BidderGroup) :
  In g (group_by_bidder l) ->
  total_amount g = sum_amounts (bids_of_bidder (g_bidder_id g) l).
Proof.
  unfold group_by_bidder. intros H. apply in_map_iff in H.
  destruct H as [u [<- _]]. reflexivity.
Qed.

Lemma group_by_bidder_member (l : list Bid) (u : nat) :
  In u (map bid_bidder_id l) ->
  In (mkGroup u (sum_amounts (bids_of_bidder u l)) (List.length (bids_of_bidder u l)))
     (group_by_bidder l).
Proof.
  intros H. unfold group_by_bidder.
  apply (in_map (fun u => mkGroup u (sum_amounts (bids_of_bidder u l))
                                  (List.length (bids_of_bidder u l)))).
  apply nodup_In. exact H.
Qed.

Lemma sum_amounts_nonneg (l : list Bid) :
  (forall b, In b l -> 0 < bid_amount b) -> 0 <= sum_amounts l.
Proof.
  induction l as [|b l IH]; intros H; simpl.
  - apply Qle_refl.
  - assert (0 < bid_amount b) by (apply H; left; reflexivity).
    assert (0 <= sum_amounts l) by (apply IH; intros; apply H; right; assumption).
    lra.
Qed.

Lemma existsb_bidder (u : nat) (l : list nat) :
  existsb (Nat.eqb u) l = true <-> In u l.
Proof.
  rewrite existsb_exists. split.
  - intros [x [Hin Heq]]. apply Nat.eqb_eq in Heq. subst. exact Hin.
  - intros Hin. exists u. split; [exact Hin | apply Nat.eqb_refl].
Qed.

(* ------------------------------------------------------------------ *)
(** *** Closing the auction row, delisting the artwork *)

Lemma find_auction_close (auction_id : nat) (winner : option nat) (db : DB) :
  find_auction auction_id (close_auction_row auction_id winner db) =
  option_map (fun a => mkAuction (au_id a) (au_artwork_id a) (au_seller_id a)
                                 (au_start_price a) (au_reserve_price a) (au_end_time a)
                                 StClosed winner)
             (find_auction auction_id db).
Proof.
  unfold find_auction, close_auction_row. simpl.
  rewrite find_map_stable.
  - destruct (find _ (auctions db)) as [a|] eqn:E; simpl; [|reflexivity].
    apply find_some in E. destruct E as [_ E]. rewrite E. reflexivity.
  - intros a. destruct (Nat.eqb (au_id a) auction_id) eqn:E; exact E.
Qed.

Lemma find_artwork_update (artwork_id : nat) (f : Artwork -> Artwork) (db : DB) :
  (forall a, ar_id (f a) = ar_id a) ->
  find_artwork artwork_id (update_artwork artwork_id f db) =
  option_map f (find_artwork artwork_id db).
Proof.
  intros Hf. unfold find_artwork, update_artwork. simpl.
  rewrite find_map_stable.
  - destruct (find _ (artworks db)) as [a|] eqn:E; simpl; [|reflexivity].
    apply find_some in E. destruct E as [_ E]. rewrite E. reflexivity.
  - intros a. destruct (Nat.eqb (ar_id a) artwork_id) eqn:E; [rewrite Hf|]; exact E.
Qed.

Lemma find_artwork_ext (artwork_id : nat) (a b : DB) :
  artworks a = artworks b -> find_artwork artwork_id a = find_artwork artwork_id b.
Proof. unfold find_artwork. intros H. rewrite H. reflexivity. Qed.

Lemma find_auction_ext (auction_id : nat) (a b : DB) :
  auctions a = auctions b -> find_auction auction_id a = find_auction auction_id b.
Proof. unfold find_auction. intros H. rewrite H. reflexivity. Qed.

Lemma service_seller_resolves (auction : Auction) (db : DB) :
  truthy_id (au_seller_id auction) = true
  \/ find_artwork (au_artwork_id auction) db <> None ->
  exists s, AuctionService.seller_of auction db = Ok s.
Proof.
  unfold AuctionService.seller_of. intros [H | H].
  - destruct (au_seller_id auction) as [[|n]|]; try discriminate. eauto.
  - destruct (au_seller_id auction) as [[|n]|]; eauto;
      destruct (find_artwork (au_artwork_id auction) db); eauto; congruence.
Qed.

(** Every active bid on the auction belongs to a bidder that the grouping
    query returns. *)
Lemma deactivate_all_groups (auction_id : nat) (db : DB) :
  map (fun b => if active_in auction_id b
                   && existsb (Nat.eqb (bid_bidder_id b))
                              (map g_bidder_id (group_by_bidder (active_bids auction_id db)))
                then inactive b else b) (bids db)
  = bids (deactivate_bids auction_id db).
Proof.
  unfold deactivate_bids. simpl. apply map_ext_in. intros b Hb.
  destruct (active_in auction_id b) eqn:Ea; [|reflexivity]. simpl.
  rewrite group_by_bidder_ids.
  replace (existsb _ _) with true; [reflexivity|].
  symmetry. apply existsb_bidder. apply nodup_In. apply in_map.
  unfold active_bids. apply filter_In. split; assumption.
Qed.

Lemma top_bid_in (l : list Bid) (m : Bid) : top_bid l = Some m -> In m l.
Proof.
  revert m. induction l as [|b l IH]; intros m H; simpl in H; [discriminate|].
  destruct (top_bid l) as [m'|].
  - destruct (Qle_bool (bid_amount m') (bid_amount b)); inversion H; subst.
    + left. reflexivity.
    + right. apply IH. reflexivity.
  - inversion H. left. reflexivity.
Qed.

Lemma no_active_after_deactivate (auction_id : nat) (db : DB) :
  active_bids auction_id (deactivate_bids auction_id db) = [].
Proof.
  unfold active_bids, deactivate_bids. simpl.
  induction (bids db) as [|b l IH]; simpl; [reflexivity|].
  destruct (active_in auction_id b) eqn:E.
  - unfold active_in at 1. simpl. rewrite andb_false_r. exact IH.
  - rewrite E. exact IH.
Qed.

Lemma active_bids_ext (auction_id : nat) (a b : DB) :
  bids a = bids b -> active_bids auction_id a = active_bids auction_id b.
Proof. unfold active_bids. intros H. rewrite H. reflexivity. Qed.

Lemma app_seller_resolves (auction : Auction) (db : DB) :
  truthy_id (au_seller_id auction) = true
  \/ find_artwork (au_artwork_id auction) db <> None ->
  exists s, App.seller_of auction db = Ok s.
Proof.
  unfold App.seller_of. intros [H | H].
  - destruct (au_seller_id auction) as [[|n]|]; try discriminate. eauto.
  - destruct (au_seller_id auction) as [[|n]|]; eauto;
      destruct (find_artwork (au_artwork_id auction) db); eauto; congruence.
Qed.

Lemma app_refund_loop auction_id artwork_id description gs db :
  fold_left (App.refund_bidder_block auction_id artwork_id description) gs db
  = AuctionService.refund_all auction_id artwork_id description gs db.
Proof. reflexivity. Qed.

(** The tables after the refund loop over every bidder, started from a
    state [d] that has the auction row closed without a winner, the artwork
    rewritten by [f], and the bids and balances of [db]. *)
(** The total that the grouping query computes for a bidder is the sum of
    that bidder's active rows. *)
Lemma active_total_is_group_sum (auction_id u : nat) (db : DB) :
  sum_amounts (bids_of_bidder u (active_bids auction_id db))
  = active_bid_total auction_id u (bids db).
Proof.
  unfold sum_amounts, bids_of_bidder, active_bids, active_in.
  induction (bids db) as [|b l IH]; [reflexivity|]. simpl.
  destruct (Nat.eqb (bid_auction_id b) auction_id && bid_is_active b); simpl.
  - destruct (Nat.eqb (bid_bidder_id b) u); simpl; [rewrite IH; reflexivity | exact IH].
  - exact IH.
Qed.

Lemma has_active_bid_iff (auction_id u : nat) (db : DB) :
  In u (map bid_bidder_id (active_bids auction_id db)) <-> has_active_bid auction_id u db.
Proof.
  unfold has_active_bid, active_bids, active_in. rewrite in_map_iff. split.
  - intros [b [Hb Hin]]. apply filter_In in Hin. destruct Hin as [Hin Hact].
    apply andb_true_iff in Hact. destruct Hact as [Hid Ha]. apply Nat.eqb_eq in Hid.
    exists b. repeat split; assumption.
  - intros [b [Hin [Hid [Ha Hb]]]]. exists b. split; [exact Hb|].
    apply filter_In. split; [exact Hin|]. rewrite Hid, Nat.eqb_refl, Ha. reflexivity.
Qed.

Lemma deactivate_bids_switches_off (auction_id : nat) (db : DB) :
  active_bids_switched_off auction_id (bids db) (bids (deactivate_bids auction_id db)).
Proof. reflexivity. Qed.

Lemma refunds_read_off_rows (auction_id : nat) (db db' : DB) :
  (forall u, In u (map bid_bidder_id (active_bids auction_id db)) ->
     available_of u db'
       == available_of u db + sum_amounts (bids_of_bidder u (active_bids auction_id db)) /\
     pending_of u db'
       == max0 (pending_of u db
                - sum_amounts (bids_of_bidder u (active_bids auction_id db)))) ->
  (forall u, ~ In u (map bid_bidder_id (active_bids auction_id db)) ->
     find_balance u db' = find_balance u db) ->
  bidders_refunded auction_id db db'.
Proof.
  intros Hin Hout. split.
  - intros u Hu. apply has_active_bid_iff in Hu. destruct (Hin u Hu) as [Ha Hp].
    rewrite active_total_is_group_sum in Ha, Hp.
    split; [exact Ha|]. split.
    + intros Hle. rewrite Hp. apply max0_of_nonneg. lra.
    + intros Hlt. rewrite Hp. rewrite max0_of_nonpos by lra. reflexivity.
  - intros u Hu. apply Hout. intros H. apply Hu. apply has_active_bid_iff. exact H.
Qed.

Lemma everyone_refunded_read_off (auction : Auction) (db db' : DB) :
  everyone_refunded auction db db' -> unsold_and_refunded auction db db'.
Proof.
  intros [Hst [Hw [Hart [Hb [_ [Hin Hout]]]]]].
  split; [exact Hst|]. split; [exact Hw|]. split; [exact Hart|].
  split; [rewrite Hb; apply deactivate_bids_switches_off|].
  apply refunds_read_off_rows; [|exact Hout].
  intros u Hu. pose proof (Hin u Hu) as H. cbv zeta in H.
  destruct H as [Ha [Hp _]]. split; assumption.
Qed.

Lemma refund_everyone_outcome
    (auction : Auction) (description : string) (f : Artwork -> Artwork) (db d : DB) :
  find_auction (au_id auction) db = Some auction ->
  (forall b, In b (active_bids (au_id auction) db) -> 0 < bid_amount b) ->
  (forall a, ar_id (f a) = ar_id a /\ ar_is_listed (f a) = false
             /\ ar_owner_id (f a) = ar_owner_id a) ->
  auctions d = auctions (close_auction_row (au_id auction) None db) ->
  artworks d = artworks (update_artwork (au_artwork_id auction) f db) ->
  bids d = bids db ->
  balances d = balances db ->
  everyone_refunded auction db
    (AuctionService.refund_all (au_id auction) (au_artwork_id auction) description
       (group_by_bidder (active_bids (au_id auction) db)) d).
Proof.
  intros Hrow Hpos Hf Hau Har Hbi Hba.
  set (groups := group_by_bidder (active_bids (au_id auction) db)).
  set (db' := AuctionService.refund_all _ _ _ groups d).
  assert (Ha : find_auction (au_id auction) db'
               = Some (mkAuction (au_id auction) (au_artwork_id auction)
                         (au_seller_id auction) (au_start_price auction)
                         (au_reserve_price auction) (au_end_time auction) StClosed None)).
  { unfold db'. rewrite (find_auction_ext _ _ _ (refund_all_auctions _ _ _ _ _)).
    rewrite (find_auction_ext _ _ _ Hau).
    rewrite find_auction_close, Hrow. reflexivity. }
  assert (Hb : bids db' = bids (deactivate_bids (au_id auction) db)).
  { unfold db'. rewrite refund_all_bids, Hbi. apply deactivate_all_groups. }
  assert (Hnd : NoDup (map g_bidder_id groups)).
  { unfold groups. rewrite group_by_bidder_ids. apply NoDup_nodup. }
  assert (Htot : forall g, In g groups -> 0 <= total_amount g).
  { intros g Hg. unfold groups in Hg.
    rewrite (group_by_bidder_total _ _ Hg).
    apply sum_amounts_nonneg. intros b Hb'.
    apply Hpos. unfold bids_of_bidder in Hb'. apply filter_In in Hb'. tauto. }
  unfold everyone_refunded.
  split; [unfold status_of; rewrite Ha; reflexivity|].
  split; [unfold winner_of; rewrite Ha; reflexivity|].
  split.
  { intros a Hart. exists (f a).
    unfold db'. rewrite (find_artwork_ext _ _ _ (refund_all_artworks _ _ _ _ _)).
    rewrite (find_artwork_ext _ _ _ Har).
    rewrite find_artwork_update by (intros x; apply Hf).
    rewrite Hart. destruct (Hf a) as [_ [H1 H2]]. repeat split; assumption. }
  split; [exact Hb|].
  split; [rewrite (active_bids_ext _ _ _ Hb); apply no_active_after_deactivate|].
  split.
  { intros u Hu.
    set (total := sum_amounts (bids_of_bidder u (active_bids (au_id auction) db))).
    pose proof (group_by_bidder_member _ _ Hu) as Hg. fold groups in Hg.
    destruct (refund_all_balance_in (au_id auction) (au_artwork_id auction)
                description groups d _ Hnd Htot Hg) as [Hav Hpe].
    simpl g_bidder_id in Hav, Hpe. simpl total_amount in Hav, Hpe.
    fold total in Hav, Hpe. fold db' in Hav, Hpe.
    unfold available_of, pending_of in Hav, Hpe.
    rewrite (find_balance_ext u _ _ Hba) in Hav, Hpe.
    fold (available_of u db') (available_of u db) in Hav.
    fold (pending_of u db') (pending_of u db) in Hpe.
    split; [exact Hav|]. split; [exact Hpe|].
    intros Hle. rewrite Hpe. apply max0_of_nonneg. lra. }
  intros u Hu. unfold db'.
  rewrite refund_all_balance_other.
  - apply find_balance_ext. exact Hba.
  - unfold groups. rewrite group_by_bidder_ids. rewrite nodup_In. exact Hu.
Qed.

(** C3 (the code departs from it).  A highest bid below the reserve should
    leave the auction without a winner and refund every bidder.  The
    settlement decides this with [if winner_id and winning_amount and
    reserve_price], which a winning amount of 0 fails: the branch meant for
    "no bids at all" runs.  On [Samples.negative_start] the bid endpoint
    admits a bid of 0 by user 3 (the start price is -5); the reserve is 50,
    and both the job and the close endpoint close the auction with user 3
    as the winner, the bid still active and its transaction still pending.
    A bid of 10, which is below the reserve too, leaves no winner. *)
Theorem zero_bid_below_reserve_closes_with_a_winner :
  let placed := App.place_bid_on_artwork 3 10 (Some 0) 40 Samples.negative_start in
  let db := snd placed in
  fst placed = Success "bid_placed" /\
  bids db = [mkBid 1 100 3 0 true] /\
  option_map au_reserve_price (find_auction 100 db) = Some (Some 50) /\
  status_of 100 (Jobs.process_ended_auctions_job 60 db) = Some StClosed /\
  winner_of 100 (Jobs.process_ended_auctions_job 60 db) = Some 3%nat /\
  bids (Jobs.process_ended_auctions_job 60 db) = [mkBid 1 100 3 0 true] /\
  pending_bid_transactions 3 10 (Jobs.process_ended_auctions_job 60 db)
  = [mkTransaction 3 TBid 0 TxPending "Bid placed" (Some 10%nat)] /\
  winner_of 100 (snd (App.close_auction 1 100 db)) = Some 3%nat /\
  bids (snd (App.close_auction 1 100 db)) = [mkBid 1 100 3 0 true] /\
  winner_of 100
    (Jobs.process_ended_auctions_job 60
       (snd (App.place_bid_on_artwork 3 10 (Some 10) 40 Samples.negative_start)))
  = None.
Proof.
  vm_compute. repeat split; reflexivity.
Qed.

(** Reserve enforcement where the decision of the settlement is sound, that
    is when every active bid has a positive amount and the highest bidder's
    id is not 0: with the highest active bid below the reserve, settlement
    succeeds, on the scheduler's path and on the path of the close endpoint
    alike; it closes the auction with no winner, delists the artwork and
    keeps its owner, switches off every active bid on the auction, and
    gives every bidder the total of their active bids back: that much more
    available and that much less pending (zero when less was held), the
    highest bidder included; other users' balances are untouched. *)
Theorem reserve_not_met_refunds_every_bidder :
  forall (auction : Auction) (db : DB) (reserve : Q) (highest : Bid),
    find_auction (au_id auction) db = Some auction ->
    au_reserve_price auction = Some reserve ->
    find_winning_bid (au_id auction) db = Some highest ->
    bid_amount highest < reserve ->
    bid_bidder_id highest <> 0%nat ->
    (forall b, In b (bids db) -> bid_auction_id b = au_id auction ->
               bid_is_active b = true -> 0 < bid_amount b) ->
    (truthy_id (au_seller_id auction) = true
     \/ find_artwork (au_artwork_id auction) db <> None) ->
    (exists db', AuctionService.process_ended_auction auction db = Ok db'
                 /\ unsold_and_refunded auction db db') /\
    (exists db', App._process_ended_auction auction db = Ok db'
                 /\ unsold_and_refunded auction db db').
Proof.
  intros auction db reserve highest Hrow Hres Hwin Hlt Hid Hrows Hseller.
  assert (Hpos : forall b, In b (active_bids (au_id auction) db) -> 0 < bid_amount b).
  { intros b Hb. unfold active_bids in Hb. apply filter_In in Hb.
    destruct Hb as [Hb Hact]. unfold active_in in Hact.
    apply andb_true_iff in Hact. destruct Hact as [Hi Ha]. apply Nat.eqb_eq in Hi.
    apply Hrows; assumption. }
  assert (Hin : In highest (active_bids (au_id auction) db))
    by (apply top_bid_in; exact Hwin).
  assert (Hrnm : AuctionService.reserve_not_met_of (Some highest) (Some reserve) = true).
  { unfold AuctionService.reserve_not_met_of.
    rewrite truthy_id_pos by exact Hid.
    rewrite truthy_amount_pos by (apply Hpos; exact Hin).
    rewrite truthy_amount_pos
      by (apply Qlt_trans with (bid_amount highest); [apply Hpos; exact Hin | exact Hlt]).
    simpl. apply Qlt_bool_iff. exact Hlt. }
  split.
  - destruct (service_seller_resolves auction db Hseller) as [seller Hs].
    eexists. split.
    + unfold AuctionService.process_ended_auction.
      rewrite Hs. unfold bind. cbv zeta. rewrite Hwin, Hres, Hrnm. reflexivity.
    + apply everyone_refunded_read_off.
      apply (refund_everyone_outcome auction _ unlist db); auto; reflexivity.
  - destruct (app_seller_resolves auction db Hseller) as [seller Hs].
    eexists. split.
    + unfold App._process_ended_auction.
      rewrite Hs. unfold bind. cbv zeta. rewrite Hwin, Hres, Hrnm.
      rewrite andb_false_r. rewrite app_refund_loop. reflexivity.
    + apply everyone_refunded_read_off.
      apply (refund_everyone_outcome auction _ unlist_clear db); auto; reflexivity.
Qed.

(** On [Samples.two_bidders] with a reserve of 300 (bids of 150 and 200):
    both paths leave no winner, both bids inactive, user 2 with 650
    available and user 3 with 1000, nothing pending, the seller's row as it
    was. *)
Lemma reserve_not_met_refunds_every_bidder_witness :
  exists d1 d2,
    AuctionService.process_ended_auction
      (mkAuction 100 10 (Some 1%nat) 100 (Some 300) 50 StOpen None)
      (Samples.two_bidders (Some 300)) = Ok d1 /\
    App._process_ended_auction
      (mkAuction 100 10 (Some 1%nat) 100 (Some 300) 50 StOpen None)
      (Samples.two_bidders (Some 300)) = Ok d2 /\
    forall d, d = d1 \/ d = d2 ->
      status_of 100 d = Some StClosed /\
      winner_of 100 d = None /\
      bids d = [mkBid 1 100 2 150 false; mkBid 2 100 3 200 false] /\
      available_of 2 d == 650 /\ pending_of 2 d == 0 /\
      available_of 3 d == 1000 /\ pending_of 3 d == 0 /\
      find_balance 1 d = Some (mkBalance 1 40 0).
Proof.
  destruct (reserve_not_met_refunds_every_bidder
              (mkAuction 100 10 (Some 1%nat) 100 (Some 300) 50 StOpen None)
              (Samples.two_bidders (Some 300)) 300 (mkBid 2 100 3 200 true))
    as [[d1 [E1 H1]] [d2 [E2 H2]]].
  - reflexivity.
  - reflexivity.
  - reflexivity.
  - reflexivity.
  - simpl. lia.
  - intros b Hb _ _. simpl in Hb.
    destruct Hb as [<- | [<- | []]]; reflexivity.
  - left. reflexivity.
  - exists d1, d2. split; [exact E1|]. split; [exact E2|].
    assert (Hread : forall d,
              unsold_and_refunded
                (mkAuction 100 10 (Some 1%nat) 100 (Some 300) 50 StOpen None)
                (Samples.two_bidders (Some 300)) d ->
              status_of 100 d = Some StClosed /\
              winner_of 100 d = None /\
              bids d = [mkBid 1 100 2 150 false; mkBid 2 100 3 200 false] /\
              available_of 2 d == 650 /\ pending_of 2 d == 0 /\
              available_of 3 d == 1000 /\ pending_of 3 d == 0 /\
              find_balance 1 d = Some (mkBalance 1 40 0)).
    { intros d [Hst [Hw [_ [Hoff [Hin Hout]]]]].
      split; [exact Hst|]. split; [exact Hw|]. split; [exact Hoff|].
      destruct (Hin 2%nat) as [Ha2 [Hp2 _]].
      { exists (mkBid 1 100 2 150 true). simpl. repeat split; auto. }
      destruct (Hin 3%nat) as [Ha3 [Hp3 _]].
      { exists (mkBid 2 100 3 200 true). simpl. repeat split; auto. }
      split; [rewrite Ha2; vm_compute; reflexivity|].
      split; [rewrite Hp2; vm_compute; [reflexivity | discriminate]|].
      split; [rewrite Ha3; vm_compute; reflexivity|].
      split; [rewrite Hp3; vm_compute; [reflexivity | discriminate]|].
      rewrite (Hout 1%nat); [reflexivity|].
      intros [b [Hb [_ [_ Hu]]]]. simpl in Hb.
      destruct Hb as [<- | [<- | []]]; discriminate Hu. }
    intros d [-> | ->]; apply Hread; assumption.
Defined.

(* ------------------------------------------------------------------ *)
(** *** The winner's bid after a sale *)

Lemma top_bid_max (l : list Bid) (m : Bid) :
  top_bid l = Some m -> forall b, In b l -> bid_amount b <= bid_amount m.
Proof.
  revert m. induction l as [|x l IH]; intros m H b Hb; [contradiction|].
  simpl in H. destruct (top_bid l) as [m'|] eqn:E.
  - destruct (Qle_bool (bid_amount m') (bid_amount x)) eqn:Ele;
      inversion H; subst; destruct Hb as [-> | Hb].
    + apply Qle_refl.
    + apply Qle_trans with (bid_amount m'); [apply (IH m' eq_refl b Hb)|].
      apply Qle_bool_iff. exact Ele.
    + apply Qle_bool_false_iff in Ele. apply Qlt_le_weak. exact Ele.
    + apply (IH m eq_refl b Hb).
  - inversion H; subst. destruct l as [|y l].
    + destruct Hb as [-> | []]. apply Qle_refl.
    + simpl in E. destruct (top_bid l) as [m'|];
        [destruct (Qle_bool (bid_amount m') (bid_amount y))|]; discriminate.
Qed.

(** Restricting the rows to a set that keeps the top bid keeps it on top. *)
Lemma top_bid_filter (p : Bid -> bool) (l : list Bid) (m : Bid) :
  top_bid l = Some m -> p m = true -> top_bid (filter p l) = Some m.
Proof.
  revert m. induction l as [|x l IH]; intros m H Hp; [discriminate|].
  simpl in H. destruct (top_bid l) as [m'|] eqn:E.
  - destruct (Qle_bool (bid_amount m') (bid_amount x)) eqn:Ele; inversion H; subst.
    + simpl. rewrite Hp. simpl.
      destruct (top_bid (filter p l)) as [m''|] eqn:E'; [|reflexivity].
      replace (Qle_bool (bid_amount m'') (bid_amount m)) with true; [reflexivity|].
      symmetry. apply Qle_bool_iff.
      apply Qle_trans with (bid_amount m'); [|apply Qle_bool_iff; exact Ele].
      apply (top_bid_max l m' E). apply top_bid_in in E'.
      apply filter_In in E'. tauto.
    + simpl. destruct (p x).
      * simpl. rewrite (IH m eq_refl Hp). rewrite Ele. reflexivity.
      * apply (IH m eq_refl Hp).
  - inversion H; subst. simpl. rewrite Hp. simpl.
    destruct l as [|y l]; [reflexivity|].
    simpl in E. destruct (top_bid l) as [m'|];
      [destruct (Qle_bool (bid_amount m') (bid_amount y))|]; discriminate.
Qed.

(** The bids left active on the auction once every other bidder's active
    bids are deactivated. *)
Lemma active_after_losers (auction_id winner : nat) (l : list Bid) :
  filter (active_in auction_id)
    (map (fun b => if active_in auction_id b && negb (Nat.eqb (bid_bidder_id b) winner)
                   then inactive b else b) l)
  = filter (fun b => Nat.eqb (bid_bidder_id b) winner) (filter (active_in auction_id) l).
Proof.
  induction l as [|b l IH]; simpl; [reflexivity|].
  destruct (active_in auction_id b) eqn:Ea; simpl.
  - destruct (Nat.eqb (bid_bidder_id b) winner) eqn:Ew; simpl.
    + rewrite Ea. rewrite IH. reflexivity.
    + unfold active_in at 1. simpl. rewrite andb_false_r. exact IH.
  - rewrite Ea. exact IH.
Qed.

(** The grouping query over the other bidders' active bids returns exactly
    the bidders other than the winner. *)
Lemma deactivate_loser_groups (auction_id winner : nat) (db : DB) :
  map (fun b => if active_in auction_id b
                   && existsb (Nat.eqb (bid_bidder_id b))
                        (map g_bidder_id
                           (group_by_bidder
                              (filter (fun b => negb (Nat.eqb (bid_bidder_id b) winner))
                                      (active_bids auction_id db))))
                then inactive b else b) (bids db)
  = map (fun b => if active_in auction_id b && negb (Nat.eqb (bid_bidder_id b) winner)
                  then inactive b else b) (bids db).
Proof.
  apply map_ext_in. intros b Hb.
  destruct (active_in auction_id b) eqn:Ea; [|reflexivity]. simpl.
  rewrite group_by_bidder_ids.
  destruct (Nat.eqb (bid_bidder_id b) winner) eqn:Ew; simpl.
  - replace (existsb _ _) with false; [reflexivity|].
    symmetry. apply not_true_is_false. intros H.
    apply existsb_bidder in H. apply nodup_In in H.
    apply in_map_iff in H. destruct H as [b' [Hid Hb']].
    apply filter_In in Hb'. destruct Hb' as [_ Hne].
    apply Nat.eqb_eq in Ew. rewrite Hid, Ew, Nat.eqb_refl in Hne. discriminate.
  - replace (existsb _ _) with true; [reflexivity|].
    symmetry. apply existsb_bidder. apply nodup_In. apply in_map.
    apply filter_In. split; [|rewrite Ew; reflexivity].
    unfold active_bids. apply filter_In. split; assumption.
Qed.

Lemma reserve_met (highest : Bid) (reserve_price : option Q) :
  (forall r, reserve_price = Some r -> r <= bid_amount highest) ->
  AuctionService.reserve_not_met_of (Some highest) reserve_price = false.
Proof.
  intros H. unfold AuctionService.reserve_not_met_of.
  destruct reserve_price as [r|]; [|reflexivity].
  replace (Qlt_bool (bid_amount highest) r) with false; [apply andb_false_r|].
  symmetry. apply Qlt_bool_false_iff. apply H. reflexivity.
Qed.

(** The scheduler's sale is a prefix that leaves [auctions] and [bids] alone,
    followed by the refund loop over the other bidders. *)
Lemma service_sale_shape auction_id artwork_id winner amount seller db :
  exists d,
    AuctionService._process_successful_sale auction_id artwork_id winner amount seller db
    = AuctionService.refund_all auction_id artwork_id "Auction ended - bid refunded"
        (group_by_bidder
           (filter (fun b => negb (Nat.eqb (bid_bidder_id b) winner))
                   (active_bids auction_id db))) d
    /\ bids d = bids db /\ auctions d = auctions db.
Proof.
  unfold AuctionService._process_successful_sale. cbv zeta.
  destruct (find_balance winner _); destruct (find_balance seller _);
    eexists; (split; [reflexivity | split; reflexivity]).
Qed.

Lemma app_sale_block_tables artwork_id winner amount seller db :
  bids (App.sale_block artwork_id winner amount seller db) = bids db /\
  auctions (App.sale_block artwork_id winner amount seller db) = auctions db.
Proof.
  unfold App.sale_block. cbv zeta.
  destruct (find_balance winner _); destruct (find_balance seller _);
    split; reflexivity.
Qed.

(** The tables after the loop over the other bidders, started from a state
    [d] whose [bids] are those of [db] and whose auction row is closed. *)
Lemma sale_outcome (auction : Auction) (highest : Bid) (db d : DB) :
  find_auction (au_id auction) db = Some auction ->
  find_winning_bid (au_id auction) db = Some highest ->
  bids d = bids db ->
  auctions d = auctions (close_auction_row (au_id auction)
                           (Some (bid_bidder_id highest)) db) ->
  sale_keeps_winner_bid auction highest db
    (AuctionService.refund_all (au_id auction) (au_artwork_id auction)
       "Auction ended - bid refunded"
       (group_by_bidder
          (filter (fun b => negb (Nat.eqb (bid_bidder_id b) (bid_bidder_id highest)))
                  (active_bids (au_id auction) db))) d).
Proof.
  intros Hrow Hwin Hb Ha.
  set (db' := AuctionService.refund_all _ _ _ _ d).
  assert (Hin : In highest (active_bids (au_id auction) db))
    by (apply top_bid_in; exact Hwin).
  apply filter_In in Hin. destruct Hin as [Hin Hact].
  assert (Hbids : bids db' = losers_deactivated (au_id auction) (bid_bidder_id highest)
                               (bids db)).
  { unfold db'. rewrite refund_all_bids, Hb. apply deactivate_loser_groups. }
  assert (Hkeep : forall b, In b (bids db) -> bid_bidder_id b = bid_bidder_id highest ->
                            In b (bids db')).
  { intros b Hbin Heq. rewrite Hbids. unfold losers_deactivated.
    apply in_map_iff. exists b. split; [|exact Hbin].
    rewrite Heq, Nat.eqb_refl. simpl. rewrite andb_false_r. reflexivity. }
  assert (Hfa : find_auction (au_id auction) db'
                = Some (mkAuction (au_id auction) (au_artwork_id auction)
                          (au_seller_id auction) (au_start_price auction)
                          (au_reserve_price auction) (au_end_time auction) StClosed
                          (Some (bid_bidder_id highest)))).
  { unfold db'. rewrite (find_auction_ext _ _ _ (refund_all_auctions _ _ _ _ _)).
    rewrite (find_auction_ext _ _ _ Ha).
    rewrite find_auction_close, Hrow. reflexivity. }
  assert (Htop : find_winning_bid (au_id auction) db' = Some highest).
  { unfold find_winning_bid, active_bids. rewrite Hbids.
    unfold losers_deactivated. rewrite active_after_losers.
    apply top_bid_filter; [exact Hwin | apply Nat.eqb_refl]. }
  unfold sale_keeps_winner_bid.
  split; [unfold status_of; rewrite Hfa; reflexivity|].
  split; [unfold winner_of; rewrite Hfa; reflexivity|].
  split; [exact Hbids|].
  split; [exact Hkeep|].
  split; [apply Hkeep; [exact Hin | reflexivity]|].
  split; [unfold active_in in Hact; apply andb_true_iff in Hact; tauto|].
  split; [exact Htop|].
  unfold current_bid. unfold find_winning_bid in Htop. rewrite Htop. reflexivity.
Qed.

(** C10.  A successful sale deactivates the other bidders' bids only: on the
    scheduler's path and on the path of the close endpoint alike, settlement
    succeeds, closes the auction with the highest bidder as winner, and
    leaves every bid row of the winner as it was, so that the winning bid is
    still active and still the highest active bid of the closed auction. *)
Theorem sale_leaves_winner_bid_active :
  forall (auction : Auction) (db : DB) (highest : Bid),
    find_auction (au_id auction) db = Some auction ->
    find_winning_bid (au_id auction) db = Some highest ->
    bid_bidder_id highest <> 0%nat ->
    ~ bid_amount highest == 0 ->
    (forall r, au_reserve_price auction = Some r -> r <= bid_amount highest) ->
    (truthy_id (au_seller_id auction) = true
     \/ find_artwork (au_artwork_id auction) db <> None) ->
    (exists db', AuctionService.process_ended_auction auction db = Ok db'
                 /\ sale_keeps_winner_bid auction highest db db') /\
    (exists db', App._process_ended_auction auction db = Ok db'
                 /\ sale_keeps_winner_bid auction highest db db').
Proof.
  intros auction db highest Hrow Hwin Hid Hamt Hres Hseller.
  assert (Hta : truthy_amount (Some (bid_amount highest)) = true).
  { simpl. destruct (Qeq_bool (bid_amount highest) 0) eqn:E; [|reflexivity].
    apply Qeq_bool_iff in E. contradiction. }
  pose proof (truthy_id_pos _ Hid) as Hti.
  pose proof (reserve_met highest (au_reserve_price auction) Hres) as Hrm.
  split.
  - destruct (service_seller_resolves auction db Hseller) as [seller Hs].
    destruct (service_sale_shape (au_id auction) (au_artwork_id auction)
                (bid_bidder_id highest) (bid_amount highest) seller
                (close_auction_row (au_id auction) (Some (bid_bidder_id highest)) db))
      as [d [Hd [Hb Ha]]].
    change (active_bids (au_id auction)
              (close_auction_row (au_id auction) (Some (bid_bidder_id highest)) db))
      with (active_bids (au_id auction) db) in Hd.
    change (bids (close_auction_row (au_id auction) (Some (bid_bidder_id highest)) db))
      with (bids db) in Hb.
    eexists. split.
    + unfold AuctionService.process_ended_auction.
      rewrite Hs. unfold bind. cbv zeta. rewrite Hwin, Hrm.
      unfold option_map. rewrite Hti, Hta. simpl andb. cbv iota.
      rewrite Hd. reflexivity.
    + apply sale_outcome; assumption.
  - destruct (app_seller_resolves auction db Hseller) as [seller Hs].
    destruct (app_sale_block_tables (au_artwork_id auction) (bid_bidder_id highest)
                (bid_amount highest) seller
                (close_auction_row (au_id auction) (Some (bid_bidder_id highest)) db))
      as [Hb Ha].
    change (bids (close_auction_row (au_id auction) (Some (bid_bidder_id highest)) db))
      with (bids db) in Hb.
    exists (AuctionService.refund_all (au_id auction) (au_artwork_id auction)
              "Auction ended - bid refunded"
              (group_by_bidder
                 (filter (fun b => negb (Nat.eqb (bid_bidder_id b) (bid_bidder_id highest)))
                         (active_bids (au_id auction) db)))
              (App.sale_block (au_artwork_id auction) (bid_bidder_id highest)
                 (bid_amount highest) seller
                 (close_auction_row (au_id auction) (Some (bid_bidder_id highest)) db))).
    split.
    + unfold App._process_ended_auction.
      rewrite Hs. unfold bind. cbv zeta. rewrite Hwin, Hrm.
      unfold option_map. rewrite Hti, Hta. simpl andb. cbv iota.
      rewrite <- (active_bids_ext (au_id auction) _ _ Hb).
      destruct (bid_bidder_id highest) as [|n] eqn:En; [congruence|].
      rewrite app_refund_loop. reflexivity.
    + apply sale_outcome; assumption.
Qed.

Lemma sale_leaves_winner_bid_active_witness :
  (exists db',
     AuctionService.process_ended_auction
       (mkAuction 100 10 (Some 1%nat) 100 None 50 StOpen None)
       (Samples.two_bidders None) = Ok db'
     /\ sale_keeps_winner_bid (mkAuction 100 10 (Some 1%nat) 100 None 50 StOpen None)
          (mkBid 2 100 3 200 true) (Samples.two_bidders None) db') /\
  (exists db',
     App._process_ended_auction
       (mkAuction 100 10 (Some 1%nat) 100 None 50 StOpen None)
       (Samples.two_bidders None) = Ok db'
     /\ sale_keeps_winner_bid (mkAuction 100 10 (Some 1%nat) 100 None 50 StOpen None)
          (mkBid 2 100 3 200 true) (Samples.two_bidders None) db').
Proof.
  apply (sale_leaves_winner_bid_active
           (mkAuction 100 10 (Some 1%nat) 100 None 50 StOpen None)
           (Samples.two_bidders None) (mkBid 2 100 3 200 true)).
  - reflexivity.
  - reflexivity.
  - simpl. lia.
  - simpl. intros H. vm_compute in H. discriminate H.
  - intros r H. simpl in H. discriminate H.
  - left. reflexivity.
Defined.

(* ------------------------------------------------------------------ *)
(** *** Cancelling an auction *)

Lemma map_if_none {A} (p : A -> bool) (f : A -> A) (l : list A) :
  filter p l = [] -> map (fun x => if p x then f x else x) l = l.
Proof.
  induction l as [|x l IH]; simpl; [reflexivity|].
  destruct (p x); [discriminate|]. intros H. rewrite IH by exact H. reflexivity.
Qed.

Lemma find_auction_set_status (auction_id : nat) (s : AuctionStatus) (db : DB) :
  find_auction auction_id (set_auction_status auction_id s db) =
  option_map (fun a => mkAuction (au_id a) (au_artwork_id a) (au_seller_id a)
                                 (au_start_price a) (au_reserve_price a) (au_end_time a)
                                 s (au_winner_id a))
             (find_auction auction_id db).
Proof.
  unfold find_auction, set_auction_status. simpl.
  rewrite find_map_stable.
  - destruct (find _ (auctions db)) as [a|] eqn:E; simpl; [|reflexivity].
    apply find_some in E. destruct E as [_ E]. rewrite E. reflexivity.
  - intros a. destruct (Nat.eqb (au_id a) auction_id) eqn:E; exact E.
Qed.

(** Without an active bid on the auction, [cancel_auction] comes down to its
    status write. *)
Lemma cancel_without_active_bids (auction_id : nat) (db : DB) (a : Auction) :
  find_auction auction_id db = Some a ->
  active_bids auction_id db = [] ->
  App.cancel_auction auction_id StCancelled db
  = set_auction_status auction_id StCancelled (deactivate_bids auction_id db)
  /\ bids (deactivate_bids auction_id db) = bids db
  /\ find_auction auction_id (App.cancel_auction auction_id StCancelled db)
     = Some (mkAuction (au_id a) (au_artwork_id a) (au_seller_id a) (au_start_price a)
                       (au_reserve_price a) (au_end_time a) StCancelled (au_winner_id a)).
Proof.
  intros Hrow Hnone.
  assert (H : App.cancel_auction auction_id StCancelled db
              = set_auction_status auction_id StCancelled (deactivate_bids auction_id db)).
  { unfold App.cancel_auction. rewrite Hrow.
    unfold App.refund_active_bids. rewrite Hnone. reflexivity. }
  split; [exact H|].
  split; [apply map_if_none; exact Hnone|].
  rewrite H, find_auction_set_status.
  change (find_auction auction_id (deactivate_bids auction_id db))
    with (find_auction auction_id db).
  rewrite Hrow. reflexivity.
Qed.

(** Cancelling an auction that is already cancelled and has no active bid
    leaves its row as it is. *)
Lemma cancel_of_cancelled_auction_keeps_row :
  forall (auction_id : nat) (db : DB) (a : Auction),
    find_auction auction_id db = Some a ->
    active_bids auction_id db = [] ->
    au_status a = StCancelled ->
    find_auction auction_id (App.cancel_auction auction_id StCancelled db) = Some a.
Proof.
  intros auction_id db a Hrow Hnone Hc.
  destruct (cancel_without_active_bids auction_id db a Hrow Hnone) as [_ [_ H]].
  rewrite H. destruct a; simpl in *; subst; reflexivity.
Qed.

(** C9 as stated does not hold: cancelling the closed auction of
    [Samples.closed_unsold] changes its status to cancelled. *)
Lemma cancel_moves_closed_auction_to_cancelled :
  status_of 100 Samples.closed_unsold = Some StClosed /\
  status_of 100 (App.cancel_auction 100 StCancelled Samples.closed_unsold)
  = Some StCancelled /\
  status_of 100 (App.cancel_auction 100 StCancelled Samples.closed_unsold)
  <> status_of 100 Samples.closed_unsold.
Proof.
  repeat split; try reflexivity. vm_compute. discriminate.
Qed.

(** After a sale the winner's bid is still active, and cancelling the closed
    auction hands the spent amount back to the winner. *)
Lemma cancel_after_sale_refunds_winner :
  let sold := snd (App.close_auction 1 100 Samples.one_bid) in
  let cancelled := App.cancel_auction 100 StCancelled sold in
  status_of 100 sold = Some StClosed /\
  available_of 3 sold == 800 /\
  status_of 100 cancelled = Some StCancelled /\
  available_of 3 cancelled == 1000 /\
  available_of 1 cancelled == 235.
Proof.
  vm_compute. repeat split; reflexivity.
Qed.

(* ------------------------------------------------------------------ *)
(** *** Placing and raising a bid *)

(** The auction that [place_bid_on_artwork] selects. *)
Lemma open_auction_selected (artwork_id : nat) (db : DB) (auction : Auction) :
  find (fun au => Nat.eqb (au_artwork_id au) artwork_id
                  && status_eqb (au_status au) StOpen) (auctions db) = Some auction ->
  au_artwork_id auction = artwork_id /\ au_status auction = StOpen.
Proof.
  intros H. apply find_some in H. destruct H as [_ H].
  apply andb_true_iff in H. destruct H as [H1 H2].
  apply Nat.eqb_eq in H1. split; [exact H1|].
  destruct (au_status auction); simpl in H2; congruence.
Qed.

(** C7, as the code has it.  A bidder without an active bid on the auction,
    whose available balance covers the amount, is accepted exactly when the
    amount strictly exceeds [min_bid]: the highest active bid when there is
    one (and it is not 0), the start price when there is none.  A first bid
    equal to the start price is refused, like any tie. *)
Theorem first_bid_must_exceed_min_bid :
  forall (user artwork_id : nat) (bid_value : Q) (now : Z) (db : DB) (auction : Auction),
    find (fun au => Nat.eqb (au_artwork_id au) artwork_id
                    && status_eqb (au_status au) StOpen) (auctions db) = Some auction ->
    (now < au_end_time auction)%Z ->
    sql_eq_id (au_seller_id auction) (Some user) = false ->
    find_active_by_bidder (au_id auction) user db = None ->
    bid_value <= available_of user db ->
    let response := fst (App.place_bid_on_artwork user artwork_id (Some bid_value) now db) in
    (response = Success "bid_placed" <-> min_bid_of auction db < bid_value) /\
    (current_bid (au_id auction) db = None ->
       (response = Success "bid_placed" <-> au_start_price auction < bid_value)) /\
    (forall highest, current_bid (au_id auction) db = Some highest -> ~ highest == 0 ->
       (response = Success "bid_placed" <-> highest < bid_value)).
Proof.
  intros user artwork_id bid_value now db auction Hsel Hnow Hseller Hnone Hfunds response.
  assert (Hmain : response = Success "bid_placed" <-> min_bid_of auction db < bid_value).
  { unfold response, App.place_bid_on_artwork.
    rewrite Hsel.
    replace (au_end_time auction <=? now)%Z with false
      by (symmetry; apply Z.leb_gt; exact Hnow).
    rewrite Hseller. cbv zeta. rewrite Hnone.
    replace (Qlt_bool (available_of user db) bid_value) with false
      by (symmetry; apply Qlt_bool_false_iff; exact Hfunds).
    destruct (Qle_bool bid_value (min_bid_of auction db)) eqn:E; simpl.
    - apply Qle_bool_iff in E. split; [discriminate|].
      intros H. exfalso. exact (Qlt_not_le _ _ H E).
    - apply Qle_bool_false_iff in E. split; [intros _; exact E | reflexivity]. }
  split; [exact Hmain|]. split.
  - intros Hc. unfold min_bid_of in Hmain. rewrite Hc in Hmain. exact Hmain.
  - intros highest Hc Hnz. unfold min_bid_of in Hmain. rewrite Hc in Hmain.
    replace (truthy_amount (Some highest)) with true in Hmain; [exact Hmain|].
    simpl. destruct (Qeq_bool highest 0) eqn:E; [|reflexivity].
    apply Qeq_bool_iff in E. contradiction.
Qed.

Lemma first_bid_must_exceed_min_bid_witness :
  fst (App.place_bid_on_artwork 4 10 (Some 101) 40 Samples.no_bids)
  = Success "bid_placed" <-> 100 < 101.
Proof.
  refine (proj1 (first_bid_must_exceed_min_bid 4 10 101 40 Samples.no_bids
                   (mkAuction 100 10 (Some 1%nat) 100 None 50 StOpen None)
                   _ _ _ _ _)).
  - reflexivity.
  - reflexivity.
  - reflexivity.
  - reflexivity.
  - vm_compute. discriminate.
Defined.

(** C7 as stated does not hold: on [Samples.no_bids] nobody has bid, user 4
    has 1000 available and bids the start price, 100, before the end time;
    the bid is refused and nothing is written. *)
Lemma first_bid_at_start_price_is_refused :
  current_bid 100 Samples.no_bids = None /\
  Qle_bool 100 (available_of 4 Samples.no_bids) = true /\
  App.place_bid_on_artwork 4 10 (Some 100) 40 Samples.no_bids
  = (Failure 400 "Bid must exceed min_bid", Samples.no_bids) /\
  fst (App.place_bid_on_artwork 4 10 (Some 100) 40 Samples.no_bids)
  <> Success "bid_placed".
Proof.
  repeat split; try reflexivity. vm_compute. discriminate.
Qed.

Lemma find_first_updated {A} (p : A -> bool) (k : A -> A) (l : list A) (e : A) :
  find p l = Some e ->
  (forall x, p x = false -> p (k x) = false) ->
  p (k e) = true ->
  find p (map k l) = Some (k e).
Proof.
  intros H Hfalse Htrue. induction l as [|x l IH]; [discriminate|].
  simpl in *. destruct (p x) eqn:E.
  - inversion H; subst. rewrite Htrue. reflexivity.
  - rewrite (Hfalse x E). apply IH. exact H.
Qed.

Lemma find_balance_ensure (u : nat) (db : DB) :
  find_balance u (ensure_balance u db) =
  Some (match find_balance u db with
        | Some r => r
        | None => mkBalance u balances_column_default balances_column_default
        end).
Proof.
  unfold ensure_balance. destruct (find_balance u db) as [r|] eqn:E; [exact E|].
  rewrite find_balance_insert, E, Nat.eqb_refl. reflexivity.
Qed.

Lemma ensure_balance_bids (u : nat) (db : DB) : bids (ensure_balance u db) = bids db.
Proof. unfold ensure_balance. destruct (find_balance u db); reflexivity. Qed.

(** C6.  A bidder who has an active bid on the auction raises it through
    [place_bid_on_artwork].  With an available balance that covers the
    difference, the raise is accepted exactly when the new amount strictly
    exceeds the bidder's own bid; the highest bid of the auction plays no
    part.  An accepted raise moves the difference, not the new amount, from
    available to pending and rewrites the amount of the same bid row; a
    refused one changes nothing. *)
Theorem raise_compares_with_own_bid_and_holds_the_difference :
  forall (user artwork_id : nat) (bid_value : Q) (now : Z) (db : DB)
         (auction : Auction) (existing : Bid),
    find (fun au => Nat.eqb (au_artwork_id au) artwork_id
                    && status_eqb (au_status au) StOpen) (auctions db) = Some auction ->
    (now < au_end_time auction)%Z ->
    sql_eq_id (au_seller_id auction) (Some user) = false ->
    find_active_by_bidder (au_id auction) user db = Some existing ->
    bid_value - bid_amount existing <= available_of user db ->
    let outcome := App.place_bid_on_artwork user artwork_id (Some bid_value) now db in
    let difference := bid_value - bid_amount existing in
    (fst outcome = Success "bid_placed" <-> bid_amount existing < bid_value) /\
    (fst outcome = Success "bid_placed" ->
       available_of user (snd outcome) == available_of user db - difference /\
       pending_of user (snd outcome) == pending_of user db + difference /\
       find_active_by_bidder (au_id auction) user (snd outcome)
       = Some (mkBid (bid_id existing) (bid_auction_id existing)
                     (bid_bidder_id existing) bid_value true)) /\
    (fst outcome <> Success "bid_placed" -> snd outcome = db).
Proof.
  intros user artwork_id bid_value now db auction existing
         Hsel Hnow Hseller Hex Hfunds outcome difference.
  pose proof (find_some _ _ Hex) as [_ Hp].
  unfold outcome, App.place_bid_on_artwork.
  rewrite Hsel.
  replace (au_end_time auction <=? now)%Z with false
    by (symmetry; apply Z.leb_gt; exact Hnow).
  rewrite Hseller. cbv zeta. rewrite Hex.
  change (available_of user (with_bids db _)) with (available_of user db).
  replace (Qlt_bool (available_of user db) (bid_value - bid_amount existing)) with false
    by (symmetry; apply Qlt_bool_false_iff; exact Hfunds).
  destruct (Qle_bool (bid_value - bid_amount existing) 0) eqn:E.
  - apply Qle_bool_iff in E. simpl.
    split; [split; [discriminate | intros H; exfalso; lra]|].
    split; [discriminate | reflexivity].
  - apply Qle_bool_false_iff in E. simpl fst. simpl snd.
    split; [split; [intros _; lra | reflexivity]|].
    split; [|congruence].
    intros _.
    set (safe := with_bids db _).
    assert (Hbal : find_balance user
                     (update_balance user
                        (fun r => mkBalance (bal_user_id r)
                                    (available_balance r - (bid_value - bid_amount existing))
                                    (pending_balance r + (bid_value - bid_amount existing)))
                        (ensure_balance user safe))
                   = Some (let r := match find_balance user db with
                                    | Some r => r
                                    | None => mkBalance user balances_column_default
                                                        balances_column_default
                                    end in
                           mkBalance (bal_user_id r)
                             (available_balance r - (bid_value - bid_amount existing))
                             (pending_balance r + (bid_value - bid_amount existing)))).
    { rewrite find_balance_update_same by reflexivity.
      rewrite find_balance_ensure. reflexivity. }
    split; [|split].
    + unfold available_of at 1.
      match goal with |- context [find_balance user ?d] =>
        change (find_balance user d)
          with (find_balance user
                  (update_balance user
                     (fun r => mkBalance (bal_user_id r)
                                 (available_balance r - (bid_value - bid_amount existing))
                                 (pending_balance r + (bid_value - bid_amount existing)))
                     (ensure_balance user safe)))
      end.
      rewrite Hbal. unfold available_of, difference.
      destruct (find_balance user db); simpl; reflexivity.
    + unfold pending_of at 1.
      match goal with |- context [find_balance user ?d] =>
        change (find_balance user d)
          with (find_balance user
                  (update_balance user
                     (fun r => mkBalance (bal_user_id r)
                                 (available_balance r - (bid_value - bid_amount existing))
                                 (pending_balance r + (bid_value - bid_amount existing)))
                     (ensure_balance user safe)))
      end.
      rewrite Hbal. unfold pending_of, difference.
      destruct (find_balance user db); simpl; reflexivity.
    + unfold find_active_by_bidder.
      match goal with |- find ?p (bids ?d) = _ =>
        change (bids d)
          with (map (fun b => if Nat.eqb (bid_id b) (bid_id existing)
                              then mkBid (bid_id b) (bid_auction_id b) (bid_bidder_id b)
                                         bid_value (bid_is_active b)
                              else b)
                    (bids (ensure_balance user safe)))
      end.
      rewrite ensure_balance_bids. unfold safe. simpl bids. rewrite map_map.
      apply andb_true_iff in Hp. destruct Hp as [Hact Hbid].
      assert (Hactive : bid_is_active existing = true)
        by (unfold active_in in Hact; apply andb_true_iff in Hact; tauto).
      rewrite (find_first_updated _ _ _ existing Hex).
      * rewrite Hact, Hbid, !Nat.eqb_refl. simpl. rewrite Hactive. reflexivity.
      * intros x Hx. rewrite Hx. simpl.
        destruct (Nat.eqb (bid_id x) (bid_id existing)); exact Hx.
      * rewrite Hact, Hbid, !Nat.eqb_refl. simpl.
        unfold active_in in *. simpl. rewrite Hact, Hbid. reflexivity.
Qed.

Lemma raise_compares_with_own_bid_and_holds_the_difference_witness :
  fst (App.place_bid_on_artwork 2 10 (Some 180) 40 (Samples.two_bidders None))
  = Success "bid_placed" <-> 150 < 180.
Proof.
  refine (proj1 (raise_compares_with_own_bid_and_holds_the_difference
                   2 10 180 40 (Samples.two_bidders None)
                   (mkAuction 100 10 (Some 1%nat) 100 None 50 StOpen None)
                   (mkBid 1 100 2 150 true) _ _ _ _ _)).
  - reflexivity.
  - reflexivity.
  - reflexivity.
  - reflexivity.
  - vm_compute. discriminate.
Defined.

(** A raise that stays below the leader: on [Samples.two_bidders] user 3
    leads with 200 and user 2 raises 150 to 180.  The raise is accepted and
    holds 30 more. *)
Lemma raise_below_the_highest_bid_is_accepted :
  let outcome := App.place_bid_on_artwork 2 10 (Some 180) 40 (Samples.two_bidders None) in
  current_bid 100 (Samples.two_bidders None) = Some 200 /\
  fst outcome = Success "bid_placed" /\
  available_of 2 (snd outcome) == 470 /\
  pending_of 2 (snd outcome) == 180 /\
  active_bids 100 (snd outcome) = [mkBid 1 100 2 180 true; mkBid 2 100 3 200 true].
Proof.
  vm_compute. repeat split; reflexivity.
Qed.

(** [BidService.update_bid] has the same rule: the new amount is compared
    with the amount of the bid itself, and the difference is what moves from
    available to pending. *)
Lemma service_update_bid_holds_the_difference :
  forall (id user : nat) (new_amount : Q) (db : DB) (bid : Bid) (auction : Auction),
    find (fun b => Nat.eqb (bid_id b) id) (bids db) = Some bid ->
    bid_bidder_id bid = user ->
    find_auction (bid_auction_id bid) db = Some auction ->
    au_status auction = StOpen ->
    new_amount - bid_amount bid <= available_of user db ->
    ((exists db', BidService.update_bid id user new_amount db = Ok db')
     <-> bid_amount bid < new_amount) /\
    (forall db', BidService.update_bid id user new_amount db = Ok db' ->
       available_of user db' == available_of user db - (new_amount - bid_amount bid) /\
       pending_of user db' == pending_of user db + (new_amount - bid_amount bid)).
Proof.
  intros id user new_amount db bid auction Hbid Huser Hau Hopen Hfunds.
  unfold BidService.update_bid.
  rewrite Hbid, Huser, Nat.eqb_refl, Hau, Hopen. simpl negb. cbv iota.
  change (BalanceRepository.get_available_balance user db) with (available_of user db).
  cbv zeta.
  replace (Qlt_bool (available_of user db) (new_amount - bid_amount bid)) with false
    by (symmetry; apply Qlt_bool_false_iff; exact Hfunds).
  destruct (Qle_bool new_amount (bid_amount bid)) eqn:E.
  - apply Qle_bool_iff in E.
    split; [split; [intros [db' H]; discriminate H | intros H; exfalso; lra]|].
    intros db' H. discriminate H.
  - apply Qle_bool_false_iff in E.
    split; [split; [intros _; exact E | intros _; eexists; reflexivity]|].
    intros db' H. inversion H; subst db'; clear H.
    assert (Hrow : find_balance user db <> None).
    { unfold available_of in Hfunds. destruct (find_balance user db); [discriminate|].
      exfalso. lra. }
    unfold available_of, pending_of.
    match goal with |- context [find_balance user ?d] =>
      change (find_balance user d)
        with (find_balance user
                (update_balance user
                   (fun r => fold_left BalanceRepository.add_to
                               [(BalanceRepository.available_balance_col,
                                 - (new_amount - bid_amount bid));
                                (BalanceRepository.pending_balance_col,
                                 new_amount - bid_amount bid)] r) db))
    end.
    rewrite find_balance_update_same by reflexivity.
    destruct (find_balance user db) as [r|]; [|congruence].
    simpl. split; ring.
Qed.

(* ------------------------------------------------------------------ *)
(** *** The scheduler's transaction *)

(** No turn of the loop commits: whatever the loop does, the committed
    state is the one the job started from until the final [commit]. *)
Lemma job_loop_commits_nothing (l : list Auction) (c : Connection) :
  committed (fold_left Jobs.job_step l c) = committed c.
Proof.
  revert c. induction l as [|a l IH]; intros c; [reflexivity|].
  simpl. rewrite IH. unfold Jobs.job_step.
  destruct (AuctionService.process_ended_auction a (working c)); reflexivity.
Qed.

(** A turn whose settlement raises puts the working state back to the
    committed one, dropping the writes of every earlier turn. *)
Lemma job_step_failure_resets (c : Connection) (a : Auction) (e : Error) :
  AuctionService.process_ended_auction a (working c) = Raise e ->
  working (Jobs.job_step c a) = committed c.
Proof.
  intros H. unfold Jobs.job_step. rewrite H. reflexivity.
Qed.

(** When the last auction of the batch raises, the job leaves the database
    as it found it. *)
Lemma job_last_failure_undoes_batch (now : Z) (db : DB) (l : list Auction) (a : Auction) :
  ended_auctions now db = l ++ [a] ->
  (exists e, AuctionService.process_ended_auction a
               (working (fold_left Jobs.job_step l (mkConn db db))) = Raise e) ->
  Jobs.process_ended_auctions_job now db = db.
Proof.
  intros Hl [e He]. unfold Jobs.process_ended_auctions_job. simpl working.
  rewrite Hl, fold_left_app. simpl fold_left.
  unfold commit. simpl committed.
  rewrite (job_step_failure_resets _ _ e He).
  apply job_loop_commits_nothing.
Qed.

(* ------------------------------------------------------------------ *)
(** *** Refusals of the bidding endpoint *)

(** Without an open auction on the artwork, or at or after the end time of
    the open auction, [place_bid_on_artwork] answers with an error and the
    database is as before. *)
Lemma endpoint_refuses_closed_or_ended :
  forall (user artwork_id : nat) (amount : option Q) (now : Z) (db : DB),
    (forall auction,
       find (fun au => Nat.eqb (au_artwork_id au) artwork_id
                       && status_eqb (au_status au) StOpen) (auctions db) = Some auction ->
       (au_end_time auction <= now)%Z) ->
    exists code message,
      App.place_bid_on_artwork user artwork_id amount now db = (Failure code message, db).
Proof.
  intros user artwork_id amount now db H. unfold App.place_bid_on_artwork.
  destruct amount as [bid_value|]; [|eauto].
  destruct (find _ (auctions db)) as [auction|] eqn:E; [|eauto].
  replace (au_end_time auction <=? now)%Z with true
    by (symmetry; apply Z.leb_le; apply H; reflexivity).
  eauto.
Qed.

(** [BidService.place_bid] refuses an auction that is not open before it
    writes anything. *)
Lemma service_refuses_auction_not_open :
  forall (auction_id bidder_id : nat) (amount : Q) (db : DB),
    (forall auction, find_auction auction_id db = Some auction ->
                     au_status auction <> StOpen) ->
    BidService.place_bid auction_id bidder_id amount db
    = Raise (NotFoundError "Auction not open").
Proof.
  intros auction_id bidder_id amount db H. unfold BidService.place_bid.
  destruct (find_auction auction_id db) as [auction|] eqn:E; [|reflexivity].
  specialize (H auction eq_refl).
  destruct (au_status auction); simpl; congruence.
Qed.

(** The scheduler and the process-ended endpoint select open auctions only,
    which is what keeps them from settling an auction twice; the close
    endpoint has no such condition. *)
Lemma ended_auctions_are_open (now : Z) (db : DB) (a : Auction) :
  In a (ended_auctions now db) -> au_status a = StOpen /\ (au_end_time a <= now)%Z.
Proof.
  unfold ended_auctions. intros H. apply filter_In in H. destruct H as [_ H].
  apply andb_true_iff in H. destruct H as [Hs Ht].
  split; [destruct (au_status a); simpl in Hs; congruence | apply Z.leb_le; exact Ht].
Qed.

(* ================================================================== *)
(** ** Further properties of the code *)
(* ================================================================== *)

(* ------------------------------------------------------------------ *)
(** *** The ledger: balance rows, deposits and withdrawals *)

Lemma update_balance_absent (u : nat) (f : Balance -> Balance) (db : DB) :
  find_balance u db = None -> update_balance u f db = db.
Proof.
  intros H. unfold update_balance.
  replace (map _ (balances db)) with (balances db); [destruct db; reflexivity|].
  symmetry. unfold find_balance in H.
  induction (balances db) as [|r l IH]; simpl in *; [reflexivity|].
  destruct (Nat.eqb (bal_user_id r) u); [discriminate|].
  rewrite IH by exact H. reflexivity.
Qed.

Lemma find_balance_ensure_other (u v : nat) (db : DB) :
  v <> u -> find_balance v (ensure_balance u db) = find_balance v db.
Proof.
  intros Hne. unfold ensure_balance.
  destruct (find_balance u db); [reflexivity|].
  rewrite find_balance_insert. destruct (find_balance v db); [reflexivity|].
  destruct (Nat.eqb u v) eqn:E; [|reflexivity].
  apply Nat.eqb_eq in E. congruence.
Qed.

(** [BalanceRepository.create] ([INSERT OR IGNORE]) never overwrites: a user
    who has a row keeps it and the database is unchanged, a user without one
    gets a zero row, nobody else's row changes, and a second call changes
    nothing more. *)
Theorem balance_create_keeps_existing_rows :
  forall (u : nat) (db : DB),
    find_balance u (ensure_balance u db)
    = Some (match find_balance u db with
            | Some r => r
            | None => mkBalance u 0 0
            end) /\
    (find_balance u db <> None -> ensure_balance u db = db) /\
    (forall v, v <> u -> find_balance v (ensure_balance u db) = find_balance v db) /\
    ensure_balance u (ensure_balance u db) = ensure_balance u db.
Proof.
  intros u db.
  assert (H1 : find_balance u (ensure_balance u db)
               = Some (match find_balance u db with
                       | Some r => r
                       | None => mkBalance u 0 0
                       end)) by apply find_balance_ensure.
  split; [exact H1|].
  split.
  { intros H. unfold ensure_balance. destruct (find_balance u db); congruence. }
  split; [intros v Hv; apply find_balance_ensure_other; exact Hv|].
  unfold ensure_balance at 1. rewrite H1. reflexivity.
Qed.

(** On [Samples.no_bids], whose ledger holds the one row of user 4: creating
    the row of user 4 changes nothing; creating the row of user 7 adds a
    zero row and leaves the row of user 4; creating it again changes
    nothing more. *)
Lemma balance_create_keeps_existing_rows_witness :
  ensure_balance 4 Samples.no_bids = Samples.no_bids /\
  find_balance 7 (ensure_balance 7 Samples.no_bids) = Some (mkBalance 7 0 0) /\
  find_balance 4 (ensure_balance 7 Samples.no_bids) = Some (mkBalance 4 1000 0) /\
  ensure_balance 7 (ensure_balance 7 Samples.no_bids) = ensure_balance 7 Samples.no_bids.
Proof.
  destruct (balance_create_keeps_existing_rows 4 Samples.no_bids) as [_ [Hkeep _]].
  destruct (balance_create_keeps_existing_rows 7 Samples.no_bids)
    as [Hnew [_ [Hother Hagain]]].
  split; [apply Hkeep; discriminate|].
  split; [exact Hnew|].
  split; [rewrite (Hother 4%nat); [reflexivity | discriminate] | exact Hagain].
Defined.

(** [BalanceRepository.update] adds the numbers it is given to the columns
    of the user's row.  For a user without a row it changes nothing at all,
    and it never changes the row of another user. *)
Theorem balance_update_adds_to_the_users_row :
  forall (u : nat) (a p : Q) (db : DB),
    let db' := BalanceRepository.update u
                 [(BalanceRepository.available_balance_col, a);
                  (BalanceRepository.pending_balance_col, p)] db in
    find_balance u db'
    = option_map (fun r => mkBalance (bal_user_id r) (available_balance r + a)
                                     (pending_balance r + p))
                 (find_balance u db) /\
    (find_balance u db = None -> db' = db) /\
    (forall v, v <> u -> find_balance v db' = find_balance v db).
Proof.
  intros u a p db db'. unfold db', BalanceRepository.update.
  split; [apply find_balance_update_same; reflexivity|].
  split; [apply update_balance_absent|].
  intros v Hv. apply find_balance_update_other; [reflexivity | exact Hv].
Qed.

(** A deposit of a positive amount is recorded as a completed transaction
    and adds the amount to the available balance of the row the user has;
    pending and the other users are untouched.  The handler does not create
    a missing row: for a user without one it still answers "deposited" and
    no balance changes.  An amount that is not positive is refused. *)
Theorem deposit_credits_the_existing_row :
  forall (u : nat) (amount : Q) (db : DB),
    let outcome := App.deposit u amount db in
    (amount <= 0 -> outcome = (Failure 400 "Invalid amount", db)) /\
    (0 < amount ->
       fst outcome = Success "deposited" /\
       find_balance u (snd outcome)
       = option_map (fun r => mkBalance (bal_user_id r) (available_balance r + amount)
                                        (pending_balance r))
                    (find_balance u db) /\
       (find_balance u db = None -> balances (snd outcome) = balances db) /\
       (forall v, v <> u -> find_balance v (snd outcome) = find_balance v db) /\
       transactions (snd outcome)
       = transactions db
         ++ [mkTransaction u TDeposit amount TxCompleted "Manual deposit" None]).
Proof.
  intros u amount db outcome. unfold outcome, App.deposit. split.
  - intros H. apply Qle_bool_iff in H. rewrite H. reflexivity.
  - intros H. apply Qle_bool_false_iff in H. rewrite H. simpl fst. simpl snd.
    split; [reflexivity|].
    split.
    { change (find_balance u (insert_transaction ?t ?d)) with (find_balance u d).
      apply find_balance_update_same. reflexivity. }
    split.
    { intros Hn. change (balances (insert_transaction ?t ?d)) with (balances d).
      rewrite (update_balance_absent u _ db Hn). reflexivity. }
    split; [|reflexivity].
    intros v Hv.
    change (find_balance v (insert_transaction ?t ?d)) with (find_balance v d).
    apply find_balance_update_other; [reflexivity | exact Hv].
Qed.

(** A withdrawal succeeds exactly when the amount is positive and the
    user's row has at least that much available.  It then takes the amount
    from available, which stays non-negative, leaves pending alone and
    records a completed transaction; otherwise nothing is written.  Funds
    held in pending cannot be withdrawn. *)
Theorem withdraw_never_overdraws :
  forall (u : nat) (amount : Q) (db : DB),
    let outcome := App.withdraw u amount db in
    (fst outcome = Success "withdrawal_completed"
     <-> exists r, find_balance u db = Some r /\ 0 < amount
                   /\ amount <= available_balance r) /\
    (fst outcome <> Success "withdrawal_completed" -> snd outcome = db) /\
    (forall r, find_balance u db = Some r ->
       fst outcome = Success "withdrawal_completed" ->
       find_balance u (snd outcome)
       = Some (mkBalance (bal_user_id r) (available_balance r - amount)
                         (pending_balance r))
       /\ 0 <= available_balance r - amount).
Proof.
  intros u amount db outcome. unfold outcome, App.withdraw.
  destruct (Qle_bool amount 0) eqn:E0.
  - apply Qle_bool_iff in E0. simpl.
    split; [split; [discriminate | intros [r [_ [H _]]]; exfalso; lra]|].
    split; [reflexivity | discriminate].
  - apply Qle_bool_false_iff in E0.
    destruct (find_balance u db) as [r|] eqn:Er.
    + destruct (Qlt_bool (available_balance r) amount) eqn:E1.
      * apply Qlt_bool_iff in E1. simpl.
        split; [split; [discriminate|]|split; [reflexivity | discriminate]].
        intros [r' [Hr' [_ H]]]. inversion Hr'; subst. exfalso. lra.
      * apply Qlt_bool_false_iff in E1. simpl fst. simpl snd.
        split; [split; [intros _; exists r; auto | reflexivity]|].
        split; [congruence|].
        intros r' Hr' _. inversion Hr'; subst r'.
        split; [|lra].
        change (find_balance u (insert_transaction ?t ?d)) with (find_balance u d).
        rewrite find_balance_update_same by reflexivity. rewrite Er. reflexivity.
    + simpl.
      split; [split; [discriminate | intros [r [H _]]; discriminate]|].
      split; [reflexivity | discriminate].
Qed.

(** The row of a user after a deposit of a positive amount. *)
Lemma deposit_credits_row (u : nat) (amount : Q) (db : DB) (r : Balance) :
  find_balance u db = Some r ->
  0 < amount ->
  fst (App.deposit u amount db) = Success "deposited" /\
  find_balance u (snd (App.deposit u amount db))
  = Some (mkBalance (bal_user_id r) (available_balance r + amount) (pending_balance r)).
Proof.
  intros Hr Hpos. unfold App.deposit.
  replace (Qle_bool amount 0) with false
    by (symmetry; apply Qle_bool_false_iff; exact Hpos).
  simpl fst. simpl snd. split; [reflexivity|].
  change (find_balance u (insert_transaction ?t ?d)) with (find_balance u d).
  rewrite find_balance_update_same by reflexivity. rewrite Hr. reflexivity.
Qed.

(** Money put in can be taken out again: after a deposit of a positive
    amount into a row whose available balance is not negative, the
    withdrawal of the same amount is accepted.  The row then holds what the
    two updates compute, the old available balance plus the amount minus
    the amount, and the old pending balance. *)
Theorem deposit_then_withdraw_succeeds :
  forall (u : nat) (amount : Q) (db : DB) (r : Balance),
    find_balance u db = Some r ->
    0 < amount ->
    0 <= available_balance r ->
    let back := App.withdraw u amount (snd (App.deposit u amount db)) in
    fst back = Success "withdrawal_completed" /\
    find_balance u (snd back)
    = Some (mkBalance (bal_user_id r) (available_balance r + amount - amount)
                      (pending_balance r)).
Proof.
  intros u amount db r Hr Hpos Hav back.
  destruct (deposit_credits_row u amount db r Hr Hpos) as [Hd Hfind].
  unfold back, App.withdraw.
  replace (Qle_bool amount 0) with false
    by (symmetry; apply Qle_bool_false_iff; exact Hpos).
  rewrite Hfind. simpl available_balance.
  replace (Qlt_bool (available_balance r + amount) amount) with false
    by (symmetry; apply Qlt_bool_false_iff; lra).
  simpl fst. simpl snd. split; [reflexivity|].
  change (find_balance u (insert_transaction ?t ?d)) with (find_balance u d).
  rewrite find_balance_update_same by reflexivity.
  rewrite Hfind. reflexivity.
Qed.

(** User 4 of [Samples.no_bids], with 1000 available, deposits 25 and
    withdraws 25. *)
Lemma deposit_then_withdraw_succeeds_witness :
  fst (App.withdraw 4 25 (snd (App.deposit 4 25 Samples.no_bids)))
  = Success "withdrawal_completed" /\
  find_balance 4 (snd (App.withdraw 4 25 (snd (App.deposit 4 25 Samples.no_bids))))
  = Some (mkBalance 4 (1000 + 25 - 25) 0).
Proof.
  apply (deposit_then_withdraw_succeeds 4 25 Samples.no_bids (mkBalance 4 1000 0)).
  - reflexivity.
  - reflexivity.
  - vm_compute. discriminate.
Defined.

(* ------------------------------------------------------------------ *)
(** *** Cancelling a bid through the endpoint *)

Lemma find_none_after_map {A} (p : A -> bool) (g : A -> A) (l : list A) :
  (forall x, p (g x) = false) -> find p (map g l) = None.
Proof.
  intros H. induction l as [|x l IH]; simpl; [reflexivity|].
  rewrite H. exact IH.
Qed.

(** The state that [cancel_bid] leaves when its query finds the bid. *)
Lemma cancel_bid_state (u id : nat) (db : DB) (bid : Bid) :
  App.own_active_bid_on_open_auction id u db = Some bid ->
  App.cancel_bid u id db
  = (Success "bid_cancelled",
     insert_transaction
       (mkTransaction u TBidRefund (bid_amount bid) TxCompleted "Bid cancelled"
                      (option_map au_artwork_id (find_auction (bid_auction_id bid) db)))
       (set_pending_bid_transactions TxCancelled u
          (option_map au_artwork_id (find_auction (bid_auction_id bid) db))
          (update_balance u
             (fun r => mkBalance (bal_user_id r) (available_balance r + bid_amount bid)
                                 (pending_balance r - bid_amount bid))
             (ensure_balance u (deactivate_bid id db))))).
Proof.
  intros H. unfold App.cancel_bid. rewrite H. cbv zeta.
  assert (Ha : forall d, auctions (update_balance u
                 (fun r => mkBalance (bal_user_id r) (available_balance r + bid_amount bid)
                                     (pending_balance r - bid_amount bid))
                 (ensure_balance u (deactivate_bid id d))) = auctions d).
  { intros d. unfold ensure_balance.
    destruct (find_balance u (deactivate_bid id d)); reflexivity. }
  rewrite (find_auction_ext _ _ _ (Ha db)). reflexivity.
Qed.

Lemma cancel_bid_balance (u id : nat) (db : DB) (bid : Bid) :
  App.own_active_bid_on_open_auction id u db = Some bid ->
  find_balance u (snd (App.cancel_bid u id db))
  = Some (mkBalance u (available_of u db + bid_amount bid)
                      (pending_of u db - bid_amount bid))
  /\ (forall v, v <> u ->
        find_balance v (snd (App.cancel_bid u id db)) = find_balance v db).
Proof.
  intros H. rewrite (cancel_bid_state u id db bid H). simpl snd.
  change (find_balance ?w (insert_transaction ?t (set_pending_bid_transactions ?s ?x ?a ?d)))
    with (find_balance w d).
  split.
  - rewrite find_balance_update_same by reflexivity.
    rewrite find_balance_ensure.
    change (find_balance u (deactivate_bid id db)) with (find_balance u db).
    unfold available_of, pending_of.
    destruct (find_balance u db) as [r|] eqn:E; simpl; [|reflexivity].
    rewrite (find_balance_id u db r E). reflexivity.
  - intros v Hv.
    change (find_balance ?w (insert_transaction ?t (set_pending_bid_transactions ?s ?x ?a ?d)))
      with (find_balance w d).
    rewrite find_balance_update_other by (try reflexivity; exact Hv).
    rewrite find_balance_ensure_other by exact Hv. reflexivity.
Qed.

Lemma cancel_bid_tables (u id : nat) (db : DB) (bid : Bid) :
  App.own_active_bid_on_open_auction id u db = Some bid ->
  bids (snd (App.cancel_bid u id db)) = bids (deactivate_bid id db) /\
  auctions (snd (App.cancel_bid u id db)) = auctions db /\
  artworks (snd (App.cancel_bid u id db)) = artworks db.
Proof.
  intros H. rewrite (cancel_bid_state u id db bid H). simpl snd.
  unfold ensure_balance. destruct (find_balance u (deactivate_bid id db));
    repeat split; reflexivity.
Qed.

(** No bid with the cancelled id is left for the query of [cancel_bid]. *)
Lemma cancel_bid_query_after (u id : nat) (db d : DB) :
  bids d = bids (deactivate_bid id db) ->
  App.own_active_bid_on_open_auction id u d = None.
Proof.
  intros Hb. unfold App.own_active_bid_on_open_auction. rewrite Hb.
  unfold deactivate_bid. simpl bids. apply find_none_after_map.
  intros b. destruct (Nat.eqb (bid_id b) id) eqn:E.
  - simpl. rewrite E. simpl. rewrite andb_false_r. reflexivity.
  - rewrite E. reflexivity.
Qed.

(** Cancelling one's active bid on an open auction switches off the rows
    with that bid id, every other bid row staying as it is, and gives the
    amount back: that much more available and that much less pending
    (without a floor at zero).  No other user's balance, no auction and no
    artwork changes. *)
Theorem cancel_bid_releases_the_hold :
  forall (u id : nat) (db : DB) (bid : Bid),
    App.own_active_bid_on_open_auction id u db = Some bid ->
    let outcome := App.cancel_bid u id db in
    fst outcome = Success "bid_cancelled" /\
    available_of u (snd outcome) == available_of u db + bid_amount bid /\
    pending_of u (snd outcome) == pending_of u db - bid_amount bid /\
    (forall v, v <> u -> find_balance v (snd outcome) = find_balance v db) /\
    bids (snd outcome)
    = map (fun b => if Nat.eqb (bid_id b) id
                    then mkBid (bid_id b) (bid_auction_id b) (bid_bidder_id b)
                               (bid_amount b) false
                    else b) (bids db) /\
    auctions (snd outcome) = auctions db /\
    artworks (snd outcome) = artworks db.
Proof.
  intros u id db bid H outcome.
  destruct (cancel_bid_balance u id db bid H) as [Hu Hother].
  destruct (cancel_bid_tables u id db bid H) as [Hb [Ha Hr]].
  fold outcome in Hu, Hother, Hb, Ha, Hr.
  split; [unfold outcome; rewrite (cancel_bid_state u id db bid H); reflexivity|].
  unfold available_of at 1, pending_of at 1. rewrite Hu. simpl.
  split; [reflexivity|]. split; [reflexivity|].
  split; [exact Hother|]. split; [exact Hb|]. split; assumption.
Qed.

(** User 2 of [Samples.two_bidders] (500 available, 150 pending) cancels
    the bid of 150: 650 available, nothing pending, bid 1 inactive, bid 2
    and user 3 as they were. *)
Lemma cancel_bid_releases_the_hold_witness :
  fst (App.cancel_bid 2 1 (Samples.two_bidders None)) = Success "bid_cancelled" /\
  available_of 2 (snd (App.cancel_bid 2 1 (Samples.two_bidders None))) == 650 /\
  pending_of 2 (snd (App.cancel_bid 2 1 (Samples.two_bidders None))) == 0 /\
  find_balance 3 (snd (App.cancel_bid 2 1 (Samples.two_bidders None)))
  = Some (mkBalance 3 800 200) /\
  bids (snd (App.cancel_bid 2 1 (Samples.two_bidders None)))
  = [mkBid 1 100 2 150 false; mkBid 2 100 3 200 true].
Proof.
  destruct (cancel_bid_releases_the_hold 2 1 (Samples.two_bidders None)
              (mkBid 1 100 2 150 true) eq_refl)
    as [Hs [Ha [Hp [Ho [Hb _]]]]].
  split; [exact Hs|].
  split; [rewrite Ha; vm_compute; reflexivity|].
  split; [rewrite Hp; vm_compute; reflexivity|].
  split; [rewrite (Ho 3%nat); [reflexivity | discriminate]|].
  rewrite Hb. reflexivity.
Defined.

(** A bid cannot be cancelled twice through the endpoint: whatever the first
    call did, a second call with the same arguments answers 404 and writes
    nothing. *)
Theorem cancel_bid_again_is_refused :
  forall (u id : nat) (db : DB),
    App.cancel_bid u id (snd (App.cancel_bid u id db))
    = (Failure 404 "Bid not found", snd (App.cancel_bid u id db)).
Proof.
  intros u id db.
  destruct (App.own_active_bid_on_open_auction id u db) as [bid|] eqn:E.
  - destruct (cancel_bid_tables u id db bid E) as [Hb _].
    unfold App.cancel_bid at 1.
    rewrite (cancel_bid_query_after u id db _ Hb). reflexivity.
  - assert (H : App.cancel_bid u id db = (Failure 404 "Bid not found", db))
      by (unfold App.cancel_bid; rewrite E; reflexivity).
    rewrite H. simpl snd. exact H.
Qed.

(* ------------------------------------------------------------------ *)
(** *** The effect of a first bid, and taking it back *)

Lemma map_if_find_none {A} (p : A -> bool) (f : A -> A) (l : list A) :
  find p l = None -> map (fun x => if p x then f x else x) l = l.
Proof.
  induction l as [|x l IH]; simpl; [reflexivity|].
  destruct (p x); [discriminate|]. intros H. rewrite IH by exact H. reflexivity.
Qed.

Lemma deactivate_bids_of_none (auction_id u : nat) (db : DB) :
  find_active_by_bidder auction_id u db = None ->
  deactivate_bids_of auction_id u db = db.
Proof.
  intros H. unfold deactivate_bids_of.
  rewrite (map_if_find_none
             (fun b => active_in auction_id b && Nat.eqb (bid_bidder_id b) u)
             inactive (bids db) H).
  destruct db; reflexivity.
Qed.

(** The state that an accepted first bid leaves. *)
Lemma first_bid_state
    (u artwork_id : nat) (v : Q) (now : Z) (db : DB) (auction : Auction) :
  find (fun au => Nat.eqb (au_artwork_id au) artwork_id
                  && status_eqb (au_status au) StOpen) (auctions db) = Some auction ->
  (now < au_end_time auction)%Z ->
  sql_eq_id (au_seller_id auction) (Some u) = false ->
  find_active_by_bidder (au_id auction) u db = None ->
  v <= available_of u db ->
  min_bid_of auction db < v ->
  App.place_bid_on_artwork u artwork_id (Some v) now db
  = (Success "bid_placed",
     insert_transaction
       (mkTransaction u TBid v TxPending "Bid placed" (Some artwork_id))
       (insert_bid (au_id auction) u v
          (update_balance u
             (fun r => mkBalance (bal_user_id r) (available_balance r - v)
                                 (pending_balance r + v))
             (ensure_balance u db)))).
Proof.
  intros Hsel Hnow Hseller Hnone Hfunds Hmin.
  unfold App.place_bid_on_artwork.
  rewrite Hsel.
  replace (au_end_time auction <=? now)%Z with false
    by (symmetry; apply Z.leb_gt; exact Hnow).
  rewrite Hseller. cbv zeta. rewrite Hnone.
  replace (Qlt_bool (available_of u db) v) with false
    by (symmetry; apply Qlt_bool_false_iff; exact Hfunds).
  replace (Qle_bool v (min_bid_of auction db)) with false
    by (symmetry; apply Qle_bool_false_iff; exact Hmin).
  rewrite (deactivate_bids_of_none _ _ _ Hnone). reflexivity.
Qed.

Lemma ensure_balance_tables (u : nat) (db : DB) :
  bids (ensure_balance u db) = bids db /\
  auctions (ensure_balance u db) = auctions db /\
  transactions (ensure_balance u db) = transactions db /\
  artworks (ensure_balance u db) = artworks db.
Proof.
  unfold ensure_balance. destruct (find_balance u db); repeat split; reflexivity.
Qed.

(** An accepted first bid (no active bid of the bidder on the auction, funds
    cover the amount, amount above [min_bid]) appends one active bid row
    with the amount under a fresh id, moves the whole amount from available
    to pending, and records a pending [bid] transaction.  It is then the
    bidder's active bid on the auction; no other bid row, balance, auction
    or artwork changes. *)
Theorem first_bid_adds_one_active_bid_and_holds_the_amount :
  forall (u artwork_id : nat) (v : Q) (now : Z) (db : DB) (auction : Auction),
    find (fun au => Nat.eqb (au_artwork_id au) artwork_id
                    && status_eqb (au_status au) StOpen) (auctions db) = Some auction ->
    (now < au_end_time auction)%Z ->
    sql_eq_id (au_seller_id auction) (Some u) = false ->
    find_active_by_bidder (au_id auction) u db = None ->
    v <= available_of u db ->
    min_bid_of auction db < v ->
    let outcome := App.place_bid_on_artwork u artwork_id (Some v) now db in
    let new_bid := mkBid (S (list_max (map bid_id (bids db)))) (au_id auction) u v true in
    fst outcome = Success "bid_placed" /\
    bids (snd outcome) = bids db ++ [new_bid] /\
    find_active_by_bidder (au_id auction) u (snd outcome) = Some new_bid /\
    available_of u (snd outcome) == available_of u db - v /\
    pending_of u (snd outcome) == pending_of u db + v /\
    (forall w, w <> u -> find_balance w (snd outcome) = find_balance w db) /\
    transactions (snd outcome)
    = transactions db ++ [mkTransaction u TBid v TxPending "Bid placed" (Some artwork_id)] /\
    auctions (snd outcome) = auctions db /\
    artworks (snd outcome) = artworks db.
Proof.
  intros u artwork_id v now db auction Hsel Hnow Hseller Hnone Hfunds Hmin outcome new_bid.
  unfold outcome.
  rewrite (first_bid_state u artwork_id v now db auction Hsel Hnow Hseller Hnone Hfunds Hmin).
  simpl fst. simpl snd.
  destruct (ensure_balance_tables u db) as [Hb [Ha [Ht Hr]]].
  split; [reflexivity|].
  assert (Hbids : bids (insert_transaction
                          (mkTransaction u TBid v TxPending "Bid placed" (Some artwork_id))
                          (insert_bid (au_id auction) u v
                             (update_balance u
                                (fun r => mkBalance (bal_user_id r) (available_balance r - v)
                                                    (pending_balance r + v))
                                (ensure_balance u db))))
                  = bids db ++ [new_bid]).
  { simpl. rewrite Hb. reflexivity. }
  split; [exact Hbids|].
  split.
  { unfold find_active_by_bidder. rewrite Hbids, find_snoc.
    unfold find_active_by_bidder in Hnone. rewrite Hnone.
    unfold new_bid, active_in. simpl. rewrite !Nat.eqb_refl. reflexivity. }
  assert (Hfind : forall w,
            find_balance w (insert_transaction
                              (mkTransaction u TBid v TxPending "Bid placed" (Some artwork_id))
                              (insert_bid (au_id auction) u v
                                 (update_balance u
                                    (fun r => mkBalance (bal_user_id r)
                                                (available_balance r - v)
                                                (pending_balance r + v))
                                    (ensure_balance u db))))
            = find_balance w (update_balance u
                                (fun r => mkBalance (bal_user_id r)
                                            (available_balance r - v)
                                            (pending_balance r + v))
                                (ensure_balance u db))) by reflexivity.
  split; [|split].
  - unfold available_of. rewrite Hfind.
    rewrite find_balance_update_same by reflexivity.
    rewrite find_balance_ensure. destruct (find_balance u db); simpl; reflexivity.
  - unfold pending_of. rewrite Hfind.
    rewrite find_balance_update_same by reflexivity.
    rewrite find_balance_ensure. destruct (find_balance u db); simpl; reflexivity.
  - split.
    { intros w Hw. rewrite Hfind.
      rewrite find_balance_update_other by (try reflexivity; exact Hw).
      apply find_balance_ensure_other. exact Hw. }
    simpl. rewrite Ht, Ha, Hr. repeat split; reflexivity.
Qed.

Lemma first_bid_adds_one_active_bid_and_holds_the_amount_witness :
  let outcome := App.place_bid_on_artwork 4 10 (Some 101) 40 Samples.no_bids in
  let new_bid := mkBid 1 100 4 101 true in
  fst outcome = Success "bid_placed" /\
  bids (snd outcome) = bids Samples.no_bids ++ [new_bid] /\
  find_active_by_bidder 100 4 (snd outcome) = Some new_bid /\
  available_of 4 (snd outcome) == available_of 4 Samples.no_bids - 101 /\
  pending_of 4 (snd outcome) == pending_of 4 Samples.no_bids + 101 /\
  (forall w, w <> 4%nat -> find_balance w (snd outcome) = find_balance w Samples.no_bids) /\
  transactions (snd outcome)
  = transactions Samples.no_bids
    ++ [mkTransaction 4 TBid 101 TxPending "Bid placed" (Some 10%nat)] /\
  auctions (snd outcome) = auctions Samples.no_bids /\
  artworks (snd outcome) = artworks Samples.no_bids.
Proof.
  apply (first_bid_adds_one_active_bid_and_holds_the_amount 4 10 101 40 Samples.no_bids
           (mkAuction 100 10 (Some 1%nat) 100 None 50 StOpen None)).
  - reflexivity.
  - reflexivity.
  - reflexivity.
  - reflexivity.
  - vm_compute. discriminate.
  - reflexivity.
Defined.

Lemma find_none_if {A} (p : A -> bool) (l : list A) :
  (forall x, In x l -> p x = false) -> find p l = None.
Proof.
  induction l as [|x l IH]; intros H; simpl; [reflexivity|].
  rewrite (H x (or_introl eq_refl)). apply IH. intros y Hy. apply H. right. exact Hy.
Qed.

Lemma bid_id_below_next (l : list Bid) (b : Bid) :
  In b l -> Nat.eqb (bid_id b) (S (list_max (map bid_id l))) = false.
Proof.
  intros H. apply Nat.eqb_neq.
  assert (Hle : (bid_id b <= list_max (map bid_id l))%nat).
  { pose proof (proj1 (list_max_le (map bid_id l) (list_max (map bid_id l)))
                      (Nat.le_refl _)) as Hall.
    rewrite Forall_forall in Hall. apply Hall. apply in_map. exact H. }
  lia.
Qed.

(** A first bid taken back: when the bidder cancels the bid that was just
    accepted, the cancellation succeeds, the active bids on the auction and
    everybody else's balance are what they were before the bid, and the
    bidder's balances are what the two updates compute: available minus
    the amount plus the amount, pending plus the amount minus the amount. *)
Theorem first_bid_then_cancel_gives_the_hold_back :
  forall (u artwork_id : nat) (v : Q) (now : Z) (db : DB) (auction : Auction),
    find (fun au => Nat.eqb (au_artwork_id au) artwork_id
                    && status_eqb (au_status au) StOpen) (auctions db) = Some auction ->
    (now < au_end_time auction)%Z ->
    sql_eq_id (au_seller_id auction) (Some u) = false ->
    find_active_by_bidder (au_id auction) u db = None ->
    v <= available_of u db ->
    min_bid_of auction db < v ->
    let placed := App.place_bid_on_artwork u artwork_id (Some v) now db in
    let cancelled := App.cancel_bid u (S (list_max (map bid_id (bids db)))) (snd placed) in
    fst placed = Success "bid_placed" /\
    fst cancelled = Success "bid_cancelled" /\
    available_of u (snd cancelled) == available_of u db - v + v /\
    pending_of u (snd cancelled) == pending_of u db + v - v /\
    (forall w, w <> u -> find_balance w (snd cancelled) = find_balance w db) /\
    active_bids (au_id auction) (snd cancelled) = active_bids (au_id auction) db.
Proof.
  intros u artwork_id v now db auction Hsel Hnow Hseller Hnone Hfunds Hmin placed cancelled.
  set (new_id := S (list_max (map bid_id (bids db)))) in *.
  set (new_bid := mkBid new_id (au_id auction) u v true).
  pose proof (first_bid_state u artwork_id v now db auction
                Hsel Hnow Hseller Hnone Hfunds Hmin) as Hst.
  fold placed in Hst.
  destruct (ensure_balance_tables u db) as [Hb [Ha _]].
  assert (Hbids : bids (snd placed) = bids db ++ [new_bid]).
  { rewrite Hst. simpl. rewrite Hb. reflexivity. }
  assert (Hau : auctions (snd placed) = auctions db).
  { rewrite Hst. simpl. exact Ha. }
  assert (Hq : App.own_active_bid_on_open_auction new_id u (snd placed) = Some new_bid).
  { unfold App.own_active_bid_on_open_auction. rewrite Hbids, Hau, find_snoc.
    rewrite find_none_if.
    - unfold new_bid. simpl. rewrite !Nat.eqb_refl. simpl.
      replace (existsb _ (auctions db)) with true; [reflexivity|].
      symmetry. apply existsb_exists. exists auction.
      apply find_some in Hsel. destruct Hsel as [Hin Hp].
      apply andb_true_iff in Hp. destruct Hp as [_ Hopen].
      split; [exact Hin|]. rewrite Nat.eqb_refl, Hopen. reflexivity.
    - intros b Hbin. unfold new_id. rewrite (bid_id_below_next _ _ Hbin). reflexivity. }
  destruct (cancel_bid_balance u new_id (snd placed) new_bid Hq) as [Hu Hother].
  destruct (cancel_bid_tables u new_id (snd placed) new_bid Hq) as [Hcb _].
  fold cancelled in Hu, Hother, Hcb.
  assert (Hpu : find_balance u (snd placed)
                = Some (mkBalance u (available_of u db - v) (pending_of u db + v))).
  { rewrite Hst. simpl snd.
    change (find_balance u (insert_transaction ?t (insert_bid ?a ?b ?c ?d)))
      with (find_balance u d).
    rewrite find_balance_update_same by reflexivity.
    rewrite find_balance_ensure. unfold available_of, pending_of.
    destruct (find_balance u db) as [r|] eqn:E; simpl; [|reflexivity].
    rewrite (find_balance_id u db r E). reflexivity. }
  split; [rewrite Hst; reflexivity|].
  split; [unfold cancelled; rewrite (cancel_bid_state u new_id _ new_bid Hq); reflexivity|].
  split; [|split].
  - unfold available_of at 1. rewrite Hu. unfold available_of at 1. rewrite Hpu.
    simpl. reflexivity.
  - unfold pending_of at 1. rewrite Hu. unfold pending_of at 1. rewrite Hpu.
    simpl. reflexivity.
  - split.
    + intros w Hw. rewrite (Hother w Hw). rewrite Hst. simpl snd.
      change (find_balance w (insert_transaction ?t (insert_bid ?a ?b ?c ?d)))
        with (find_balance w d).
      rewrite find_balance_update_other by (try reflexivity; exact Hw).
      apply find_balance_ensure_other. exact Hw.
    + unfold active_bids. rewrite Hcb. unfold deactivate_bid. simpl bids.
      rewrite Hbids, map_app, filter_app. simpl.
      rewrite Nat.eqb_refl.
      replace (active_in (au_id auction) (inactive new_bid)) with false
        by (unfold active_in; simpl; rewrite andb_false_r; reflexivity).
      rewrite app_nil_r. f_equal.
      rewrite <- (map_id (bids db)) at 2. apply map_ext_in.
      intros b Hbin. unfold new_id. rewrite (bid_id_below_next _ _ Hbin). reflexivity.
Qed.

(** User 4 of [Samples.no_bids] (1000 available) bids 101 on auction 100
    and cancels: the bid row stays, inactive, and the balances are
    1000 - 101 + 101 and 0 + 101 - 101. *)
Lemma first_bid_then_cancel_gives_the_hold_back_witness :
  fst (App.place_bid_on_artwork 4 10 (Some 101) 40 Samples.no_bids)
  = Success "bid_placed" /\
  fst (App.cancel_bid 4 1
         (snd (App.place_bid_on_artwork 4 10 (Some 101) 40 Samples.no_bids)))
  = Success "bid_cancelled" /\
  available_of 4
    (snd (App.cancel_bid 4 1
            (snd (App.place_bid_on_artwork 4 10 (Some 101) 40 Samples.no_bids))))
  == 1000 - 101 + 101 /\
  pending_of 4
    (snd (App.cancel_bid 4 1
            (snd (App.place_bid_on_artwork 4 10 (Some 101) 40 Samples.no_bids))))
  == 0 + 101 - 101 /\
  active_bids 100
    (snd (App.cancel_bid 4 1
            (snd (App.place_bid_on_artwork 4 10 (Some 101) 40 Samples.no_bids))))
  = [].
Proof.
  destruct (first_bid_then_cancel_gives_the_hold_back 4 10 101 40 Samples.no_bids
              (mkAuction 100 10 (Some 1%nat) 100 None 50 StOpen None))
    as [Hp [Hc [Ha [Hpe [_ Hact]]]]].
  - reflexivity.
  - reflexivity.
  - reflexivity.
  - reflexivity.
  - vm_compute. discriminate.
  - reflexivity.
  - split; [exact Hp|]. split; [exact Hc|].
    split; [exact Ha|]. split; [exact Hpe|]. exact Hact.
Defined.

(* ------------------------------------------------------------------ *)
(** *** Changing the amount of a bid through [PUT /api/bids/<bid_id>] *)

(** [update_bid] follows the amount in both directions.  For one's active
    bid on an open auction it accepts every positive new amount that is not
    above the old one, and a higher one when the available balance covers
    the difference; the highest bid of the auction and its end time play no
    part.  An accepted change rewrites the amount of the bid and moves the
    difference between available and pending, towards pending for an
    increase and back to available for a decrease, and records one
    transaction for the absolute difference; a refused one writes
    nothing. *)
Theorem update_bid_moves_the_difference_up_or_down :
  forall (u id : nat) (new_amount : Q) (db : DB) (bid : Bid),
    App.own_active_bid_with_status id u db = Some (bid, StOpen) ->
    let outcome := App.update_bid u id (Some new_amount) db in
    let difference := new_amount - bid_amount bid in
    (fst outcome = Success "bid_updated"
     <-> 0 < new_amount
         /\ (new_amount <= bid_amount bid \/ difference <= available_of u db)) /\
    (fst outcome = Success "bid_updated" ->
       available_of u (snd outcome) == available_of u db - difference /\
       pending_of u (snd outcome) == pending_of u db + difference /\
       (forall w, w <> u -> find_balance w (snd outcome) = find_balance w db) /\
       bids (snd outcome)
       = map (fun b => if Nat.eqb (bid_id b) id
                       then mkBid (bid_id b) (bid_auction_id b) (bid_bidder_id b)
                                  new_amount (bid_is_active b)
                       else b) (bids db) /\
       exists t, transactions (snd outcome) = transactions db ++ [t]
                 /\ tx_amount t = Qabs difference
                 /\ tx_type t = (if Qlt_bool 0 difference then TBidIncrease
                                 else TBidDecrease)) /\
    (fst outcome <> Success "bid_updated" -> snd outcome = db).
Proof.
  intros u id new_amount db bid H outcome difference.
  unfold outcome, App.update_bid. rewrite H. simpl negb. cbv iota. cbv zeta.
  fold difference.
  destruct (Qle_bool new_amount 0) eqn:E0.
  { apply Qle_bool_iff in E0. simpl.
    split; [split; [discriminate | intros [Hp _]; exfalso; lra]|].
    split; [discriminate | reflexivity]. }
  apply Qle_bool_false_iff in E0.
  destruct (Qlt_bool 0 difference && Qlt_bool (available_of u db) difference) eqn:E1.
  { apply andb_true_iff in E1. destruct E1 as [Ha Hb].
    apply Qlt_bool_iff in Ha. apply Qlt_bool_iff in Hb. simpl.
    split; [split; [discriminate|]|split; [discriminate | reflexivity]].
    intros [_ [Hle | Hle]]; exfalso; unfold difference in *; lra. }
  simpl fst. simpl snd.
  split.
  { split; [intros _ | reflexivity]. split; [exact E0|].
    apply andb_false_iff in E1. destruct E1 as [E1 | E1];
      apply Qlt_bool_false_iff in E1; [left; unfold difference in E1; lra | right; exact E1]. }
  split; [|congruence].
  intros _.
  destruct (ensure_balance_tables u db) as [Hb [_ [Ht _]]].
  assert (Hfind : forall w d t i a,
            find_balance w (insert_transaction t (set_bid_amount i a d))
            = find_balance w d) by reflexivity.
  split; [|split; [|split; [|split]]].
  - unfold available_of at 1. rewrite Hfind.
    rewrite find_balance_update_same by reflexivity.
    rewrite find_balance_ensure. simpl. reflexivity.
  - unfold pending_of at 1. rewrite Hfind.
    rewrite find_balance_update_same by reflexivity.
    rewrite find_balance_ensure. simpl. reflexivity.
  - intros w Hw. rewrite Hfind.
    rewrite find_balance_update_other by (try reflexivity; exact Hw).
    apply find_balance_ensure_other. exact Hw.
  - simpl. rewrite Hb. reflexivity.
  - eexists. split; [simpl; rewrite Ht; reflexivity|]. split; reflexivity.
Qed.

(** User 2 of [Samples.two_bidders] (500 available, 150 pending) lowers
    the bid of 150 to 120: accepted, 530 available, 120 pending, bid 1 at
    120, and one completed [bid_decrease] transaction of 30. *)
Lemma update_bid_moves_the_difference_up_or_down_witness :
  fst (App.update_bid 2 1 (Some 120) (Samples.two_bidders None)) = Success "bid_updated" /\
  available_of 2 (snd (App.update_bid 2 1 (Some 120) (Samples.two_bidders None))) == 530 /\
  pending_of 2 (snd (App.update_bid 2 1 (Some 120) (Samples.two_bidders None))) == 120 /\
  bids (snd (App.update_bid 2 1 (Some 120) (Samples.two_bidders None)))
  = [mkBid 1 100 2 120 true; mkBid 2 100 3 200 true] /\
  exists t,
    transactions (snd (App.update_bid 2 1 (Some 120) (Samples.two_bidders None)))
    = transactions (Samples.two_bidders None) ++ [t]
    /\ tx_amount t = Qabs (120 - 150) /\ tx_type t = TBidDecrease.
Proof.
  destruct (update_bid_moves_the_difference_up_or_down
              2 1 120 (Samples.two_bidders None) (mkBid 1 100 2 150 true) eq_refl)
    as [Hiff [Heff _]].
  assert (Hs : fst (App.update_bid 2 1 (Some 120) (Samples.two_bidders None))
               = Success "bid_updated").
  { apply Hiff. split; [reflexivity|]. left. vm_compute. discriminate. }
  destruct (Heff Hs) as [Ha [Hp [_ [Hb Ht]]]].
  split; [exact Hs|].
  split; [rewrite Ha; vm_compute; reflexivity|].
  split; [rewrite Hp; vm_compute; reflexivity|].
  split; [rewrite Hb; reflexivity|].
  exact Ht.
Defined.

(* ------------------------------------------------------------------ *)
(** *** The bid service *)

(** The state that [BidService.cancel_bid] leaves, and what it finds there
    on a second call. *)
Lemma service_cancel_bid_state
    (id u : nat) (db : DB) (bid : Bid) (auction : Auction) (r : Balance) :
  find (fun b => Nat.eqb (bid_id b) id) (bids db) = Some bid ->
  bid_bidder_id bid = u ->
  find_auction (bid_auction_id bid) db = Some auction ->
  au_status auction = StOpen ->
  find_balance u db = Some r ->
  exists db',
    BidService.cancel_bid id u db = Ok db' /\
    find_balance u db'
    = Some (mkBalance (bal_user_id r) (available_balance r + bid_amount bid)
                      (pending_balance r + - bid_amount bid)) /\
    find (fun b => Nat.eqb (bid_id b) id) (bids db') = Some (inactive bid) /\
    find_auction (bid_auction_id bid) db' = Some auction /\
    (forall w, w <> u -> find_balance w db' = find_balance w db).
Proof.
  intros Hbid Hu Hau Hopen Hr.
  eexists. split.
  { unfold BidService.cancel_bid.
    rewrite Hbid, Hu, Nat.eqb_refl, Hau, Hopen. simpl negb. cbv iota. cbv zeta.
    reflexivity. }
  assert (Hfind : forall w d t s x a i,
            find_balance w (insert_transaction t
                              (set_pending_bid_transactions s x a (deactivate_bid i d)))
            = find_balance w d) by reflexivity.
  split; [|split; [|split]].
  - rewrite Hfind. unfold BalanceRepository.update.
    rewrite find_balance_update_same by reflexivity. rewrite Hr. reflexivity.
  - simpl bids. rewrite find_map_stable.
    + rewrite Hbid. simpl.
      apply find_some in Hbid. destruct Hbid as [_ Hb]. rewrite Hb. reflexivity.
    + intros b. destruct (Nat.eqb (bid_id b) id) eqn:E; exact E.
  - exact Hau.
  - intros w Hw. rewrite Hfind. unfold BalanceRepository.update.
    apply find_balance_update_other; [reflexivity | exact Hw].
Qed.

(** [BidService.cancel_bid] looks the bid up by id alone and does not read
    [is_active]: for any bid of the user on an open auction, active or not,
    it succeeds, deactivates the bid and moves the amount from pending to
    available; called again on the result it succeeds again and moves the
    amount a second time. *)
Theorem service_cancel_bid_refunds_on_every_call :
  forall (id u : nat) (db : DB) (bid : Bid) (auction : Auction) (r : Balance),
    find (fun b => Nat.eqb (bid_id b) id) (bids db) = Some bid ->
    bid_bidder_id bid = u ->
    find_auction (bid_auction_id bid) db = Some auction ->
    au_status auction = StOpen ->
    find_balance u db = Some r ->
    exists db' db'',
      BidService.cancel_bid id u db = Ok db' /\
      BidService.cancel_bid id u db' = Ok db'' /\
      find (fun b => Nat.eqb (bid_id b) id) (bids db') = Some (inactive bid) /\
      available_of u db' == available_balance r + bid_amount bid /\
      pending_of u db' == pending_balance r - bid_amount bid /\
      available_of u db'' == available_balance r + bid_amount bid + bid_amount bid /\
      pending_of u db'' == pending_balance r - bid_amount bid - bid_amount bid.
Proof.
  intros id u db bid auction r Hbid Hu Hau Hopen Hr.
  destruct (service_cancel_bid_state id u db bid auction r Hbid Hu Hau Hopen Hr)
    as [db' [H1 [Hr' [Hbid' [Hau' _]]]]].
  destruct (service_cancel_bid_state id u db' (inactive bid) auction _
              Hbid' Hu Hau' Hopen Hr')
    as [db'' [H2 [Hr'' _]]].
  exists db', db''.
  split; [exact H1|]. split; [exact H2|]. split; [exact Hbid'|].
  unfold available_of, pending_of. rewrite Hr', Hr''. simpl.
  repeat split; ring.
Qed.

Lemma service_cancel_bid_refunds_on_every_call_witness :
  exists db' db'',
    BidService.cancel_bid 1 3 Samples.closed_unsold_reopened = Ok db' /\
    BidService.cancel_bid 1 3 db' = Ok db'' /\
    find (fun b => Nat.eqb (bid_id b) 1) (bids db') = Some (inactive (mkBid 1 100 3 200 false)) /\
    available_of 3 db' == 1000 + 200 /\
    pending_of 3 db' == 0 - 200 /\
    available_of 3 db'' == 1000 + 200 + 200 /\
    pending_of 3 db'' == 0 - 200 - 200.
Proof.
  apply (service_cancel_bid_refunds_on_every_call 1 3 Samples.closed_unsold_reopened
           (mkBid 1 100 3 200 false)
           (mkAuction 100 10 (Some 1%nat) 100 (Some 300) 50 StOpen None)
           (mkBalance 3 1000 0)); reflexivity.
Defined.

(** [BidService.place_bid] compares every bid with the highest bid of the
    auction, a raise included: an amount that does not exceed the highest
    active bid is refused whether or not the bidder already has a bid. *)
Theorem service_place_bid_must_exceed_the_highest_bid :
  forall (auction_id bidder : nat) (amount : Q) (db : DB)
         (auction : Auction) (artwork : Artwork) (highest : Q),
    find_auction auction_id db = Some auction ->
    au_status auction = StOpen ->
    find_artwork (au_artwork_id auction) db = Some artwork ->
    ar_owner_id artwork <> bidder ->
    current_bid (au_id auction) db = Some highest ->
    ~ highest == 0 ->
    amount <= highest ->
    BidService.place_bid auction_id bidder amount db
    = Raise (ValidationError "Bid must exceed current price").
Proof.
  intros auction_id bidder amount db auction artwork highest
         Hau Hopen Har Howner Hcur Hnz Hle.
  unfold BidService.place_bid. rewrite Hau, Hopen, Har. simpl negb. cbv iota.
  replace (Nat.eqb (ar_owner_id artwork) bidder) with false
    by (symmetry; apply Nat.eqb_neq; exact Howner).
  cbv zeta. unfold min_bid_of. rewrite Hcur.
  replace (truthy_amount (Some highest)) with true.
  - replace (Qle_bool amount highest) with true; [reflexivity|].
    symmetry. apply Qle_bool_iff. exact Hle.
  - simpl. destruct (Qeq_bool highest 0) eqn:E; [|reflexivity].
    apply Qeq_bool_iff in E. contradiction.
Qed.

Lemma service_place_bid_must_exceed_the_highest_bid_witness :
  BidService.place_bid 100 2 180 (Samples.two_bidders None)
  = Raise (ValidationError "Bid must exceed current price").
Proof.
  apply (service_place_bid_must_exceed_the_highest_bid 100 2 180 (Samples.two_bidders None)
           (mkAuction 100 10 (Some 1%nat) 100 None 50 StOpen None)
           (mkArtwork 10 1 true (Some LAuction)) 200).
  - reflexivity.
  - reflexivity.
  - reflexivity.
  - simpl. lia.
  - reflexivity.
  - intros H. vm_compute in H. discriminate H.
  - vm_compute. discriminate.
Defined.

(* ------------------------------------------------------------------ *)
(** *** Cancelling an auction that has bidders *)

Lemma refund_active_bids_unfold (auction_id : nat) (db : DB) :
  App.refund_active_bids auction_id db
  = deactivate_bids auction_id
      (fold_left (cancel_refund_step (App.artwork_id_of_auction auction_id db))
                 (group_by_bidder (active_bids auction_id db)) db).
Proof. reflexivity. Qed.

Lemma cancel_step_tables (artwork_id : option nat) (db : DB) (g : BidderGroup) :
  bids (cancel_refund_step artwork_id db g) = bids db /\
  auctions (cancel_refund_step artwork_id db g) = auctions db /\
  artworks (cancel_refund_step artwork_id db g) = artworks db.
Proof.
  unfold cancel_refund_step. cbv zeta. unfold ensure_balance.
  destruct (find_balance (g_bidder_id g) db); repeat split; reflexivity.
Qed.

Lemma cancel_step_balance_other (artwork_id : option nat) (db : DB) (g : BidderGroup) v :
  v <> g_bidder_id g ->
  find_balance v (cancel_refund_step artwork_id db g) = find_balance v db.
Proof.
  intros Hne. unfold cancel_refund_step. cbv zeta.
  change (find_balance v (insert_transaction ?t (set_pending_bid_transactions ?s ?x ?a ?d)))
    with (find_balance v d).
  rewrite find_balance_update_other by (try reflexivity; exact Hne).
  apply find_balance_ensure_other. exact Hne.
Qed.

Lemma max0_case (t p : Q) :
  (if Qlt_bool t p then p - t else 0) == max0 (p - t).
Proof.
  unfold max0. destruct (Qlt_bool t p) eqn:E.
  - apply Qlt_bool_iff in E.
    replace (Qlt_bool 0 (p - t)) with true; [reflexivity|].
    symmetry. apply Qlt_bool_iff. lra.
  - apply Qlt_bool_false_iff in E.
    replace (Qlt_bool 0 (p - t)) with false; [reflexivity|].
    symmetry. apply Qlt_bool_false_iff. lra.
Qed.

Lemma cancel_step_balance_same (artwork_id : option nat) (db : DB) (g : BidderGroup) :
  available_of (g_bidder_id g) (cancel_refund_step artwork_id db g)
    == available_of (g_bidder_id g) db + total_amount g /\
  pending_of (g_bidder_id g) (cancel_refund_step artwork_id db g)
    == max0 (pending_of (g_bidder_id g) db - total_amount g).
Proof.
  unfold available_of, pending_of, cancel_refund_step. cbv zeta.
  change (find_balance ?v (insert_transaction ?t (set_pending_bid_transactions ?s ?x ?a ?d)))
    with (find_balance v d).
  rewrite find_balance_update_same by reflexivity.
  rewrite find_balance_ensure. simpl.
  destruct (find_balance (g_bidder_id g) db); simpl;
    (split; [reflexivity | apply max0_case]).
Qed.

Lemma cancel_loop_tables (artwork_id : option nat) (gs : list BidderGroup) (db : DB) :
  bids (fold_left (cancel_refund_step artwork_id) gs db) = bids db /\
  auctions (fold_left (cancel_refund_step artwork_id) gs db) = auctions db /\
  artworks (fold_left (cancel_refund_step artwork_id) gs db) = artworks db.
Proof.
  revert db. induction gs as [|g gs IH]; intros db; [repeat split; reflexivity|].
  simpl. destruct (IH (cancel_refund_step artwork_id db g)) as [H1 [H2 H3]].
  destruct (cancel_step_tables artwork_id db g) as [E1 [E2 E3]].
  rewrite H1, H2, H3, E1, E2, E3. repeat split; reflexivity.
Qed.

Lemma cancel_loop_balance_other (artwork_id : option nat) (gs : list BidderGroup)
    (db : DB) (u : nat) :
  ~ In u (map g_bidder_id gs) ->
  find_balance u (fold_left (cancel_refund_step artwork_id) gs db) = find_balance u db.
Proof.
  revert db. induction gs as [|g gs IH]; intros db Hnot; [reflexivity|].
  simpl. rewrite IH.
  - apply cancel_step_balance_other. intros ->. apply Hnot. left. reflexivity.
  - intros Hin. apply Hnot. right. exact Hin.
Qed.

Lemma cancel_loop_balance_in (artwork_id : option nat) (gs : list BidderGroup)
    (db : DB) (g : BidderGroup) :
  NoDup (map g_bidder_id gs) ->
  In g gs ->
  available_of (g_bidder_id g) (fold_left (cancel_refund_step artwork_id) gs db)
    == available_of (g_bidder_id g) db + total_amount g /\
  pending_of (g_bidder_id g) (fold_left (cancel_refund_step artwork_id) gs db)
    == max0 (pending_of (g_bidder_id g) db - total_amount g).
Proof.
  revert db. induction gs as [|g0 gs IH]; intros db Hnd Hin; [contradiction|].
  simpl in Hnd. inversion Hnd as [|? ? Hnotin Hnd']; subst. simpl fold_left.
  destruct Hin as [-> | Hin].
  - unfold available_of, pending_of.
    rewrite cancel_loop_balance_other by exact Hnotin.
    apply cancel_step_balance_same.
  - assert (Hne : g_bidder_id g <> g_bidder_id g0).
    { intros Heq. apply Hnotin. rewrite <- Heq. apply in_map. exact Hin. }
    destruct (IH (cancel_refund_step artwork_id db g0) Hnd' Hin) as [Ha Hp].
    unfold available_of, pending_of in *.
    rewrite cancel_step_balance_other in Ha, Hp by exact Hne.
    split; assumption.
Qed.

Lemma cancel_auction_outcome (auction_id : nat) (db : DB) (a : Auction) :
  find_auction auction_id db = Some a ->
  auction_cancelled_with_refunds auction_id db
    (App.cancel_auction auction_id StCancelled db).
Proof.
  intros Hrow.
  unfold App.cancel_auction. rewrite Hrow. rewrite refund_active_bids_unfold.
  set (art := App.artwork_id_of_auction auction_id db).
  set (gs := group_by_bidder (active_bids auction_id db)).
  set (d := fold_left (cancel_refund_step art) gs db).
  destruct (cancel_loop_tables art gs db) as [Hb [Ha Hr]]. fold d in Hb, Ha, Hr.
  assert (Hbids : bids (set_auction_status auction_id StCancelled
                          (deactivate_bids auction_id d))
                  = bids (deactivate_bids auction_id db)).
  { simpl. rewrite Hb. reflexivity. }
  assert (Hnd : NoDup (map g_bidder_id gs)).
  { unfold gs. rewrite group_by_bidder_ids. apply NoDup_nodup. }
  unfold auction_cancelled_with_refunds.
  split.
  { unfold status_of. rewrite find_auction_set_status.
    change (find_auction auction_id (deactivate_bids auction_id d))
      with (find_auction auction_id d).
    rewrite (find_auction_ext _ _ _ Ha), Hrow. reflexivity. }
  split; [exact Hbids|].
  split; [rewrite (active_bids_ext _ _ _ Hbids); apply no_active_after_deactivate|].
  split; [simpl; exact Hr|].
  split.
  - intros u Hu.
    set (total := sum_amounts (bids_of_bidder u (active_bids auction_id db))).
    pose proof (group_by_bidder_member _ _ Hu) as Hg. fold gs in Hg.
    destruct (cancel_loop_balance_in art gs db _ Hnd Hg) as [Hav Hpe].
    simpl g_bidder_id in Hav, Hpe. simpl total_amount in Hav, Hpe.
    fold total in Hav, Hpe. fold d in Hav, Hpe.
    split; assumption.
  - intros u Hu.
    change (find_balance u (set_auction_status auction_id StCancelled
                              (deactivate_bids auction_id d)))
      with (find_balance u d).
    unfold d. apply cancel_loop_balance_other.
    unfold gs. rewrite group_by_bidder_ids, nodup_In. exact Hu.
Qed.

Lemma cancel_auction_read_off (auction_id : nat) (db : DB) (a : Auction) :
  find_auction auction_id db = Some a ->
  cancelled_and_refunded auction_id db (App.cancel_auction auction_id StCancelled db)
  /\ artworks (App.cancel_auction auction_id StCancelled db) = artworks db.
Proof.
  intros Hrow.
  destruct (cancel_auction_outcome auction_id db a Hrow)
    as [Hst [Hb [_ [Har [Hin Hout]]]]].
  split; [|exact Har].
  split; [exact Hst|].
  split; [rewrite Hb; apply deactivate_bids_switches_off|].
  apply refunds_read_off_rows; [|exact Hout].
  intros u Hu. pose proof (Hin u Hu) as H. cbv zeta in H. exact H.
Qed.

Lemma find_auction_cancel (auction_id : nat) (s : AuctionStatus) (db : DB) (a : Auction) :
  find_auction auction_id db = Some a ->
  find_auction auction_id (App.cancel_auction auction_id s db)
  = Some (mkAuction (au_id a) (au_artwork_id a) (au_seller_id a) (au_start_price a)
                    (au_reserve_price a) (au_end_time a) s (au_winner_id a)).
Proof.
  intros Hrow. unfold App.cancel_auction. rewrite Hrow.
  rewrite refund_active_bids_unfold, find_auction_set_status.
  change (find_auction auction_id (deactivate_bids auction_id ?d))
    with (find_auction auction_id d).
  destruct (cancel_loop_tables (App.artwork_id_of_auction auction_id db)
              (group_by_bidder (active_bids auction_id db)) db) as [_ [Ha _]].
  rewrite (find_auction_ext _ _ _ Ha), Hrow. reflexivity.
Qed.

Lemma no_active_rows (auction_id : nat) (db : DB) :
  (forall b, In b (bids db) -> bid_auction_id b = auction_id -> bid_is_active b = false) ->
  active_bids auction_id db = [].
Proof.
  intros H. unfold active_bids.
  induction (bids db) as [|b l IH]; [reflexivity|]. simpl.
  rewrite IH by (intros x Hx; apply H; right; exact Hx).
  unfold active_in. destruct (Nat.eqb_spec (bid_auction_id b) auction_id) as [E|_];
    [|reflexivity].
  rewrite (H b (or_introl eq_refl) E). reflexivity.
Qed.

(** Cancelling an auction that exists, whatever bids it has: the auction
    becomes cancelled, every active bid on it is switched off and every
    other bid row stays as it is, each bidder gets the total of their
    active bids on it back (that much more available, that much less
    pending, zero when less was held), nobody else's balance row changes,
    and no artwork row is touched. *)
Theorem cancel_auction_refunds_every_bidder :
  forall (auction_id : nat) (db : DB) (a : Auction),
    find_auction auction_id db = Some a ->
    cancelled_and_refunded auction_id db (App.cancel_auction auction_id StCancelled db)
    /\ artworks (App.cancel_auction auction_id StCancelled db) = artworks db.
Proof. exact cancel_auction_read_off. Qed.

(** Cancelling auction 100 of [Samples.two_bidders] (bids of 150 and 200):
    both bids inactive, user 2 at 650 available, user 3 at 1000, nothing
    pending, the seller's row as it was. *)
Lemma cancel_auction_refunds_every_bidder_witness :
  status_of 100 (App.cancel_auction 100 StCancelled (Samples.two_bidders None))
  = Some StCancelled /\
  bids (App.cancel_auction 100 StCancelled (Samples.two_bidders None))
  = [mkBid 1 100 2 150 false; mkBid 2 100 3 200 false] /\
  available_of 2 (App.cancel_auction 100 StCancelled (Samples.two_bidders None)) == 650 /\
  pending_of 2 (App.cancel_auction 100 StCancelled (Samples.two_bidders None)) == 0 /\
  available_of 3 (App.cancel_auction 100 StCancelled (Samples.two_bidders None)) == 1000 /\
  pending_of 3 (App.cancel_auction 100 StCancelled (Samples.two_bidders None)) == 0 /\
  find_balance 1 (App.cancel_auction 100 StCancelled (Samples.two_bidders None))
  = Some (mkBalance 1 40 0).
Proof.
  destruct (cancel_auction_refunds_every_bidder 100 (Samples.two_bidders None)
              (mkAuction 100 10 (Some 1%nat) 100 None 50 StOpen None) eq_refl)
    as [[Hst [Hoff [Hin Hout]]] _].
  split; [exact Hst|]. split; [exact Hoff|].
  destruct (Hin 2%nat) as [Ha2 [Hp2 _]].
  { exists (mkBid 1 100 2 150 true). simpl. repeat split; auto. }
  destruct (Hin 3%nat) as [Ha3 [Hp3 _]].
  { exists (mkBid 2 100 3 200 true). simpl. repeat split; auto. }
  split; [rewrite Ha2; vm_compute; reflexivity|].
  split; [rewrite Hp2; vm_compute; [reflexivity | discriminate]|].
  split; [rewrite Ha3; vm_compute; reflexivity|].
  split; [rewrite Hp3; vm_compute; [reflexivity | discriminate]|].
  rewrite (Hout 1%nat); [reflexivity|].
  intros [b [Hb [_ [_ Hu]]]]. simpl in Hb.
  destruct Hb as [<- | [<- | []]]; discriminate Hu.
Defined.

(** C9, as the code has it.  [cancel_auction] does not look at the status:
    on any auction that exists, whatever its status and its bids, it writes
    the status cancelled and leaves the other columns of the row and every
    artwork as they are; so a closed auction becomes cancelled and a
    cancelled one keeps its row.  When no bid on the auction is active it
    deactivates nothing and refunds nothing: the bids, balances and
    transactions are as before. *)
Theorem cancel_writes_the_status_whatever_it_was :
  forall (auction_id : nat) (db : DB) (a : Auction),
    find_auction auction_id db = Some a ->
    find_auction auction_id (App.cancel_auction auction_id StCancelled db)
    = Some (mkAuction (au_id a) (au_artwork_id a) (au_seller_id a) (au_start_price a)
                      (au_reserve_price a) (au_end_time a) StCancelled (au_winner_id a)) /\
    (au_status a = StCancelled ->
     find_auction auction_id (App.cancel_auction auction_id StCancelled db) = Some a) /\
    artworks (App.cancel_auction auction_id StCancelled db) = artworks db /\
    ((forall b, In b (bids db) -> bid_auction_id b = auction_id ->
                bid_is_active b = false) ->
     bids (App.cancel_auction auction_id StCancelled db) = bids db /\
     balances (App.cancel_auction auction_id StCancelled db) = balances db /\
     transactions (App.cancel_auction auction_id StCancelled db) = transactions db).
Proof.
  intros auction_id db a Hrow.
  pose proof (find_auction_cancel auction_id StCancelled db a Hrow) as Hfa.
  split; [exact Hfa|].
  split.
  { intros Hc. rewrite Hfa. destruct a; simpl in *; subst; reflexivity. }
  split; [apply (proj2 (cancel_auction_read_off auction_id db a Hrow))|].
  intros Hnone. apply no_active_rows in Hnone.
  destruct (cancel_without_active_bids auction_id db a Hrow Hnone) as [Hdb' [Hb _]].
  rewrite Hdb'. split; [exact Hb|]. split; reflexivity.
Qed.

(** The auction of [Samples.one_bid] once sold through the close endpoint:
    closed, won by user 3, whose bid is still active.  Cancelling it writes
    cancelled into the row and keeps the winner. *)
Lemma cancel_writes_the_status_whatever_it_was_witness :
  find_auction 100 (snd (App.close_auction 1 100 Samples.one_bid))
  = Some (mkAuction 100 10 (Some 1%nat) 100 None 50 StClosed (Some 3%nat)) /\
  find_auction 100
    (App.cancel_auction 100 StCancelled (snd (App.close_auction 1 100 Samples.one_bid)))
  = Some (mkAuction 100 10 (Some 1%nat) 100 None 50 StCancelled (Some 3%nat)) /\
  artworks
    (App.cancel_auction 100 StCancelled (snd (App.close_auction 1 100 Samples.one_bid)))
  = artworks (snd (App.close_auction 1 100 Samples.one_bid)).
Proof.
  assert (Hrow : find_auction 100 (snd (App.close_auction 1 100 Samples.one_bid))
                 = Some (mkAuction 100 10 (Some 1%nat) 100 None 50 StClosed (Some 3%nat)))
    by reflexivity.
  destruct (cancel_writes_the_status_whatever_it_was 100
              (snd (App.close_auction 1 100 Samples.one_bid)) _ Hrow)
    as [Hfa [_ [Har _]]].
  split; [exact Hrow|]. split; [exact Hfa | exact Har].
Defined.

(* ------------------------------------------------------------------ *)
(** *** Validation of an auction creation *)

Lemma truthy_amount_nonzero (x : option Q) :
  truthy_amount x = true <-> exists p, x = Some p /\ ~ p == 0.
Proof.
  destruct x as [p|]; simpl.
  - rewrite negb_true_iff. split.
    + intros H. exists p. split; [reflexivity|]. intros E.
      apply Qeq_bool_iff in E. congruence.
    + intros [q [[= <-] Hq]]. destruct (Qeq_bool p 0) eqn:E; [|reflexivity].
      exfalso. apply Hq. apply Qeq_bool_iff. exact E.
  - split; [discriminate|]. intros [p [H _]]. discriminate.
Qed.

Lemma auction_fields_present (data : Validators.AuctionData) :
  Validators.validate_required_fields data
    ["title"; "description"; "category"; "start_price"; "end_time"; "image_url"]%string
  = Ok tt
  <-> Validators.truthy_text (Validators.title data) = true /\
      Validators.truthy_text (Validators.description data) = true /\
      Validators.truthy_text (Validators.category data) = true /\
      truthy_amount (Validators.start_price data) = true /\
      Validators.truthy_text (Validators.end_time data) = true /\
      Validators.truthy_text (Validators.image_url data) = true.
Proof.
  unfold Validators.validate_required_fields, Validators.field_truthy. simpl.
  destruct (Validators.truthy_text (Validators.title data));
  destruct (Validators.truthy_text (Validators.description data));
  destruct (Validators.truthy_text (Validators.category data));
  destruct (truthy_amount (Validators.start_price data));
  destruct (Validators.truthy_text (Validators.end_time data));
  destruct (Validators.truthy_text (Validators.image_url data)); simpl;
  (split; [intros H; try discriminate H; repeat split; reflexivity
          | intros H; decompose [and] H; try discriminate; reflexivity]).
Qed.

(** [validate_auction_create] accepts a request exactly when the five texts
    are present and not empty, the start price is a number above zero, and
    the reserve price is absent or at least the start price.  A start price
    of zero counts as a missing field. *)
Theorem validate_auction_create_accepts_exactly :
  forall data : Validators.AuctionData,
    Validators.validate_auction_create data = Ok tt
    <-> Validators.truthy_text (Validators.title data) = true /\
        Validators.truthy_text (Validators.description data) = true /\
        Validators.truthy_text (Validators.category data) = true /\
        Validators.truthy_text (Validators.end_time data) = true /\
        Validators.truthy_text (Validators.image_url data) = true /\
        exists p, Validators.start_price data = Some p /\ 0 < p /\
                  match Validators.reserve_price data with
                  | Some r => p <= r
                  | None => True
                  end.
Proof.
  intros data. unfold Validators.validate_auction_create.
  pose proof (auction_fields_present data) as Hreq.
  destruct (Validators.validate_required_fields data _) as [[]|e] eqn:Ereq; simpl.
  - destruct (proj1 Hreq eq_refl) as [Ht [Hd [Hc [Hs [He Hi]]]]].
    apply truthy_amount_nonzero in Hs. destruct Hs as [p [Hp Hnz]].
    unfold Validators.start_price_or_0, Validators.validate_price. rewrite Hp.
    destruct (Qlt_bool p 0) eqn:Eneg; simpl.
    + apply Qlt_bool_iff in Eneg.
      split; [discriminate|]. intros [_ [_ [_ [_ [_ [q [[= <-] [Hq _]]]]]]]]. lra.
    + apply Qlt_bool_false_iff in Eneg.
      destruct (Validators.reserve_price data) as [r|]; simpl.
      * destruct (Qlt_bool r 0) eqn:Er; simpl.
        { apply Qlt_bool_iff in Er. split; [discriminate|].
          intros [_ [_ [_ [_ [_ [q [[= <-] [Hq Hr]]]]]]]]. lra. }
        destruct (Qlt_bool r p) eqn:Erp.
        { apply Qlt_bool_iff in Erp. split; [discriminate|].
          intros [_ [_ [_ [_ [_ [q [[= <-] [Hq Hr]]]]]]]]. lra. }
        apply Qlt_bool_false_iff in Erp.
        split; [|reflexivity]. intros _. repeat (split; [assumption|]).
        exists p. repeat split; [|exact Erp].
        destruct (Qlt_le_dec 0 p) as [Hlt|Hle]; [exact Hlt|].
        exfalso. apply Hnz. lra.
      * split; [|reflexivity]. intros _. repeat (split; [assumption|]).
        exists p. repeat split.
        destruct (Qlt_le_dec 0 p) as [Hlt|Hle]; [exact Hlt|].
        exfalso. apply Hnz. lra.
  - split; [discriminate|].
    intros [Ht [Hd [Hc [He [Hi [p [Hp [Hpos _]]]]]]]].
    assert (Hs : truthy_amount (Validators.start_price data) = true).
    { apply truthy_amount_nonzero. exists p. split; [exact Hp|]. lra. }
    assert (Hall : Raise e = Ok tt); [|discriminate Hall].
    apply Hreq. repeat split; assumption.
Qed.

(** The check [start_price < 0] of [validate_auction_create] can never fire:
    a negative start price is already refused by [validate_price], with
    another message, and an absent one or zero as a missing field. *)
Theorem start_price_message_is_never_raised :
  forall data : Validators.AuctionData,
    Validators.validate_auction_create data
    <> Raise (ValidationError "Start price must be non-negative").
Proof.
  intros data. unfold Validators.validate_auction_create.
  unfold Validators.validate_required_fields.
  destruct (filter _ _) as [|m ms]; simpl; [|discriminate].
  unfold Validators.validate_price, Validators.start_price_or_0.
  destruct (Validators.start_price data) as [p|]; simpl.
  - destruct (Qlt_bool p 0) eqn:Ep; simpl; [discriminate|].
    destruct (Validators.reserve_price data) as [r|]; simpl.
    + destruct (Qlt_bool r 0); simpl; [discriminate|].
      destruct (Qlt_bool r p); discriminate.
    + discriminate.
  - destruct (Validators.reserve_price data) as [r|]; simpl.
    + destruct (Qlt_bool r 0); simpl; [discriminate|].
      replace (Qlt_bool 0 0) with false by reflexivity.
      destruct (Qlt_bool r 0); discriminate.
    + discriminate.
Qed.

(* ------------------------------------------------------------------ *)
(** *** What a settlement touches *)

Lemma in_bidders_of_filter (p : Bid -> bool) (l : list Bid) (u : nat) :
  In u (map bid_bidder_id (filter p l)) -> In u (map bid_bidder_id l).
Proof.
  rewrite !in_map_iff. intros [b [Hb Hin]]. apply filter_In in Hin.
  exists b. split; [exact Hb | apply Hin].
Qed.

Lemma group_ids_among (l : list Bid) (u : nat) :
  In u (map g_bidder_id (group_by_bidder l)) <-> In u (map bid_bidder_id l).
Proof. rewrite group_by_bidder_ids. apply nodup_In. Qed.

Lemma repo_update_other (u v : nat) (kv : BalanceRepository.Column * Q) (db : DB) :
  u <> v ->
  find_balance u (BalanceRepository.update v [kv] db) = find_balance u db.
Proof.
  intros Hne. unfold BalanceRepository.update.
  apply find_balance_update_other; [|exact Hne].
  intros r. destruct kv as [[|] q]; reflexivity.
Qed.

Lemma find_balance_insert_other (u v : nat) (a p : Q) (db : DB) :
  u <> v -> find_balance u (insert_balance v a p db) = find_balance u db.
Proof.
  intros Hne. rewrite find_balance_insert.
  destruct (find_balance u db); [reflexivity|].
  destruct (Nat.eqb_spec v u) as [E|_]; [congruence | reflexivity].
Qed.

Lemma seller_of_agree (auction : Auction) (db : DB) (s : nat) :
  App.seller_of auction db = Ok s <-> AuctionService.seller_of auction db = Ok s.
Proof.
  unfold App.seller_of, AuctionService.seller_of.
  destruct (au_seller_id auction) as [[|n]|];
    try destruct (find_artwork (au_artwork_id auction) db);
    split; intros H; try discriminate H; exact H.
Qed.

(** The shape of every outcome of the scheduler's settlement: a refund loop
    over bidders of the auction, run on a database in which the auction row
    is closed, one artwork row is rewritten, the bids are untouched and
    only the seller's and the winner's balances may differ. *)
Lemma service_settle_shape (auction : Auction) (db db' : DB) :
  AuctionService.process_ended_auction auction db = Ok db' ->
  exists seller w f description gs d,
    AuctionService.seller_of auction db = Ok seller /\
    db' = AuctionService.refund_all (au_id auction) (au_artwork_id auction)
            description gs d /\
    auctions d = auctions (close_auction_row (au_id auction) w db) /\
    bids d = bids db /\
    artworks d = artworks (update_artwork (au_artwork_id auction) f db) /\
    (forall x, ar_id (f x) = ar_id x) /\
    (forall u, In u (map g_bidder_id gs) ->
               In u (map bid_bidder_id (active_bids (au_id auction) db))) /\
    (forall u, ~ In u (map bid_bidder_id (active_bids (au_id auction) db)) ->
               u <> seller -> find_balance u d = find_balance u db).
Proof.
  unfold AuctionService.process_ended_auction.
  destruct (AuctionService.seller_of auction db) as [seller|e] eqn:Es;
    cbv beta iota zeta delta [bind]; [|discriminate].
  destruct (find_winning_bid (au_id auction) db) as [w|] eqn:Ew;
    cbv beta iota zeta delta [option_map].
  - assert (Hwin : In (bid_bidder_id w)
                      (map bid_bidder_id (active_bids (au_id auction) db))).
    { apply in_map. apply top_bid_in. exact Ew. }
    destruct (AuctionService.reserve_not_met_of (Some w) (au_reserve_price auction))
      eqn:Er; cbv beta iota.
    + change (truthy_id None) with false. cbv beta iota delta [andb].
      intros [= <-]. unfold AuctionService._process_reserve_not_met.
      exists seller, None, unlist, "Reserve price not met - bid refunded"%string.
      eexists. eexists. split; [reflexivity|]. split; [reflexivity|].
      repeat split; try reflexivity.
      intros u Hu. apply group_ids_among in Hu. exact Hu.
    + destruct (truthy_id (Some (bid_bidder_id w))
                && truthy_amount (Some (bid_amount w))) eqn:Et.
      * intros [= <-]. unfold AuctionService._process_successful_sale.
        exists seller, (Some (bid_bidder_id w)), (transfer_to (bid_bidder_id w)),
               "Auction ended - bid refunded"%string.
        eexists. eexists. split; [reflexivity|]. split; [reflexivity|].
        split; [destruct (find_balance (bid_bidder_id w) _);
                destruct (find_balance seller _); reflexivity|].
        split; [destruct (find_balance (bid_bidder_id w) _);
                destruct (find_balance seller _); reflexivity|].
        split; [destruct (find_balance (bid_bidder_id w) _);
                destruct (find_balance seller _); reflexivity|].
        split; [reflexivity|].
        split.
        { intros u Hu. apply group_ids_among in Hu.
          apply in_bidders_of_filter in Hu.
          erewrite active_bids_ext in Hu; [exact Hu|].
          destruct (find_balance (bid_bidder_id w) _);
            destruct (find_balance seller _); reflexivity. }
        intros u Hu Hus.
        assert (Huw : u <> bid_bidder_id w) by (intros ->; apply Hu; exact Hwin).
        change (find_balance u (insert_transaction ?t (insert_transaction ?t' ?x)))
          with (find_balance u x).
        match goal with
        | |- find_balance u (match find_balance seller ?d1 with _ => _ end) = _ =>
            assert (H1 : find_balance u d1 = find_balance u db)
        end.
        { destruct (find_balance (bid_bidder_id w) _).
          - rewrite repo_update_other by exact Huw. reflexivity.
          - rewrite find_balance_insert_other by exact Huw. reflexivity. }
        destruct (find_balance seller _).
        -- rewrite repo_update_other by exact Hus. exact H1.
        -- rewrite find_balance_insert_other by exact Hus. exact H1.
      * intros [= <-].
        exists seller, (Some (bid_bidder_id w)), unlist, ""%string, [].
        eexists. split; [reflexivity|]. split; [reflexivity|].
        repeat split; try reflexivity. intros u [].
  - intros [= <-].
    exists seller, None, unlist, ""%string, [].
    eexists. split; [reflexivity|]. split; [reflexivity|].
    repeat split; try reflexivity. intros u [].
Qed.

(** The same shape for the settlement of [app.py]. *)
Lemma app_settle_shape (auction : Auction) (db db' : DB) :
  App._process_ended_auction auction db = Ok db' ->
  exists seller w f description gs d,
    AuctionService.seller_of auction db = Ok seller /\
    db' = AuctionService.refund_all (au_id auction) (au_artwork_id auction)
            description gs d /\
    auctions d = auctions (close_auction_row (au_id auction) w db) /\
    bids d = bids db /\
    artworks d = artworks (update_artwork (au_artwork_id auction) f db) /\
    (forall x, ar_id (f x) = ar_id x) /\
    (forall u, In u (map g_bidder_id gs) ->
               In u (map bid_bidder_id (active_bids (au_id auction) db))) /\
    (forall u, ~ In u (map bid_bidder_id (active_bids (au_id auction) db)) ->
               u <> seller -> find_balance u d = find_balance u db).
Proof.
  unfold App._process_ended_auction.
  destruct (App.seller_of auction db) as [seller|e] eqn:Es;
    cbv beta iota zeta delta [bind]; [|discriminate].
  apply seller_of_agree in Es.
  destruct (find_winning_bid (au_id auction) db) as [w|] eqn:Ew;
    cbv beta iota zeta delta [option_map].
  - assert (Hwin : In (bid_bidder_id w)
                      (map bid_bidder_id (active_bids (au_id auction) db))).
    { apply in_map. apply top_bid_in. exact Ew. }
    destruct (AuctionService.reserve_not_met_of (Some w) (au_reserve_price auction))
      eqn:Er; cbv beta iota; cbn [negb].
    + rewrite andb_false_r. intros [= <-]. rewrite app_refund_loop.
      exists seller, None, unlist_clear, "Reserve price not met - bid refunded"%string.
      eexists. eexists. split; [exact Es|]. split; [reflexivity|].
      repeat split; try reflexivity.
      intros u Hu. apply group_ids_among in Hu. exact Hu.
    + rewrite andb_true_r.
      destruct (truthy_id (Some (bid_bidder_id w))
                && truthy_amount (Some (bid_amount w))) eqn:Et.
      * intros [= <-].
        assert (Hid : exists n, bid_bidder_id w = S n).
        { destruct (bid_bidder_id w) as [|n]; [discriminate Et | exists n; reflexivity]. }
        destruct Hid as [n Hn]. rewrite Hn. rewrite app_refund_loop. rewrite <- Hn.
        exists seller, (Some (bid_bidder_id w)), (transfer_to (bid_bidder_id w)),
               "Auction ended - bid refunded"%string.
        eexists. eexists. split; [exact Es|]. split; [reflexivity|].
        unfold App.sale_block.
        split; [destruct (find_balance (bid_bidder_id w) _);
                destruct (find_balance seller _); reflexivity|].
        split; [destruct (find_balance (bid_bidder_id w) _);
                destruct (find_balance seller _); reflexivity|].
        split; [destruct (find_balance (bid_bidder_id w) _);
                destruct (find_balance seller _); reflexivity|].
        split; [reflexivity|].
        split.
        { intros u Hu. apply group_ids_among in Hu.
          apply in_bidders_of_filter in Hu.
          erewrite active_bids_ext in Hu; [exact Hu|].
          destruct (find_balance (bid_bidder_id w) _);
            destruct (find_balance seller _); reflexivity. }
        intros u Hu Hus.
        assert (Huw : u <> bid_bidder_id w) by (intros ->; apply Hu; exact Hwin).
        change (find_balance u (insert_transaction ?t (insert_transaction ?t'
                  (set_pending_bid_transactions ?s ?a ?b ?x))))
          with (find_balance u x).
        match goal with
        | |- find_balance u (match find_balance seller ?d1 with _ => _ end) = _ =>
            assert (H1 : find_balance u d1 = find_balance u db)
        end.
        { destruct (find_balance (bid_bidder_id w) _).
          - rewrite find_balance_update_other by (try reflexivity; exact Huw).
            reflexivity.
          - rewrite find_balance_insert_other by exact Huw. reflexivity. }
        destruct (find_balance seller _).
        -- rewrite find_balance_update_other by (try reflexivity; exact Hus). exact H1.
        -- rewrite find_balance_insert_other by exact Hus. exact H1.
      * intros [= <-].
        destruct (bid_bidder_id w) as [|n] eqn:Hn.
        -- exists seller, (Some 0%nat), unlist_clear, ""%string, [].
           eexists. split; [exact Es|]. split; [reflexivity|].
           repeat split; try reflexivity. intros u [].
        -- rewrite app_refund_loop.
           exists seller, (Some (S n)), unlist_clear,
                  "Auction ended - bid refunded"%string.
           eexists. eexists. split; [exact Es|]. split; [reflexivity|].
           repeat split; try reflexivity.
           intros u Hu. apply group_ids_among in Hu.
           apply in_bidders_of_filter in Hu. exact Hu.
  - intros [= <-].
    exists seller, None, unlist_clear, ""%string, [].
    eexists. split; [exact Es|]. split; [reflexivity|].
    repeat split; try reflexivity. intros u [].
Qed.

Lemma find_auction_close_other (auction_id other : nat) (w : option nat) (db : DB) :
  other <> auction_id ->
  find_auction other (close_auction_row auction_id w db) = find_auction other db.
Proof.
  intros Hne. unfold find_auction, close_auction_row. simpl.
  induction (auctions db) as [|a l IH]; [reflexivity|]. simpl.
  destruct (Nat.eqb_spec (au_id a) auction_id) as [E|E]; simpl.
  - destruct (Nat.eqb_spec (au_id a) other) as [E'|_]; [congruence | exact IH].
  - destruct (Nat.eqb (au_id a) other); [reflexivity | exact IH].
Qed.

Lemma find_artwork_update_other (artwork_id x : nat) (f : Artwork -> Artwork) (db : DB) :
  (forall a, ar_id (f a) = ar_id a) ->
  x <> artwork_id ->
  find_artwork x (update_artwork artwork_id f db) = find_artwork x db.
Proof.
  intros Hid Hne. unfold find_artwork, update_artwork. simpl.
  induction (artworks db) as [|a l IH]; [reflexivity|]. simpl.
  destruct (Nat.eqb_spec (ar_id a) artwork_id) as [E|E]; simpl.
  - rewrite Hid. destruct (Nat.eqb_spec (ar_id a) x) as [E'|_]; [congruence | exact IH].
  - destruct (Nat.eqb (ar_id a) x); [reflexivity | exact IH].
Qed.

Lemma close_rows_ids (auction_id : nat) (w : option nat) (db : DB) :
  map au_id (auctions (close_auction_row auction_id w db)) = map au_id (auctions db).
Proof.
  unfold close_auction_row. simpl. rewrite map_map. apply map_ext.
  intros a. destruct (Nat.eqb (au_id a) auction_id); reflexivity.
Qed.

Lemma close_rows_closed (auction_id : nat) (w : option nat) (db : DB) (a : Auction) :
  In a (auctions (close_auction_row auction_id w db)) ->
  au_id a = auction_id -> au_status a = StClosed.
Proof.
  unfold close_auction_row. simpl. rewrite in_map_iff. intros [a0 [<- _]].
  destruct (Nat.eqb_spec (au_id a0) auction_id) as [E|E]; simpl; [reflexivity|].
  intros E'. contradiction.
Qed.

Lemma other_bids_kept (auction_id : nat) (p : Bid -> bool) (l : list Bid) :
  filter (fun b => negb (Nat.eqb (bid_auction_id b) auction_id))
         (map (fun b => if active_in auction_id b && p b then inactive b else b) l)
  = filter (fun b => negb (Nat.eqb (bid_auction_id b) auction_id)) l.
Proof.
  induction l as [|b l IH]; [reflexivity|]. simpl.
  destruct (active_in auction_id b && p b) eqn:Ea.
  - apply andb_true_iff in Ea. destruct Ea as [Ha _].
    unfold active_in in Ha. apply andb_true_iff in Ha. destruct Ha as [Hid _].
    simpl. rewrite Hid. simpl. exact IH.
  - destruct (negb (Nat.eqb (bid_auction_id b) auction_id)); rewrite IH; reflexivity.
Qed.

Lemma settle_shape_frame (auction : Auction) (db db' : DB) :
  (exists seller w f description gs d,
    AuctionService.seller_of auction db = Ok seller /\
    db' = AuctionService.refund_all (au_id auction) (au_artwork_id auction)
            description gs d /\
    auctions d = auctions (close_auction_row (au_id auction) w db) /\
    bids d = bids db /\
    artworks d = artworks (update_artwork (au_artwork_id auction) f db) /\
    (forall x, ar_id (f x) = ar_id x) /\
    (forall u, In u (map g_bidder_id gs) ->
               In u (map bid_bidder_id (active_bids (au_id auction) db))) /\
    (forall u, ~ In u (map bid_bidder_id (active_bids (au_id auction) db)) ->
               u <> seller -> find_balance u d = find_balance u db)) ->
  settles_only_its_auction auction db db'.
Proof.
  intros [seller [w [f [description [gs [d [Hs [-> [Ha [Hb [Hr [Hf [Hgs Hbal]]]]]]]]]]]]].
  unfold settles_only_its_auction.
  split; [rewrite refund_all_auctions, Ha; apply close_rows_ids|].
  split.
  { intros other Hne.
    rewrite (find_auction_ext other _ _ (refund_all_auctions _ _ _ gs d)).
    rewrite (find_auction_ext other _ _ Ha).
    apply find_auction_close_other. exact Hne. }
  split.
  { intros a Hin. rewrite refund_all_auctions, Ha in Hin.
    apply (close_rows_closed _ _ _ _ Hin). }
  split.
  { rewrite refund_all_bids, Hb. apply other_bids_kept. }
  split.
  { intros x Hne.
    rewrite (find_artwork_ext x _ _ (refund_all_artworks _ _ _ gs d)).
    rewrite (find_artwork_ext x _ _ Hr).
    apply find_artwork_update_other; assumption. }
  intros seller' u Hs' Hne Hnot.
  rewrite Hs in Hs'. injection Hs' as <-.
  rewrite refund_all_balance_other.
  - apply Hbal; assumption.
  - intros Hin. apply Hnot. apply Hgs. exact Hin.
Qed.

(** A settlement that goes through, on either path, touches only its own
    auction: every other auction's row, every bid on another auction and
    every other artwork is as before, and so is the balance of every user
    who is neither the seller nor a bidder with an active bid on it. *)
Theorem settlement_touches_only_its_auction :
  forall (auction : Auction) (db db' : DB),
    AuctionService.process_ended_auction auction db = Ok db'
    \/ App._process_ended_auction auction db = Ok db' ->
    settles_only_its_auction auction db db'.
Proof.
  intros auction db db' [H|H]; apply settle_shape_frame.
  - apply service_settle_shape. exact H.
  - apply app_settle_shape. exact H.
Qed.

Lemma settlement_touches_only_its_auction_witness :
  settles_only_its_auction
    (mkAuction 100 10 (Some 1%nat) 100 None 50 StOpen None)
    Samples.two_auctions
    (match App._process_ended_auction
             (mkAuction 100 10 (Some 1%nat) 100 None 50 StOpen None)
             Samples.two_auctions with
     | Ok d => d
     | Raise _ => Samples.two_auctions
     end).
Proof.
  apply (settlement_touches_only_its_auction
           (mkAuction 100 10 (Some 1%nat) 100 None 50 StOpen None)
           Samples.two_auctions).
  right. vm_compute. reflexivity.
Defined.

(* ------------------------------------------------------------------ *)
(** *** Processing the ended auctions, once and again *)

Lemma closed_since_start (t0 : list Auction) : closed_since [] t0 t0.
Proof.
  exists (fun a => a). split; [symmetry; apply map_id|].
  intros a0. split; [reflexivity|]. split; [intros []|reflexivity].
Qed.

Lemma closed_since_step (processed : list nat) (t0 : list Auction) (d db : DB)
    (auction_id : nat) (w : option nat) :
  closed_since processed t0 (auctions db) ->
  auctions d = auctions (close_auction_row auction_id w db) ->
  closed_since (processed ++ [auction_id]) t0 (auctions d).
Proof.
  intros [g [Ht Hg]] Hd.
  exists (fun a0 => if Nat.eqb (au_id (g a0)) auction_id
                    then mkAuction (au_id (g a0)) (au_artwork_id (g a0))
                           (au_seller_id (g a0)) (au_start_price (g a0))
                           (au_reserve_price (g a0)) (au_end_time (g a0))
                           StClosed w
                    else g a0).
  split.
  - rewrite Hd. unfold close_auction_row. simpl. rewrite Ht, map_map. reflexivity.
  - intros a0. destruct (Hg a0) as [Hid [Hin Hout]].
    destruct (Nat.eqb_spec (au_id (g a0)) auction_id) as [E|E]; simpl.
    + split; [exact Hid|]. split; [reflexivity|].
      intros Hnot. exfalso. apply Hnot. apply in_or_app. right. left.
      rewrite <- Hid. symmetry. exact E.
    + split; [exact Hid|]. split.
      * intros H. apply in_app_or in H. destruct H as [H|[H|[]]].
        -- apply Hin. exact H.
        -- exfalso. apply E. rewrite Hid. symmetry. exact H.
      * intros Hnot. apply Hout. intros H. apply Hnot. apply in_or_app. left. exact H.
Qed.

Lemma closed_since_nothing_ended (now : Z) (db0 : DB) (t : list Auction) :
  closed_since (map au_id (ended_auctions now db0)) (auctions db0) t ->
  filter (fun au => status_eqb (au_status au) StOpen && (au_end_time au <=? now)%Z) t
  = [].
Proof.
  intros [g [-> Hg]].
  assert (H : forall l, (forall a0, In a0 l -> In a0 (auctions db0)) ->
              filter (fun au => status_eqb (au_status au) StOpen
                                && (au_end_time au <=? now)%Z) (map g l) = []).
  { induction l as [|a0 l IH]; intros Hl; [reflexivity|]. simpl.
    rewrite IH by (intros x Hx; apply Hl; right; exact Hx).
    destruct (Hg a0) as [_ [Hin Hout]].
    destruct (in_dec Nat.eq_dec (au_id a0) (map au_id (ended_auctions now db0)))
      as [Hp|Hp].
    - rewrite (Hin Hp). reflexivity.
    - rewrite (Hout Hp).
      destruct (status_eqb (au_status a0) StOpen && (au_end_time a0 <=? now)%Z) eqn:E;
        [|reflexivity].
      exfalso. apply Hp. apply in_map. unfold ended_auctions.
      apply filter_In. split; [apply Hl; left; reflexivity | exact E]. }
  apply H. intros a0 Ha. exact Ha.
Qed.

Lemma app_settle_total (auction : Auction) (db : DB) :
  truthy_id (au_seller_id auction) = true ->
  exists d, App._process_ended_auction auction db = Ok d.
Proof.
  intros Hs. unfold App._process_ended_auction, App.seller_of.
  destruct (au_seller_id auction) as [[|n]|]; try discriminate Hs.
  cbv beta iota zeta delta [bind].
  destruct (_ && _ && _).
  - destruct (find_winning_bid (au_id auction) db); eexists; reflexivity.
  - destruct (AuctionService.reserve_not_met_of _ _); eexists; reflexivity.
Qed.

Lemma service_settle_total (auction : Auction) (db : DB) :
  truthy_id (au_seller_id auction) = true ->
  exists d, AuctionService.process_ended_auction auction db = Ok d.
Proof.
  intros Hs. unfold AuctionService.process_ended_auction, AuctionService.seller_of.
  destruct (au_seller_id auction) as [[|n]|]; try discriminate Hs.
  cbv beta iota zeta delta [bind].
  destruct (_ && _).
  - destruct (find_winning_bid (au_id auction) db); eexists; reflexivity.
  - destruct (AuctionService.reserve_not_met_of _ _); eexists; reflexivity.
Qed.

Lemma app_settle_auctions (auction : Auction) (db d : DB) :
  App._process_ended_auction auction db = Ok d ->
  exists w, auctions d = auctions (close_auction_row (au_id auction) w db).
Proof.
  intros H. apply app_settle_shape in H.
  destruct H as [seller [w [f [description [gs [d0 [_ [-> [Ha _]]]]]]]]].
  exists w. rewrite refund_all_auctions. exact Ha.
Qed.

Lemma service_settle_auctions (auction : Auction) (db d : DB) :
  AuctionService.process_ended_auction auction db = Ok d ->
  exists w, auctions d = auctions (close_auction_row (au_id auction) w db).
Proof.
  intros H. apply service_settle_shape in H.
  destruct H as [seller [w [f [description [gs [d0 [_ [-> [Ha _]]]]]]]]].
  exists w. rewrite refund_all_auctions. exact Ha.
Qed.

Lemma process_loop_closes (t0 : list Auction) (l : list Auction) :
  (forall a, In a l -> truthy_id (au_seller_id a) = true) ->
  forall (st : Connection * list nat) (processed : list nat),
    closed_since processed t0 (auctions (working (fst st))) ->
    closed_since (processed ++ map au_id l) t0
      (auctions (working (fst (fold_left App.process_step l st)))) /\
    snd (fold_left App.process_step l st) = snd st ++ map au_id l.
Proof.
  induction l as [|a l IH]; intros Hs st processed Hinv.
  - simpl. rewrite !app_nil_r. split; [exact Hinv | reflexivity].
  - simpl fold_left.
    destruct (app_settle_total a (working (fst st)) (Hs a (or_introl eq_refl)))
      as [d Hd].
    destruct (app_settle_auctions _ _ _ Hd) as [w Hw].
    assert (Hstep : App.process_step st a
                    = (mkConn (committed (fst st)) d, snd st ++ [au_id a])).
    { unfold App.process_step. rewrite Hd. reflexivity. }
    rewrite Hstep.
    destruct (IH (fun x Hx => Hs x (or_intror Hx))
                 (mkConn (committed (fst st)) d, snd st ++ [au_id a])
                 (processed ++ [au_id a])) as [H1 H2].
    { simpl. apply (closed_since_step _ _ _ _ _ w Hinv Hw). }
    simpl map. split.
    + rewrite <- app_assoc in H1. exact H1.
    + rewrite H2. simpl. rewrite <- app_assoc. reflexivity.
Qed.

Lemma job_loop_closes (t0 : list Auction) (l : list Auction) :
  (forall a, In a l -> truthy_id (au_seller_id a) = true) ->
  forall (c : Connection) (processed : list nat),
    closed_since processed t0 (auctions (working c)) ->
    closed_since (processed ++ map au_id l) t0
      (auctions (working (fold_left Jobs.job_step l c))).
Proof.
  induction l as [|a l IH]; intros Hs c processed Hinv.
  - simpl. rewrite app_nil_r. exact Hinv.
  - simpl fold_left.
    destruct (service_settle_total a (working c) (Hs a (or_introl eq_refl)))
      as [d Hd].
    destruct (service_settle_auctions _ _ _ Hd) as [w Hw].
    assert (Hstep : Jobs.job_step c a = mkConn (committed c) d).
    { unfold Jobs.job_step. rewrite Hd. reflexivity. }
    rewrite Hstep.
    pose proof (IH (fun x Hx => Hs x (or_intror Hx)) (mkConn (committed c) d)
                   (processed ++ [au_id a])) as H1.
    simpl map. rewrite <- app_assoc in H1. apply H1.
    simpl. apply (closed_since_step _ _ _ _ _ w Hinv Hw).
Qed.

(** [POST /api/auctions/process-ended], when every ended auction names its
    seller: it reports the ids of all the ended auctions, in their order,
    and leaves none open and ended, so that calling it again at the same
    instant reports nothing and changes nothing. *)
Theorem process_ended_auctions_leaves_nothing_to_process :
  forall (now : Z) (db : DB),
    (forall a, In a (ended_auctions now db) -> truthy_id (au_seller_id a) = true) ->
    fst (App.process_ended_auctions now db) = map au_id (ended_auctions now db) /\
    ended_auctions now (snd (App.process_ended_auctions now db)) = [] /\
    App.process_ended_auctions now (snd (App.process_ended_auctions now db))
    = ([], snd (App.process_ended_auctions now db)).
Proof.
  intros now db Hs.
  destruct (process_loop_closes (auctions db) (ended_auctions now db) Hs
              (mkConn db db, []) [] (closed_since_start _)) as [Hinv Hids].
  simpl in Hinv, Hids.
  assert (Hnone : ended_auctions now (snd (App.process_ended_auctions now db)) = []).
  { unfold App.process_ended_auctions. simpl.
    apply (closed_since_nothing_ended now db). exact Hinv. }
  split; [exact Hids|]. split; [exact Hnone|].
  set (db' := snd (App.process_ended_auctions now db)) in *.
  unfold App.process_ended_auctions at 1. simpl. rewrite Hnone. reflexivity.
Qed.

Lemma process_ended_auctions_leaves_nothing_to_process_witness :
  fst (App.process_ended_auctions 60 Samples.two_auctions)
  = map au_id (ended_auctions 60 Samples.two_auctions) /\
  ended_auctions 60 (snd (App.process_ended_auctions 60 Samples.two_auctions)) = [] /\
  App.process_ended_auctions 60 (snd (App.process_ended_auctions 60 Samples.two_auctions))
  = ([], snd (App.process_ended_auctions 60 Samples.two_auctions)).
Proof.
  apply (process_ended_auctions_leaves_nothing_to_process 60 Samples.two_auctions).
  intros a Ha. vm_compute in Ha. destruct Ha as [<-|[]]. reflexivity.
Defined.

(** The scheduler's job, when every ended auction names its seller: it
    leaves no auction open and ended, so that a second run at the same
    instant changes nothing. *)
Theorem job_leaves_nothing_to_process :
  forall (now : Z) (db : DB),
    (forall a, In a (ended_auctions now db) -> truthy_id (au_seller_id a) = true) ->
    ended_auctions now (Jobs.process_ended_auctions_job now db) = [] /\
    Jobs.process_ended_auctions_job now (Jobs.process_ended_auctions_job now db)
    = Jobs.process_ended_auctions_job now db.
Proof.
  intros now db Hs.
  pose proof (job_loop_closes (auctions db) (ended_auctions now db) Hs
                (mkConn db db) [] (closed_since_start _)) as Hinv.
  simpl in Hinv.
  assert (Hnone : ended_auctions now (Jobs.process_ended_auctions_job now db) = []).
  { unfold Jobs.process_ended_auctions_job. simpl.
    apply (closed_since_nothing_ended now db). exact Hinv. }
  split; [exact Hnone|].
  set (db' := Jobs.process_ended_auctions_job now db) in *.
  unfold Jobs.process_ended_auctions_job at 1. simpl. rewrite Hnone. reflexivity.
Qed.

Lemma job_leaves_nothing_to_process_witness :
  ended_auctions 60 (Jobs.process_ended_auctions_job 60 Samples.two_auctions) = [] /\
  Jobs.process_ended_auctions_job 60
    (Jobs.process_ended_auctions_job 60 Samples.two_auctions)
  = Jobs.process_ended_auctions_job 60 Samples.two_auctions.
Proof.
  apply (job_leaves_nothing_to_process 60 Samples.two_auctions).
  intros a Ha. vm_compute in Ha. destruct Ha as [<-|[]]. reflexivity.
Defined.

(* ------------------------------------------------------------------ *)
(** *** The winning bid *)

Lemma top_bid_none (l : list Bid) : top_bid l = None -> l = [].
Proof.
  destruct l as [|b l]; [reflexivity|]. simpl.
  destruct (top_bid l) as [m|]; [|discriminate].
  destruct (Qle_bool (bid_amount m) (bid_amount b)); discriminate.
Qed.

(** [find_winning_bid] answers with an active bid on the auction that no
    other active bid on it exceeds, and with nothing only when the auction
    has no active bid. *)
Theorem find_winning_bid_is_a_highest_active_bid :
  forall (auction_id : nat) (db : DB),
    match find_winning_bid auction_id db with
    | Some m =>
        In m (bids db) /\ bid_auction_id m = auction_id /\ bid_is_active m = true /\
        forall b, In b (bids db) -> bid_auction_id b = auction_id ->
                  bid_is_active b = true -> bid_amount b <= bid_amount m
    | None =>
        forall b, In b (bids db) -> bid_auction_id b = auction_id ->
                  bid_is_active b = false
    end.
Proof.
  intros auction_id db. unfold find_winning_bid.
  destruct (top_bid (active_bids auction_id db)) as [m|] eqn:E.
  - pose proof (top_bid_in _ _ E) as Hin. unfold active_bids in Hin.
    apply filter_In in Hin. destruct Hin as [Hin Hact].
    unfold active_in in Hact. apply andb_true_iff in Hact. destruct Hact as [Hid Ha].
    apply Nat.eqb_eq in Hid.
    repeat split; try assumption.
    intros b Hb Hbid Hba. apply (top_bid_max _ _ E).
    unfold active_bids. apply filter_In. split; [exact Hb|].
    unfold active_in. rewrite Hbid, Nat.eqb_refl, Hba. reflexivity.
  - apply top_bid_none in E. intros b Hb Hbid.
    destruct (bid_is_active b) eqn:Hba; [|reflexivity].
    assert (Hin : In b (active_bids auction_id db)).
    { unfold active_bids. apply filter_In. split; [exact Hb|].
      unfold active_in. rewrite Hbid, Nat.eqb_refl, Hba. reflexivity. }
    rewrite E in Hin. destruct Hin.
Qed.

Lemma deactivate_by_auction_same (auction_id : nat) (db : DB) :
  BidRepository.deactivate_by_auction auction_id db = deactivate_bids auction_id db.
Proof.
  unfold BidRepository.deactivate_by_auction, deactivate_bids. f_equal.
  apply map_ext. intros b. unfold active_in.
  destruct (Nat.eqb (bid_auction_id b) auction_id); [|reflexivity].
  destruct b as [i a u q act]. destruct act; reflexivity.
Qed.

Lemma active_bids_of_other_auction (auction_id other : nat) (db : DB) :
  other <> auction_id ->
  active_bids other (deactivate_bids auction_id db) = active_bids other db.
Proof.
  intros Hne. unfold active_bids, deactivate_bids. simpl.
  induction (bids db) as [|b l IH]; [reflexivity|]. simpl.
  destruct (active_in auction_id b) eqn:Ea.
  - unfold active_in in Ea. apply andb_true_iff in Ea. destruct Ea as [Hid _].
    apply Nat.eqb_eq in Hid.
    assert (H1 : active_in other (inactive b) = false).
    { unfold active_in. simpl. rewrite andb_false_r. reflexivity. }
    assert (H2 : active_in other b = false).
    { unfold active_in. rewrite Hid.
      destruct (Nat.eqb_spec auction_id other) as [E|_]; [congruence | reflexivity]. }
    rewrite H1, H2. exact IH.
  - destruct (active_in other b); rewrite IH; reflexivity.
Qed.

(** After [BidRepository.deactivate_by_auction] the auction has no winning
    bid, while the winning bid of every other auction is the one it was. *)
Theorem deactivate_by_auction_leaves_no_winning_bid :
  forall (auction_id : nat) (db : DB),
    find_winning_bid auction_id (BidRepository.deactivate_by_auction auction_id db)
    = None /\
    forall other, other <> auction_id ->
      find_winning_bid other (BidRepository.deactivate_by_auction auction_id db)
      = find_winning_bid other db.
Proof.
  intros auction_id db. rewrite deactivate_by_auction_same. unfold find_winning_bid.
  split.
  - rewrite no_active_after_deactivate. reflexivity.
  - intros other Hne. rewrite active_bids_of_other_auction by exact Hne. reflexivity.
Qed.

(* ------------------------------------------------------------------ *)
(** *** An ended auction without bids *)

(** Settling an auction on which no bid is active, on either path: the
    settlement goes through, closes the auction without a winner, unlists
    the artwork and leaves it with its owner, and touches no balance, no
    transaction and no bid. *)
Theorem settling_an_auction_without_bids :
  forall (auction : Auction) (db : DB),
    find_auction (au_id auction) db = Some auction ->
    active_bids (au_id auction) db = [] ->
    truthy_id (au_seller_id auction) = true
    \/ find_artwork (au_artwork_id auction) db <> None ->
    exists d1 d2,
      AuctionService.process_ended_auction auction db = Ok d1 /\
      App._process_ended_auction auction db = Ok d2 /\
      forall d, d = d1 \/ d = d2 ->
        status_of (au_id auction) d = Some StClosed /\
        winner_of (au_id auction) d = None /\
        balances d = balances db /\
        transactions d = transactions db /\
        bids d = bids db /\
        forall a, find_artwork (au_artwork_id auction) db = Some a ->
          exists a', find_artwork (au_artwork_id auction) d = Some a' /\
                     ar_is_listed a' = false /\ ar_owner_id a' = ar_owner_id a.
Proof.
  intros auction db Hrow Hnone Hseller.
  destruct (service_seller_resolves auction db Hseller) as [s1 Hs1].
  destruct (app_seller_resolves auction db Hseller) as [s2 Hs2].
  exists (update_artwork (au_artwork_id auction) unlist
            (close_auction_row (au_id auction) None db)).
  exists (update_artwork (au_artwork_id auction) unlist_clear
            (close_auction_row (au_id auction) None db)).
  split.
  { unfold AuctionService.process_ended_auction. rewrite Hs1.
    unfold find_winning_bid. rewrite Hnone. reflexivity. }
  split.
  { unfold App._process_ended_auction. rewrite Hs2.
    unfold find_winning_bid. rewrite Hnone. reflexivity. }
  assert (Hst : forall f,
            find_auction (au_id auction)
              (update_artwork (au_artwork_id auction) f
                 (close_auction_row (au_id auction) None db))
            = Some (mkAuction (au_id auction) (au_artwork_id auction)
                      (au_seller_id auction) (au_start_price auction)
                      (au_reserve_price auction) (au_end_time auction) StClosed None)).
  { intros f.
    change (find_auction (au_id auction) (update_artwork ?x f ?d))
      with (find_auction (au_id auction) d).
    rewrite find_auction_close, Hrow. reflexivity. }
  intros d [-> | ->]; unfold status_of, winner_of; rewrite Hst;
    repeat split; try reflexivity;
    intros a Ha;
    change (find_artwork ?x (update_artwork ?y ?f (close_auction_row ?i ?w db)))
      with (find_artwork x (update_artwork y f db));
    (rewrite find_artwork_update by reflexivity);
    rewrite Ha; simpl; eexists; repeat split; reflexivity.
Qed.

Lemma settling_an_auction_without_bids_witness :
  exists d1 d2,
    AuctionService.process_ended_auction
      (mkAuction 100 10 (Some 1%nat) 100 None 50 StOpen None) Samples.no_bids = Ok d1 /\
    App._process_ended_auction
      (mkAuction 100 10 (Some 1%nat) 100 None 50 StOpen None) Samples.no_bids = Ok d2 /\
    forall d, d = d1 \/ d = d2 ->
      status_of 100 d = Some StClosed /\
      winner_of 100 d = None /\
      balances d = balances Samples.no_bids /\
      transactions d = transactions Samples.no_bids /\
      bids d = bids Samples.no_bids /\
      forall a, find_artwork 10 Samples.no_bids = Some a ->
        exists a', find_artwork 10 d = Some a' /\
                   ar_is_listed a' = false /\ ar_owner_id a' = ar_owner_id a.
Proof.
  apply (settling_an_auction_without_bids
           (mkAuction 100 10 (Some 1%nat) 100 None 50 StOpen None) Samples.no_bids).
  - reflexivity.
  - reflexivity.
  - left. reflexivity.
Defined.

(* ------------------------------------------------------------------ *)
(** *** Delisting an artwork *)

Lemma find_gives_row {A} (p : A -> bool) (l : list A) (x : A) :
  In x l -> p x = true -> find p l <> None.
Proof.
  intros Hin Hp Hnone. pose proof (find_none p l Hnone x Hin) as H. congruence.
Qed.

(** What a cancellation of auction 100 leaves of [Samples.two_bidders], in
    numbers. *)
Lemma two_bidders_cancelled_in_numbers (d : DB) :
  cancelled_and_refunded 100 (Samples.two_bidders None) d ->
  status_of 100 d = Some StCancelled /\
  bids d = [mkBid 1 100 2 150 false; mkBid 2 100 3 200 false] /\
  available_of 2 d == 650 /\ pending_of 2 d == 0 /\
  available_of 3 d == 1000 /\ pending_of 3 d == 0 /\
  find_balance 1 d = Some (mkBalance 1 40 0).
Proof.
  intros [Hst [Hoff [Hin Hout]]].
  split; [exact Hst|]. split; [exact Hoff|].
  destruct (Hin 2%nat) as [Ha2 [Hp2 _]].
  { exists (mkBid 1 100 2 150 true). simpl. repeat split; auto. }
  destruct (Hin 3%nat) as [Ha3 [Hp3 _]].
  { exists (mkBid 2 100 3 200 true). simpl. repeat split; auto. }
  split; [rewrite Ha2; vm_compute; reflexivity|].
  split; [rewrite Hp2; vm_compute; [reflexivity | discriminate]|].
  split; [rewrite Ha3; vm_compute; reflexivity|].
  split; [rewrite Hp3; vm_compute; [reflexivity | discriminate]|].
  rewrite (Hout 1%nat); [reflexivity|].
  intros [b [Hb [_ [_ Hu]]]]. simpl in Hb.
  destruct Hb as [<- | [<- | []]]; discriminate Hu.
Qed.

(** The owner delists an artwork that has an open auction: the request
    succeeds, the auction is cancelled, every active bid on it is switched
    off and its bidder gets the total of their active bids back, nobody
    else's balance row changes, the artwork is unlisted with its listing
    type cleared and stays with its owner, and no other artwork changes. *)
Theorem delist_cancels_the_open_auction_and_refunds :
  forall (user_id artwork_id : nat) (db : DB) (artwork : Artwork) (au : Auction),
    find_artwork artwork_id db = Some artwork ->
    ar_owner_id artwork = user_id ->
    find (fun au => Nat.eqb (au_artwork_id au) artwork_id
                    && status_eqb (au_status au) StOpen) (auctions db) = Some au ->
    exists db',
      App.delist_artwork user_id artwork_id db = (Success "delisted", db') /\
      cancelled_and_refunded (au_id au) db db' /\
      find_artwork artwork_id db'
      = Some (mkArtwork (ar_id artwork) (ar_owner_id artwork) false None) /\
      (forall x, x <> artwork_id -> find_artwork x db' = find_artwork x db).
Proof.
  intros user_id artwork_id db artwork au Hart Hown Hau.
  unfold App.delist_artwork. rewrite Hart, Hown, Nat.eqb_refl. simpl negb. cbv iota.
  rewrite Hau.
  eexists. split; [reflexivity|].
  assert (Hrow : exists a, find_auction (au_id au) db = Some a).
  { destruct (find_auction (au_id au) db) as [a|] eqn:E; [exists a; reflexivity|].
    exfalso. apply find_some in Hau. destruct Hau as [Hin _].
    apply (find_gives_row (fun a => Nat.eqb (au_id a) (au_id au)) _ _ Hin
             (Nat.eqb_refl _)). exact E. }
  destruct Hrow as [a Hrow].
  destruct (cancel_auction_read_off (au_id au) db a Hrow) as [Hc Harts].
  split; [exact Hc|].
  split.
  - rewrite find_artwork_update by reflexivity.
    rewrite (find_artwork_ext _ _ _ Harts), Hart.
    simpl. unfold unlist_clear. rewrite Hown. reflexivity.
  - intros x Hne. rewrite find_artwork_update_other by (try reflexivity; exact Hne).
    apply find_artwork_ext. exact Harts.
Qed.

(** Seller 1 delists artwork 10 of [Samples.two_bidders]: auction 100 is
    cancelled, both bids are inactive, user 2 is at 650 available and user
    3 at 1000, nothing pending, and the artwork is unlisted. *)
Lemma delist_cancels_the_open_auction_and_refunds_witness :
  exists db',
    App.delist_artwork 1 10 (Samples.two_bidders None) = (Success "delisted", db') /\
    status_of 100 db' = Some StCancelled /\
    bids db' = [mkBid 1 100 2 150 false; mkBid 2 100 3 200 false] /\
    available_of 2 db' == 650 /\ pending_of 2 db' == 0 /\
    available_of 3 db' == 1000 /\ pending_of 3 db' == 0 /\
    find_balance 1 db' = Some (mkBalance 1 40 0) /\
    find_artwork 10 db' = Some (mkArtwork 10 1 false None).
Proof.
  destruct (delist_cancels_the_open_auction_and_refunds 1 10 (Samples.two_bidders None)
              (mkArtwork 10 1 true (Some LAuction))
              (mkAuction 100 10 (Some 1%nat) 100 None 50 StOpen None)
              eq_refl eq_refl eq_refl)
    as [db' [E [Hc [Hart _]]]].
  exists db'. split; [exact E|].
  destruct (two_bidders_cancelled_in_numbers db' Hc)
    as [H1 [H2 [H3 [H4 [H5 [H6 H7]]]]]].
  repeat (split; [assumption|]). exact Hart.
Defined.

(** A user who does not own the artwork cannot delist it: the request is
    refused with 403 and nothing changes; an unknown artwork gives 404. *)
Theorem delist_is_for_the_owner_only :
  forall (user_id artwork_id : nat) (db : DB),
    (forall artwork, find_artwork artwork_id db = Some artwork ->
                     ar_owner_id artwork <> user_id ->
                     App.delist_artwork user_id artwork_id db = (Failure 403 "Forbidden", db)) /\
    (find_artwork artwork_id db = None ->
     App.delist_artwork user_id artwork_id db = (Failure 404 "Artwork not found", db)) /\
    (forall db', App.delist_artwork user_id artwork_id db = (Success "delisted", db') ->
                 exists artwork, find_artwork artwork_id db = Some artwork
                                 /\ ar_owner_id artwork = user_id).
Proof.
  intros user_id artwork_id db. unfold App.delist_artwork.
  split; [|split].
  - intros artwork Ha Hne. rewrite Ha.
    destruct (Nat.eqb_spec (ar_owner_id artwork) user_id) as [E|_]; [contradiction|].
    reflexivity.
  - intros Ha. rewrite Ha. reflexivity.
  - intros db'. destruct (find_artwork artwork_id db) as [artwork|]; [|discriminate].
    destruct (Nat.eqb_spec (ar_owner_id artwork) user_id) as [E|_]; simpl.
    + intros _. exists artwork. split; [reflexivity | exact E].
    + discriminate.
Qed.

(** On [Samples.two_bidders], where seller 1 owns artwork 10: bidder 2 is
    refused with 403, an artwork 99 that does not exist gives 404, neither
    request changes the database, and the owner's request goes through. *)
Lemma delist_is_for_the_owner_only_witness :
  App.delist_artwork 2 10 (Samples.two_bidders None)
  = (Failure 403 "Forbidden", Samples.two_bidders None) /\
  App.delist_artwork 2 99 (Samples.two_bidders None)
  = (Failure 404 "Artwork not found", Samples.two_bidders None) /\
  fst (App.delist_artwork 1 10 (Samples.two_bidders None)) = Success "delisted".
Proof.
  destruct (delist_is_for_the_owner_only 2 10 (Samples.two_bidders None))
    as [H403 _].
  destruct (delist_is_for_the_owner_only 2 99 (Samples.two_bidders None))
    as [_ [H404 _]].
  split; [apply (H403 (mkArtwork 10 1 true (Some LAuction)) eq_refl); discriminate|].
  split; [apply H404; reflexivity | reflexivity].
Defined.

(* ------------------------------------------------------------------ *)
(** *** Listing an artwork *)







(** A listing at a fixed price that is accepted cancels the auction row of
    the artwork, whatever its status: the auction ends up cancelled, every
    active bid on it is switched off and its bidder refunded the total of
    those bids, nobody else's balance row changes, and the artwork is
    listed at a fixed price and stays with the caller, its owner. *)
Theorem fixed_price_listing_cancels_the_auction :
  forall (u artwork_id : nat) (data : App.ListingData) (now : Z) (db db' : DB)
         (au : Auction),
    App.l_type data = None \/ App.l_type data = Some "fixed"%string ->
    App.list_artwork u artwork_id data now db = (Success "listed", db') ->
    find (fun au => Nat.eqb (au_artwork_id au) artwork_id) (auctions db) = Some au ->
    cancelled_and_refunded (au_id au) db db' /\
    exists artwork,
      find_artwork artwork_id db = Some artwork /\ ar_owner_id artwork = u /\
      find_artwork artwork_id db' = Some (mkArtwork (ar_id artwork) u true (Some LFixed)).
Proof.
  intros u artwork_id data now db db' au Htype.
  unfold App.list_artwork, App.unexpected_error.
  assert (Hfixed : String.eqb (match App.l_type data with
                               | Some t => t
                               | None => "fixed"%string
                               end) "fixed" = true).
  { destruct Htype as [-> | ->]; reflexivity. }
  rewrite Hfixed. clear Hfixed.
  destruct (find_artwork artwork_id db) as [artwork|] eqn:Eart; [|discriminate].
  destruct (Nat.eqb_spec (ar_owner_id artwork) u) as [Eown|_]; [|discriminate].
  cbn [negb]. cbv iota.
  destruct (App.l_price data) as [price|]; [|discriminate].
  destruct (App.float_overflows price); [discriminate|].
  destruct (Qle_bool (App.number_value price) 0); [discriminate|].
  intros Hres Hau. rewrite Hau in Hres. cbv zeta in Hres.
  assert (Hdb' : db' = update_artwork artwork_id (App.list_as LFixed)
                         (App.cancel_auction (au_id au) StCancelled db)).
  { destruct (match App.l_duration_hours data with
              | Some h => (h <=? 0)%Z
              | None => false
              end); [discriminate|].
    destruct (match App.l_duration_hours data with
              | Some h => App.date_overflows now h
              | None => false
              end); [discriminate|].
    destruct (App.bind_overflows price); [discriminate|].
    injection Hres as <-. reflexivity. }
  subst db'.
  assert (Hrow : exists a, find_auction (au_id au) db = Some a).
  { destruct (find_auction (au_id au) db) as [a|] eqn:E; [exists a; reflexivity|].
    exfalso. apply find_some in Hau. destruct Hau as [Hin _].
    apply (find_gives_row (fun a => Nat.eqb (au_id a) (au_id au)) _ _ Hin
             (Nat.eqb_refl _)). exact E. }
  destruct Hrow as [a Hrow].
  destruct (cancel_auction_read_off (au_id au) db a Hrow) as [Hc Harts].
  split; [exact Hc|].
  exists artwork. split; [reflexivity|]. split; [exact Eown|].
  rewrite find_artwork_update by reflexivity.
  rewrite (find_artwork_ext _ _ _ Harts), Eart.
  simpl. unfold App.list_as. rewrite Eown. reflexivity.
Qed.

(** Seller 1 lists artwork 10 of [Samples.two_bidders] at the fixed price
    500 while its auction has bids of 150 and 200: the auction is
    cancelled, both bids are inactive, user 2 is at 650 available and user
    3 at 1000, nothing pending, and the artwork is listed at a fixed
    price. *)
Lemma fixed_price_listing_cancels_the_auction_witness :
  exists db',
    App.list_artwork 1 10
      (App.mkListingData None (Some (App.JInt 500)) None None None)
      40 (Samples.two_bidders None) = (Success "listed", db') /\
    status_of 100 db' = Some StCancelled /\
    bids db' = [mkBid 1 100 2 150 false; mkBid 2 100 3 200 false] /\
    available_of 2 db' == 650 /\ pending_of 2 db' == 0 /\
    available_of 3 db' == 1000 /\ pending_of 3 db' == 0 /\
    find_balance 1 db' = Some (mkBalance 1 40 0) /\
    find_artwork 10 db' = Some (mkArtwork 10 1 true (Some LFixed)).
Proof.
  eexists. split; [vm_compute; reflexivity|].
  match goal with
  | |- status_of 100 ?d = _ /\ _ =>
      destruct (fixed_price_listing_cancels_the_auction 1 10
                  (App.mkListingData None (Some (App.JInt 500)) None None None)
                  40 (Samples.two_bidders None) d
                  (mkAuction 100 10 (Some 1%nat) 100 None 50 StOpen None)
                  (or_introl eq_refl))
        as [Hc [artwork [Ha [_ Hart]]]];
        [vm_compute; reflexivity | reflexivity |]
  end.
  injection Ha as <-.
  destruct (two_bidders_cancelled_in_numbers _ Hc)
    as [H1 [H2 [H3 [H4 [H5 [H6 H7]]]]]].
  repeat (split; [assumption|]). exact Hart.
Defined.

(** An integer start price of [2^63] does not fit a SQL integer: the
    statement that stores it raises, the request is answered with 500 and
    nothing is committed. *)
Lemma listing_with_a_start_price_beyond_64_bits_fails :
  App.list_artwork 1 10
    (App.mkListingData (Some "auction"%string) None None
                       (Some (App.JInt (2 ^ 63))) None)
    60 Samples.closed_unsold
  = (Failure 500 "An unexpected error occurred", Samples.closed_unsold).
Proof. vm_compute. reflexivity. Qed.
